(** * DeltaFi client: byte layouts, instruction encoders and state loaders

    A shallow embedding of the TypeScript client under [lib/client/src]:
    the account layouts of [layout.ts], the [Struct]/[Fees]/[Rewards]
    wrappers of [struct/], the instruction encoders of [instructions.ts],
    [instructions/admin.ts] and the swap family that follows it, the
    farm loader of [farm.ts] and the methods of the later Farm class.

    The client is written against two third-party packages whose behaviour
    the encoders rely on: Node's [Buffer] and the [buffer-layout] package.
    Both are modelled here as far as the client uses them (modules [Buffer]
    and [BufferLayout]); exceptions are explicit ([result]). *)

From Stdlib Require Import ZArith String List Bool Lia.
Import ListNotations.
Set Warnings "-register-all".
Local Open Scope string_scope.
Local Open Scope list_scope.
Local Open Scope Z_scope.

(** ** Exceptions *)

(** The JavaScript exceptions the client can raise. *)
Inductive exn : Type :=
| RangeError
| TypeError
| AssertionError
| Error (message : string).

Inductive result (A : Type) : Type :=
| Ok (a : A)
| Throw (e : exn).

Arguments Ok {A} a.
Arguments Throw {A} e.

Definition bind {A B : Type} (r : result A) (k : A -> result B) : result B :=
  match r with
  | Ok a => k a
  | Throw e => Throw e
  end.

Notation "x <- r ;; k" := (bind r (fun x => k))
  (at level 61, r at next level, right associativity).
Notation "' p <- r ;; k" := (bind r (fun x => let p := x in k))
  (at level 61, p pattern, r at next level, right associativity).

Definition fails {A : Type} (r : result A) : Prop := exists e, r = Throw e.

(** ** JavaScript numbers

    A number is NaN or a value known by its integer part (its floor) and
    by whether it has a fractional part; that is all the range checks and
    the byte writes of [Buffer] look at.  An infinite value is represented
    by a floor beyond every width used here. *)
Inductive number : Type :=
| NaN
| Finite (floor : Z) (fractional : bool).

Definition Int (n : Z) : number := Finite n false.

(** [round_double n] is the double nearest to the integer [n] (ties to
    even): the number a decimal text of [n] denotes, and the result of a
    floating-point sum whose exact value is [n]. *)
Definition round_nonneg (n : Z) : Z :=
  if n <? 2 ^ 53 then n
  else
    let e := Z.log2 n - 52 in
    let q := Z.shiftr n e in
    let r := n - Z.shiftl q e in
    let half := Z.shiftl 1 (e - 1) in
    let q' := if r <? half then q
              else if half <? r then q + 1
              else if Z.even q then q else q + 1 in
    Z.shiftl q' e.

Definition round_double (n : Z) : Z :=
  if n <? 0 then - round_nonneg (- n) else round_nonneg n.

(** ** Node's Buffer *)

Module Buffer.

(** A buffer is its bytes, each in 0..255. *)
Definition t : Type := list Z.

Definition alloc (size : nat) : t := repeat 0 size.

Definition adjustOffset (offset len : Z) : Z :=
  if offset <? 0 then Z.max (offset + len) 0 else Z.min offset len.

(** [buf.slice(start, end)] *)
Definition slice (b : t) (start end_ : Z) : t :=
  let len := Z.of_nat (length b) in
  let s := adjustOffset start len in
  let e := adjustOffset end_ len in
  firstn (Z.to_nat (e - s)) (skipn (Z.to_nat s) b).

(** Little-endian bytes of an integer, two's complement when negative. *)
Fixpoint le_bytes (k : nat) (n : Z) : list Z :=
  match k with
  | O => []
  | S k' => Z.land n 255 :: le_bytes k' (Z.shiftr n 8)
  end.

Fixpoint from_le (bytes : list Z) : Z :=
  match bytes with
  | [] => 0
  | x :: rest => x + 256 * from_le rest
  end.

Definition write_at (b : t) (offset : nat) (bytes : list Z) : t :=
  firstn offset b ++ bytes ++ skipn (offset + length bytes) b.

(** [value > max || value < min] of [checkInt]; NaN passes. *)
Definition out_of_range (value : number) (min max : Z) : bool :=
  match value with
  | NaN => false
  | Finite n frac => (max <? n) || ((n =? max) && frac) || (n <? min)
  end.

Definition stored (value : number) : Z :=
  match value with
  | NaN => 0
  | Finite n _ => n
  end.

(** The integer writers: a value outside [min..max] or an offset outside
    the buffer raises a RangeError, otherwise [byteLength] bytes are
    stored at [offset]. *)
Definition writeInt (min max : Z) (byteLength : nat)
           (value : number) (offset : nat) (b : t) : result t :=
  if out_of_range value min max then Throw RangeError
  else if (offset + byteLength <=? length b)%nat
       then Ok (write_at b offset (le_bytes byteLength (stored value)))
       else Throw RangeError.

Definition writeUIntLE (value : number) (offset byteLength : nat) (b : t)
  : result t :=
  writeInt 0 (2 ^ (8 * Z.of_nat byteLength) - 1) byteLength value offset b.

Definition writeUInt32LE (value : number) (offset : nat) (b : t) : result t :=
  writeInt 0 4294967295 4 value offset b.

Definition writeInt32LE (value : number) (offset : nat) (b : t) : result t :=
  writeInt (-2147483648) 2147483647 4 value offset b.

(** The integer readers raise a RangeError when the bytes are not all
    inside the buffer. *)
Definition readUIntLE (b : t) (offset byteLength : nat) : result Z :=
  if (offset + byteLength <=? length b)%nat
  then Ok (from_le (firstn byteLength (skipn offset b)))
  else Throw RangeError.

Definition readUInt32LE (b : t) (offset : nat) : result Z :=
  readUIntLE b offset 4.

Definition readInt32LE (b : t) (offset : nat) : result Z :=
  u <- readUIntLE b offset 4 ;;
  Ok (if u <? 2147483648 then u else u - 4294967296).

End Buffer.

(** ** JavaScript values handed to and returned by the layouts *)

Inductive value : Type :=
| VUndef
| VNum (n : Z)                        (* an integer-valued number *)
| VNaN
| VBN (n : Z)                         (* a bn.js integer, NumberU64 included *)
| VBuf (b : Buffer.t)
| VObj (fields : list (string * value)).

Fixpoint lookup (fields : list (string * value)) (p : string) : value :=
  match fields with
  | [] => VUndef
  | (k, v) :: rest => if String.eqb k p then v else lookup rest p
  end.

(** [dest[p] = v] *)
Fixpoint assign (fields : list (string * value)) (p : string) (v : value)
  : list (string * value) :=
  match fields with
  | [] => [(p, v)]
  | (k, w) :: rest =>
      if String.eqb k p then (k, v) :: rest else (k, w) :: assign rest p v
  end.

(** [src[p]].  A buffer or a number carries none of the property names the
    layouts of this client use. *)
Definition get (src : value) (p : string) : result value :=
  match src with
  | VUndef => Throw TypeError
  | VObj fields => Ok (lookup fields p)
  | VBuf b => Ok (if String.eqb p "length" then VNum (Z.of_nat (length b)) else VUndef)
  | VNum _ | VNaN | VBN _ => Ok VUndef
  end.

(** [!v] is true on these. *)
Definition falsy (v : value) : bool :=
  match v with
  | VUndef | VNaN => true
  | VNum n => n =? 0
  | VBN _ | VBuf _ | VObj _ => false
  end.

Section Coercion.

(** A buffer used as a number is first turned into text; ECMAScript's
    grammar of numeric texts is left open. *)
Variable StringToNumber : list Z -> number.

(** The ASCII characters a numeric text can hold: white space, digits,
    sign, point, exponent, the radix prefixes and hexadecimal digits,
    and the letters of Infinity. *)
Definition literal_char (c : Z) : bool :=
  ((9 <=? c) && (c <=? 13)) || (c =? 32)
  || ((48 <=? c) && (c <=? 57))
  || (c =? 43) || (c =? 45) || (c =? 46)
  || ((65 <=? c) && (c <=? 70)) || ((97 <=? c) && (c <=? 102))
  || (c =? 88) || (c =? 120) || (c =? 79) || (c =? 111)
  || (c =? 73) || (c =? 110) || (c =? 105) || (c =? 116) || (c =? 121).

(** Text holding any other ASCII character is NaN. *)
Definition BufferToNumber (b : Buffer.t) : number :=
  if existsb (fun c => (0 <=? c) && (c <? 128) && negb (literal_char c)) b
  then NaN
  else StringToNumber b.

(** ToNumber: a bn.js integer goes through its decimal text, a buffer
    through its UTF-8 text, any other object is NaN. *)
Definition ToNumber (v : value) : number :=
  match v with
  | VUndef | VNaN | VObj _ => NaN
  | VNum n => Int n
  | VBN n => Int (round_double n)
  | VBuf b => BufferToNumber b
  end.

End Coercion.

(** ** The buffer-layout package *)

Module BufferLayout.

(** The layouts the client builds: [u8] and [u32] are [UInt] of span 1
    and 4, [nu64] is [NearUInt64], [ns64] is [NearInt64].  Every layout
    carries the property name it was given, if any. *)
Inductive Layout : Type :=
| UInt (span : nat) (property : option string)
| NearUInt64 (property : option string)
| NearInt64 (property : option string)
| Blob (length : nat) (property : option string)
| Structure (fields : list Layout) (property : option string).

Definition u8 (property : string) : Layout := UInt 1 (Some property).
Definition u32 (property : string) : Layout := UInt 4 (Some property).
Definition nu64 (property : string) : Layout := NearUInt64 (Some property).
Definition ns64 (property : string) : Layout := NearInt64 (Some property).
Definition blob (length : nat) (property : string) : Layout :=
  Blob length (Some property).
Definition struct (fields : list Layout) (property : option string) : Layout :=
  Structure fields property.

Definition property (l : Layout) : option string :=
  match l with
  | UInt _ p | NearUInt64 p | NearInt64 p | Blob _ p | Structure _ p => p
  end.

Fixpoint span (l : Layout) : nat :=
  match l with
  | UInt s _ => s
  | NearUInt64 _ | NearInt64 _ => 8
  | Blob n _ => n
  | Structure fields _ => list_sum (map span fields)
  end.

(** [divmodInt64]: the high and the low 32-bit halves of a number. *)
Definition divmodInt64 (src : number) : number * number :=
  match src with
  | NaN => (NaN, NaN)
  | Finite n frac => (Int (n / 4294967296), Finite (n mod 4294967296) frac)
  end.

(** [roundedInt64] *)
Definition roundedInt64 (hi32 lo32 : Z) : Z :=
  round_double (hi32 * 4294967296 + lo32).

(** The loop of [Structure.encode] over the fields, given the encoder of
    a field: a field whose property is defined in [src] is encoded at its
    offset, any other field is stepped over. *)
Definition encode_fields
           (encode : Layout -> value -> Buffer.t -> nat -> result (Buffer.t * Z))
           (src : value) (firstOffset : nat)
  : list Layout -> Buffer.t -> nat -> nat -> Z -> result (Buffer.t * Z) :=
  fix each (fields : list Layout) (b : Buffer.t)
      (offset lastOffset : nat) (lastWrote : Z) {struct fields} :=
    match fields with
    | [] => Ok (b, Z.of_nat lastOffset + lastWrote - Z.of_nat firstOffset)
    | fd :: rest =>
        r <- match property fd with
             | Some p =>
                 fv <- get src p ;;
                 match fv with
                 | VUndef => Ok (b, Z.of_nat (span fd))
                 | _ => encode fd fv b offset
                 end
             | None => Ok (b, Z.of_nat (span fd))
             end ;;
        each rest (fst r) (offset + span fd)%nat offset (snd r)
    end.

Section Encode.

Variable StringToNumber : list Z -> number.

(** [layout.encode(src, b, offset)]: the buffer after the writes and the
    number of bytes the layout reports as written. *)
Fixpoint encode (l : Layout) (src : value) (b : Buffer.t) (offset : nat)
  : result (Buffer.t * Z) :=
  match l with
  | UInt s _ =>
      b' <- Buffer.writeUIntLE (ToNumber StringToNumber src) offset s b ;;
      Ok (b', Z.of_nat s)
  | NearUInt64 _ =>
      let split := divmodInt64 (ToNumber StringToNumber src) in
      b1 <- Buffer.writeUInt32LE (snd split) offset b ;;
      b2 <- Buffer.writeUInt32LE (fst split) (offset + 4) b1 ;;
      Ok (b2, 8)
  | NearInt64 _ =>
      let split := divmodInt64 (ToNumber StringToNumber src) in
      b1 <- Buffer.writeUInt32LE (snd split) offset b ;;
      b2 <- Buffer.writeInt32LE (fst split) (offset + 4) b1 ;;
      Ok (b2, 8)
  | Blob n _ =>
      match src with
      | VBuf bytes =>
          if (length bytes =? n)%nat then
            if (offset + n <=? length b)%nat
            then Ok (Buffer.write_at b offset bytes, Z.of_nat n)
            else Throw RangeError
          else Throw TypeError
      | _ => Throw TypeError
      end
  | Structure fields _ =>
      encode_fields encode src offset fields b offset O 0
  end.

End Encode.

(** The loop of [Structure.decode] over the fields. *)
Definition decode_fields
           (decode : Layout -> Buffer.t -> nat -> result value) (b : Buffer.t)
  : list Layout -> nat -> list (string * value) -> result value :=
  fix each (fields : list Layout) (offset : nat)
      (dest : list (string * value)) {struct fields} :=
    match fields with
    | [] => Ok (VObj dest)
    | fd :: rest =>
        dest' <- match property fd with
                 | Some p =>
                     v <- decode fd b offset ;;
                     Ok (assign dest p v)
                 | None => Ok dest
                 end ;;
        each rest (offset + span fd)%nat dest'
    end.

(** [layout.decode(b, offset)].  A blob is the slice of the buffer at its
    place, however many bytes are left there. *)
Fixpoint decode (l : Layout) (b : Buffer.t) (offset : nat) : result value :=
  match l with
  | UInt s _ =>
      n <- Buffer.readUIntLE b offset s ;;
      Ok (VNum n)
  | NearUInt64 _ =>
      lo32 <- Buffer.readUInt32LE b offset ;;
      hi32 <- Buffer.readUInt32LE b (offset + 4) ;;
      Ok (VNum (roundedInt64 hi32 lo32))
  | NearInt64 _ =>
      lo32 <- Buffer.readUInt32LE b offset ;;
      hi32 <- Buffer.readInt32LE b (offset + 4) ;;
      Ok (VNum (roundedInt64 hi32 lo32))
  | Blob n _ =>
      Ok (VBuf (Buffer.slice b (Z.of_nat offset) (Z.of_nat (offset + n))))
  | Structure fields _ =>
      decode_fields decode b fields offset []
  end.

End BufferLayout.

Import BufferLayout.

(** ** layout.ts *)

(** Layout for a public key *)
Definition PublicKeyLayout (property : string) : Layout := blob 32 property.

(** Layout for U256 *)
Definition U256Layout (property : string) : Layout := blob 32 property.

(** Layout for FixedU256 *)
Definition FixedU256Layout (property : string) : Layout :=
  struct [U256Layout "inner"; U256Layout "basePoint"] (Some property).

(** Layout for FixedU64 *)
Definition FixedU64Layout (property : string) : Layout :=
  struct [nu64 "inner"; nu64 "basePoint"] (Some property).

(** Layout for fees struct *)
Definition FeesLayout (property : string) : Layout :=
  struct
    [ nu64 "adminTradeFeeNumerator";
      nu64 "adminTradeFeeDenominator";
      nu64 "adminWithdrawFeeNumerator";
      nu64 "adminWithdrawFeeDenominator";
      nu64 "tradeFeeNumerator";
      nu64 "tradeFeeDenominator";
      nu64 "withdrawFeeNumerator";
      nu64 "withdrawFeeDenominator" ]
    (Some property).

(** Layout for rewards struct *)
Definition RewardsLayout (property : string) : Layout :=
  struct
    [ nu64 "tradeRewardNumerator";
      nu64 "tradeRewardDenominator";
      nu64 "tradeRewardCap" ]
    (Some property).

(** Layout for oracle struct *)
Definition OracleLayout (property : string) : Layout :=
  struct
    [ u32 "period";
      PublicKeyLayout "token0";
      PublicKeyLayout "token1";
      U256Layout "price0Cumulative";
      U256Layout "price1Cumulative";
      nu64 "blockTimestamp";
      U256Layout "price0Average";
      U256Layout "price1Average" ]
    (Some property).

(** Layout for config info state *)
Definition ConfigInfoLayout : Layout :=
  struct
    [ u8 "isInitialized";
      u8 "isPaused";
      nu64 "ampFactor";
      ns64 "futureAdminDeadline";
      PublicKeyLayout "futureAdminKey";
      PublicKeyLayout "adminKey";
      PublicKeyLayout "deltafiMint";
      FeesLayout "fees";
      RewardsLayout "rewards" ]
    None.

(** Layout for stable swap state, as [layout.ts] has it. *)
Definition StableSwapLayout : Layout :=
  struct
    [ u8 "isInitialized";
      u8 "isPaused";
      u8 "nonce";
      nu64 "initialAmpFactor";
      nu64 "targetAmpFactor";
      ns64 "startRampTs";
      ns64 "stopRampTs";
      ns64 "futureAdminDeadline";
      PublicKeyLayout "futureAdminAccount";
      PublicKeyLayout "adminAccount";
      PublicKeyLayout "tokenAccountA";
      PublicKeyLayout "tokenAccountB";
      PublicKeyLayout "tokenPool";
      PublicKeyLayout "mintA";
      PublicKeyLayout "mintB";
      PublicKeyLayout "deltafiTokenAccount";
      PublicKeyLayout "deltafiTokenMint";
      PublicKeyLayout "adminFeeAccountA";
      PublicKeyLayout "adminFeeAccountB";
      FeesLayout "fees";
      OracleLayout "oracle";
      RewardsLayout "rewards";
      FixedU256Layout "k";
      FixedU256Layout "l";
      u8 "r";
      FixedU256Layout "baseTarget";
      FixedU256Layout "quoteTarget";
      FixedU256Layout "baseReserve";
      FixedU256Layout "quoteReserve";
      nu64 "isOpenTwap";
      nu64 "blockTimestamp";
      FixedU256Layout "basePriceCumulative" ]
    None.

(** Layout for stable swap state, as the revision of the layouts that adds
    [ConfigInfoLayout] and [FixedU64Layout] has it. *)
Definition StableSwapLayout_FixedU64 : Layout :=
  struct
    [ u8 "isInitialized";
      u8 "isPaused";
      u8 "nonce";
      nu64 "initialAmpFactor";
      nu64 "targetAmpFactor";
      ns64 "startRampTs";
      ns64 "stopRampTs";
      PublicKeyLayout "tokenAccountA";
      PublicKeyLayout "tokenAccountB";
      PublicKeyLayout "deltafiToken";
      PublicKeyLayout "poolMint";
      PublicKeyLayout "mintA";
      PublicKeyLayout "mintB";
      PublicKeyLayout "deltafiMint";
      PublicKeyLayout "adminFeeAccountA";
      PublicKeyLayout "adminFeeAccountB";
      FeesLayout "fees";
      RewardsLayout "rewards";
      FixedU64Layout "k";
      FixedU64Layout "l";
      u8 "r";
      FixedU64Layout "baseTarget";
      FixedU64Layout "quoteTarget";
      FixedU64Layout "baseReserve";
      FixedU64Layout "quoteReserve";
      nu64 "isOpenTwap";
      nu64 "blockTimestamp";
      FixedU64Layout "basePriceCumulative";
      FixedU64Layout "receiveAmount";
      FixedU64Layout "baseBalance";
      FixedU64Layout "quoteBalance" ]
    None.

(** Layout for farm state: commented out in [layout.ts] (need to be
    fixed); this is the candidate the comment holds. *)
Definition FarmLayout_candidate : Layout :=
  struct
    [ u8 "isInitialized";
      u8 "isPaused";
      u8 "nonce";
      nu64 "initialAmpFactor";
      nu64 "targetAmpFactor";
      ns64 "startRampTs";
      ns64 "stopRampTs";
      ns64 "futureAdminDeadline";
      PublicKeyLayout "futureAdminAccount";
      PublicKeyLayout "adminAccount";
      PublicKeyLayout "tokenAccountA";
      PublicKeyLayout "tokenAccountB";
      PublicKeyLayout "tokenPool";
      PublicKeyLayout "mintA";
      PublicKeyLayout "mintB";
      PublicKeyLayout "adminFeeAccountA";
      PublicKeyLayout "adminFeeAccountB";
      nu64 "adminTradeFeeNumerator";
      nu64 "adminTradeFeeDenominator";
      nu64 "adminWithdrawFeeNumerator";
      nu64 "adminWithdrawFeeDenominator";
      nu64 "tradeFeeNumerator";
      nu64 "tradeFeeDenominator";
      nu64 "withdrawFeeNumerator";
      nu64 "withdrawFeeDenominator" ]
    None.

(** ** util/u64.ts *)

Module NumberU64.

(** A NumberU64 is a bn.js integer. *)
Definition t : Type := Z.

(** Modelled from the spec: [util/u64.ts], which declares class NumberU64
    and its [toBuffer], is not among the sources.  An unsigned 64-bit
    field is 8 bytes, little-endian; encoding fails when the value is
    negative or does not fit the width. *)
Definition fits (n : t) : bool := (0 <=? n) && (n <? 2 ^ 64).

(** Modelled from the spec: [toBuffer] of the same class, as worded
    above. *)
Definition toBuffer (n : t) : result Buffer.t :=
  if fits n then Ok (Buffer.le_bytes 8 n) else Throw AssertionError.

(** What the encoders hand to [new NumberU64(x)]: a JavaScript number
    or a NumberU64. *)
Inductive source : Type :=
| OfNumber (n : Z)
| OfU64 (n : t).

(** The integer [x] stands for. *)
Definition value (x : source) : Z :=
  match x with
  | OfNumber n | OfU64 n => n
  end.

(** Modelled from the spec: the constructor is declared in [util/u64.ts]
    too.  The class is an integer of bn.js (the tests hand a bn.js integer
    where a NumberU64 is asked for), whose constructor returns a bn.js
    integer as it is and takes a number only when its magnitude is below
    2^53, failing an assertion from there on. *)
Definition new (x : source) : result t :=
  match x with
  | OfU64 n => Ok n
  | OfNumber n => if Z.abs n <? 2 ^ 53 then Ok n else Throw AssertionError
  end.

End NumberU64.

(** Modelled from the spec: [Uint64Layout], which [instructions.ts] imports
    from the layouts, is in neither revision of them.  A 64-bit field is 8
    bytes, and the encoders pair this layout with the 8-byte buffer of
    [NumberU64.toBuffer]: an 8-byte blob. *)
Definition Uint64Layout (property : string) : Layout := blob 8 property.

(** ** struct/struct.ts, struct/fees.ts, struct/rewards.ts *)

Module Struct.

Record t : Type := {
  data : value;
  layout : Layout
}.

Section ToBuffer.

Variable StringToNumber : list Z -> number.

Definition toBuffer (this : t) : result Buffer.t :=
  let data := Buffer.alloc (span this.(layout)) in
  '(data, length) <- encode StringToNumber this.(layout) this.(Struct.data) data 0 ;;
  Ok (Buffer.slice data 0 length).

End ToBuffer.

Definition get (this : t) : value := this.(data).

End Struct.

Record IFees : Type := {
  adminTradeFeeNumerator : NumberU64.t;
  adminTradeFeeDenominator : NumberU64.t;
  adminWithdrawFeeNumerator : NumberU64.t;
  adminWithdrawFeeDenominator : NumberU64.t;
  tradeFeeNumerator : NumberU64.t;
  tradeFeeDenominator : NumberU64.t;
  withdrawFeeNumerator : NumberU64.t;
  withdrawFeeDenominator : NumberU64.t
}.

Record IRewards : Type := {
  tradeRewardNumerator : NumberU64.t;
  tradeRewardDenominator : NumberU64.t;
  tradeRewardCap : NumberU64.t
}.

(** The object an [IFees] is at run time: each field a NumberU64. *)
Definition IFees_object (fees : IFees) : value :=
  VObj
    [ ("adminTradeFeeNumerator", VBN fees.(adminTradeFeeNumerator));
      ("adminTradeFeeDenominator", VBN fees.(adminTradeFeeDenominator));
      ("adminWithdrawFeeNumerator", VBN fees.(adminWithdrawFeeNumerator));
      ("adminWithdrawFeeDenominator", VBN fees.(adminWithdrawFeeDenominator));
      ("tradeFeeNumerator", VBN fees.(tradeFeeNumerator));
      ("tradeFeeDenominator", VBN fees.(tradeFeeDenominator));
      ("withdrawFeeNumerator", VBN fees.(withdrawFeeNumerator));
      ("withdrawFeeDenominator", VBN fees.(withdrawFeeDenominator)) ].

Definition IRewards_object (rewards : IRewards) : value :=
  VObj
    [ ("tradeRewardNumerator", VBN rewards.(tradeRewardNumerator));
      ("tradeRewardDenominator", VBN rewards.(tradeRewardDenominator));
      ("tradeRewardCap", VBN rewards.(tradeRewardCap)) ].

Definition Fees (fees : IFees) : Struct.t :=
  {| Struct.data := IFees_object fees; Struct.layout := FeesLayout "fees" |}.

Definition Rewards (rewards : IRewards) : Struct.t :=
  {| Struct.data := IRewards_object rewards;
     Struct.layout := RewardsLayout "rewards" |}.

Definition Fees_fromBuffer (buf : Buffer.t) : result value :=
  decode (FeesLayout "fees") buf 0.

Definition Rewards_fromBuffer (buf : Buffer.t) : result value :=
  decode (RewardsLayout "rewards") buf 0.

(** ** constants.ts *)

Definition DEFAULT_FEE_NUMERATOR : Z := 0.
Definition DEFAULT_FEE_DENOMINATOR : Z := 1000.

(** Each field is [new NumberU64(n)] of a literal far below 2^53, which
    the constructor takes as it is. *)
Definition DEFAULT_FEES : IFees :=
  {| adminTradeFeeNumerator := DEFAULT_FEE_NUMERATOR;
     adminTradeFeeDenominator := DEFAULT_FEE_DENOMINATOR;
     adminWithdrawFeeNumerator := DEFAULT_FEE_NUMERATOR;
     adminWithdrawFeeDenominator := DEFAULT_FEE_DENOMINATOR;
     tradeFeeNumerator := 1;
     tradeFeeDenominator := 4;
     withdrawFeeNumerator := DEFAULT_FEE_NUMERATOR;
     withdrawFeeDenominator := DEFAULT_FEE_DENOMINATOR |}.

Definition DEFAULT_REWARD_NUMERATOR : Z := 1.
Definition DEFAULT_REWARD_DENOMINATOR : Z := 1000.
Definition DEFAULT_REWARD_CAP : Z := 100.
Definition DEFAULT_REWARDS : IRewards :=
  {| tradeRewardNumerator := DEFAULT_REWARD_NUMERATOR;
     tradeRewardDenominator := DEFAULT_REWARD_DENOMINATOR;
     tradeRewardCap := DEFAULT_REWARD_CAP |}.

(** ** Accounts and instructions (web3.js) *)

(** A public key, by its base-58 text. *)
Definition PublicKey : Type := string.

Definition SYSVAR_CLOCK_PUBKEY : PublicKey :=
  "SysvarC1ock11111111111111111111111111111111".

Record Keypair : Type := { publicKey : PublicKey }.

Record AccountMeta : Type := {
  pubkey : PublicKey;
  isSigner : bool;
  isWritable : bool
}.

Record TransactionInstruction : Type := {
  keys : list AccountMeta;
  programId : PublicKey;
  data : Buffer.t
}.

Definition meta (key : PublicKey) (signer writable : bool) : AccountMeta :=
  {| pubkey := key; isSigner := signer; isWritable := writable |}.

(** ** instructions/admin.ts *)

Module Admin.

Inductive AdminInstruction : Type :=
| Initialize
| RampA
| StopRamp
| Pause
| Unpause
| SetFeeAccount
| ApplyNewAdmin
| CommitNewAdmin
| SetNewFees
| SetNewRewards.

(** The numeric value of each member: [Initialize = 99], the others
    counting up from it. *)
Definition code (i : AdminInstruction) : Z :=
  match i with
  | Initialize => 99
  | RampA => 100
  | StopRamp => 101
  | Pause => 102
  | Unpause => 103
  | SetFeeAccount => 104
  | ApplyNewAdmin => 105
  | CommitNewAdmin => 106
  | SetNewFees => 107
  | SetNewRewards => 108
  end.

Section Encoders.

Variable StringToNumber : list Z -> number.

Definition createAdminInitializeInstruction
           (config adminKey deltafiMint : PublicKey)
           (ampFactor : NumberU64.t) (fees rewards : Struct.t)
           (programId : PublicKey) : result TransactionInstruction :=
  let keys :=
    [ meta config true false;
      meta adminKey true false;
      meta deltafiMint false false ] in
  let dataLayout :=
    struct [ u8 "instruction"; nu64 "ampFactor";
             FeesLayout "fees"; RewardsLayout "rewards" ] None in
  let data := Buffer.alloc (span dataLayout) in
  ampFactor' <- NumberU64.toBuffer ampFactor ;;
  fees' <- Struct.toBuffer StringToNumber fees ;;
  rewards' <- Struct.toBuffer StringToNumber rewards ;;
  '(data, _) <- encode StringToNumber dataLayout
                  (VObj [ ("instruction", VNum (code Initialize));
                          ("ampFactor", VBuf ampFactor');
                          ("fees", VBuf fees');
                          ("rewards", VBuf rewards') ])
                  data 0 ;;
  Ok {| keys := keys; data := data; programId := programId |}.

Definition createRampAInstruction
           (tokenSwap authority adminAccount : PublicKey)
           (targetAmp stopRampTimestamp : NumberU64.t)
           (programId : PublicKey) : result TransactionInstruction :=
  let keys :=
    [ meta tokenSwap true false;
      meta authority false false;
      meta adminAccount true false;
      meta SYSVAR_CLOCK_PUBKEY false false ] in
  let dataLayout :=
    struct [ u8 "instruction"; nu64 "targetAmp";
             nu64 "stopRampTimestamp" ] None in
  let data := Buffer.alloc (span dataLayout) in
  targetAmp' <- NumberU64.toBuffer targetAmp ;;
  stopRampTimestamp' <- NumberU64.toBuffer stopRampTimestamp ;;
  '(data, encodeLength) <-
    encode StringToNumber dataLayout
      (VObj [ ("instruction", VNum (code RampA));
              ("targetAmp", VBuf targetAmp');
              ("stopRampTimestamp", VBuf stopRampTimestamp') ])
      data 0 ;;
  let data := Buffer.slice data 0 encodeLength in
  Ok {| keys := keys; data := data; programId := programId |}.

(** The body the six encoders without arguments share, apart from
    their keys and their tag. *)
Definition flagOnly (keys : list AccountMeta) (instruction : AdminInstruction)
           (programId : PublicKey) : result TransactionInstruction :=
  let dataLayout := struct [ u8 "instruction" ] None in
  let data := Buffer.alloc (span dataLayout) in
  '(data, encodeLength) <-
    encode StringToNumber dataLayout
      (VObj [ ("instruction", VNum (code instruction)) ]) data 0 ;;
  let data := Buffer.slice data 0 encodeLength in
  Ok {| keys := keys; data := data; programId := programId |}.

Definition createStopRampInstruction
           (tokenSwapAccount : Keypair) (authority adminAccount : PublicKey)
           (programId : PublicKey) : result TransactionInstruction :=
  flagOnly
    [ meta tokenSwapAccount.(publicKey) true false;
      meta authority false false;
      meta adminAccount true false;
      meta SYSVAR_CLOCK_PUBKEY false false ]
    StopRamp programId.

Definition createPauseInstruction
           (tokenSwapAccount : Keypair) (authority adminAccount : PublicKey)
           (programId : PublicKey) : result TransactionInstruction :=
  flagOnly
    [ meta tokenSwapAccount.(publicKey) true false;
      meta authority false false;
      meta adminAccount true false ]
    Pause programId.

Definition createUnpauseInstruction
           (tokenSwapAccount : Keypair) (authority adminAccount : PublicKey)
           (programId : PublicKey) : result TransactionInstruction :=
  flagOnly
    [ meta tokenSwapAccount.(publicKey) true false;
      meta authority false false;
      meta adminAccount true false ]
    Unpause programId.

Definition createSetFeeAccountInstruction
           (tokenSwapAccount : Keypair)
           (authority adminAccount newFeeAccount : PublicKey)
           (programId : PublicKey) : result TransactionInstruction :=
  flagOnly
    [ meta tokenSwapAccount.(publicKey) true false;
      meta authority false false;
      meta adminAccount true false;
      meta newFeeAccount false false ]
    SetFeeAccount programId.

Definition createApplyNewAdminInstruction
           (tokenSwapAccount : Keypair) (authority adminAccount : PublicKey)
           (programId : PublicKey) : result TransactionInstruction :=
  flagOnly
    [ meta tokenSwapAccount.(publicKey) true false;
      meta authority false false;
      meta adminAccount true false;
      meta SYSVAR_CLOCK_PUBKEY false false ]
    ApplyNewAdmin programId.

Definition createCommitNewAdminInstruction
           (tokenSwapAccount : Keypair)
           (authority adminAccount newAdminAccount : PublicKey)
           (programId : PublicKey) : result TransactionInstruction :=
  flagOnly
    [ meta tokenSwapAccount.(publicKey) true false;
      meta authority false false;
      meta adminAccount true false;
      meta newAdminAccount false false;
      meta SYSVAR_CLOCK_PUBKEY false false ]
    CommitNewAdmin programId.

Definition createSetNewFeesInstruction
           (tokenSwapAccount : Keypair) (authority adminAccount : PublicKey)
           (newFees : Struct.t) (programId : PublicKey)
  : result TransactionInstruction :=
  let keys :=
    [ meta tokenSwapAccount.(publicKey) true false;
      meta authority false false;
      meta adminAccount true false ] in
  let dataLayout := struct [ u8 "instruction"; FeesLayout "newFees" ] None in
  let data := Buffer.alloc (span dataLayout) in
  newFees' <- Struct.toBuffer StringToNumber newFees ;;
  '(data, encodeLength) <-
    encode StringToNumber dataLayout
      (VObj [ ("instruction", VNum (code CommitNewAdmin));
              ("newFees", VBuf newFees') ])
      data 0 ;;
  let data := Buffer.slice data 0 encodeLength in
  Ok {| keys := keys; data := data; programId := programId |}.

Definition createSetNewRewardsInstruction
           (tokenSwapAccount : Keypair) (authority adminAccount : PublicKey)
           (newRewards : Struct.t) (programId : PublicKey)
  : result TransactionInstruction :=
  let keys :=
    [ meta tokenSwapAccount.(publicKey) true false;
      meta authority false false;
      meta adminAccount true false ] in
  let dataLayout :=
    struct [ u8 "instruction"; RewardsLayout "newRewards" ] None in
  let data := Buffer.alloc (span dataLayout) in
  newRewards' <- Struct.toBuffer StringToNumber newRewards ;;
  '(data, encodeLength) <-
    encode StringToNumber dataLayout
      (VObj [ ("instruction", VNum (code CommitNewAdmin));
              ("newRewards", VBuf newRewards') ])
      data 0 ;;
  let data := Buffer.slice data 0 encodeLength in
  Ok {| keys := keys; data := data; programId := programId |}.

End Encoders.

End Admin.

(** ** The swap family, which follows the admin family in
       instructions/admin.ts *)

Module Swap.

Inductive SwapInstruction : Type :=
| Initialize
| Swap
| Deposit
| Withdraw
| WithdrawOne.

(** [Initialize = 0], the others counting up from it. *)
Definition code (i : SwapInstruction) : Z :=
  match i with
  | Initialize => 0
  | Swap => 1
  | Deposit => 2
  | Withdraw => 3
  | WithdrawOne => 4
  end.

Section Encoders.

Variable StringToNumber : list Z -> number.

Definition createInitSwapInstruction
           (tokenSwap authority adminAccount adminFeeAccountA
            adminFeeAccountB tokenMintA tokenAccountA tokenMintB
            tokenAccountB poolTokenMint poolTokenAccount
            rewardTokenAccount rewardMint tokenProgramId : PublicKey)
           (nonce : Z) (ampFactor : NumberU64.t) (fees rewards : Struct.t)
           (k i isOpenTwap : NumberU64.t) (programId : PublicKey)
  : result TransactionInstruction :=
  let keys :=
    [ meta tokenSwap true false;
      meta authority false false;
      meta adminAccount false false;
      meta adminFeeAccountA false false;
      meta adminFeeAccountB false false;
      meta tokenMintA false false;
      meta tokenAccountA false false;
      meta tokenMintB false false;
      meta tokenAccountB false false;
      meta poolTokenMint false true;
      meta poolTokenAccount false true;
      meta rewardMint false false;
      meta rewardTokenAccount false false;
      meta tokenProgramId false false ] in
  let dataLayout :=
    struct [ u8 "instruction"; u8 "nonce"; nu64 "ampFactor";
             FeesLayout "fees"; nu64 "k"; nu64 "i";
             nu64 "isOpenTwap" ] None in
  let data := Buffer.alloc (span dataLayout) in
  ampFactor' <- NumberU64.toBuffer ampFactor ;;
  fees' <- Struct.toBuffer StringToNumber fees ;;
  rewards' <- Struct.toBuffer StringToNumber rewards ;;
  k' <- NumberU64.toBuffer k ;;
  i' <- NumberU64.toBuffer i ;;
  isOpenTwap' <- NumberU64.toBuffer isOpenTwap ;;
  '(data, _) <- encode StringToNumber dataLayout
                  (VObj [ ("instruction", VNum (code Initialize));
                          ("nonce", VNum nonce);
                          ("ampFactor", VBuf ampFactor');
                          ("fees", VBuf fees');
                          ("rewards", VBuf rewards');
                          ("k", VBuf k');
                          ("i", VBuf i');
                          ("isOpenTwap", VBuf isOpenTwap') ])
                  data 0 ;;
  Ok {| keys := keys; programId := programId; data := data |}.

Definition createSwapInstruction
           (tokenSwap authority userSource poolSource poolDestination
            userDestination adminDestination rewardDestination rewardMint
            tokenProgramId : PublicKey)
           (amountIn minimumAmountOut swapDirection : NumberU64.t)
           (programId : PublicKey) : result TransactionInstruction :=
  let keys :=
    [ meta tokenSwap false false;
      meta authority false false;
      meta userSource false true;
      meta poolSource false true;
      meta poolDestination false true;
      meta userDestination false true;
      meta rewardDestination false true;
      meta rewardMint false true;
      meta adminDestination false true;
      meta tokenProgramId false false;
      meta SYSVAR_CLOCK_PUBKEY false false ] in
  let dataLayout :=
    struct [ u8 "instruction"; nu64 "amountIn"; nu64 "minimumAmountOut";
             nu64 "swapDirection" ] None in
  let data := Buffer.alloc (span dataLayout) in
  amountIn' <- NumberU64.toBuffer amountIn ;;
  minimumAmountOut' <- NumberU64.toBuffer minimumAmountOut ;;
  swapDirection' <- NumberU64.toBuffer swapDirection ;;
  '(data, _) <- encode StringToNumber dataLayout
                  (VObj [ ("instruction", VNum (code Swap));
                          ("amountIn", VBuf amountIn');
                          ("minimumAmountOut", VBuf minimumAmountOut');
                          ("swapDirection", VBuf swapDirection') ])
                  data 0 ;;
  Ok {| keys := keys; programId := programId; data := data |}.

Definition createDepositInstruction
           (tokenSwap authority sourceA sourceB intoA intoB poolTokenMint
            poolTokenAccount tokenProgramId : PublicKey)
           (tokenAmountA tokenAmountB minimumPoolTokenAmount : NumberU64.t)
           (programId : PublicKey) : result TransactionInstruction :=
  let keys :=
    [ meta tokenSwap false false;
      meta authority false false;
      meta sourceA false true;
      meta sourceB false true;
      meta intoA false true;
      meta intoB false true;
      meta poolTokenMint false true;
      meta poolTokenAccount false true;
      meta tokenProgramId false false;
      meta SYSVAR_CLOCK_PUBKEY false false ] in
  let dataLayout :=
    struct [ u8 "instruction"; nu64 "tokenAmountA"; nu64 "tokenAmountB";
             nu64 "minimumPoolTokenAmount" ] None in
  let data := Buffer.alloc (span dataLayout) in
  tokenAmountA' <- NumberU64.toBuffer tokenAmountA ;;
  tokenAmountB' <- NumberU64.toBuffer tokenAmountB ;;
  minimumPoolTokenAmount' <- NumberU64.toBuffer minimumPoolTokenAmount ;;
  '(data, _) <- encode StringToNumber dataLayout
                  (VObj [ ("instruction", VNum (code Deposit));
                          ("tokenAmountA", VBuf tokenAmountA');
                          ("tokenAmountB", VBuf tokenAmountB');
                          ("minimumPoolTokenAmount",
                           VBuf minimumPoolTokenAmount') ])
                  data 0 ;;
  Ok {| keys := keys; programId := programId; data := data |}.

Definition createWithdrawInstruction
           (tokenSwap authority poolMint sourcePoolAccount fromA fromB
            userAccountA userAccountB adminFeeAccountA adminFeeAccountB
            tokenProgramId : PublicKey)
           (poolTokenAmount minimumTokenA minimumTokenB : NumberU64.t)
           (programId : PublicKey) : result TransactionInstruction :=
  let keys :=
    [ meta tokenSwap false false;
      meta authority false false;
      meta poolMint false true;
      meta sourcePoolAccount false true;
      meta fromA false true;
      meta fromB false true;
      meta userAccountA false true;
      meta userAccountB false true;
      meta adminFeeAccountA false true;
      meta adminFeeAccountB false true;
      meta tokenProgramId false false ] in
  let dataLayout :=
    struct [ u8 "instruction"; nu64 "poolTokenAmount";
             nu64 "minimumTokenA"; nu64 "minimumTokenB" ] None in
  let data := Buffer.alloc (span dataLayout) in
  poolTokenAmount' <-
    bind (NumberU64.new (NumberU64.OfU64 poolTokenAmount))
         NumberU64.toBuffer ;;
  minimumTokenA' <-
    bind (NumberU64.new (NumberU64.OfU64 minimumTokenA))
         NumberU64.toBuffer ;;
  minimumTokenB' <-
    bind (NumberU64.new (NumberU64.OfU64 minimumTokenB))
         NumberU64.toBuffer ;;
  '(data, _) <- encode StringToNumber dataLayout
                  (VObj [ ("instruction", VNum (code Withdraw));
                          ("poolTokenAmount", VBuf poolTokenAmount');
                          ("minimumTokenA", VBuf minimumTokenA');
                          ("minimumTokenB", VBuf minimumTokenB') ])
                  data 0 ;;
  Ok {| keys := keys; programId := programId; data := data |}.

Definition createWithdrawOneInstruction
           (tokenSwap authority poolMint sourcePool base quote
            userDestination adminDestination tokenProgramId : PublicKey)
           (poolTokenAmount minimumTokenAmount : NumberU64.t)
           (programId : PublicKey) : result TransactionInstruction :=
  let keys :=
    [ meta tokenSwap false false;
      meta authority false false;
      meta poolMint false true;
      meta sourcePool false true;
      meta base false true;
      meta quote false true;
      meta userDestination false true;
      meta adminDestination false true;
      meta tokenProgramId false false;
      meta SYSVAR_CLOCK_PUBKEY false false ] in
  let dataLayout :=
    struct [ u8 "instruction"; nu64 "poolTokenAmount";
             nu64 "minimumTokenAmount" ] None in
  let data := Buffer.alloc (span dataLayout) in
  poolTokenAmount' <- NumberU64.toBuffer poolTokenAmount ;;
  minimumTokenAmount' <- NumberU64.toBuffer minimumTokenAmount ;;
  '(data, _) <- encode StringToNumber dataLayout
                  (VObj [ ("instruction", VNum (code WithdrawOne));
                          ("poolTokenAmount", VBuf poolTokenAmount');
                          ("minimumTokenA", VBuf minimumTokenAmount') ])
                  data 0 ;;
  Ok {| keys := keys; programId := programId; data := data |}.

End Encoders.

End Swap.

(** ** instructions.ts

    The encoders of the earlier client: every 64-bit argument is an 8-byte
    blob ([Uint64Layout]) filled from [new NumberU64(x).toBuffer()].  An
    amount is a number or a NumberU64, as its parameter is declared; their
    [Fees] is the plain record of the eight fee numbers, as the tests and
    [Farm.loadFarm] build it.  The file's second half
    repeats the admin family of [instructions/admin.ts] without
    [Initialize] and is not embedded twice. *)

Module Instructions.

Definition Account : Type := Keypair.

Section Encoders.

Variable StringToNumber : list Z -> number.

Definition createInitSwapInstruction
           (tokenSwapAccount : Account)
           (authority adminAccount adminFeeAccountA adminFeeAccountB
            tokenMintA tokenAccountA tokenMintB tokenAccountB
            poolTokenMint poolTokenAccount swapProgramId
            tokenProgramId : PublicKey)
           (nonce : Z) (ampFactor : NumberU64.source) (fees : IFees)
  : result TransactionInstruction :=
  let keys :=
    [ meta tokenSwapAccount.(publicKey) false true;
      meta authority false false;
      meta adminAccount false false;
      meta adminFeeAccountA false false;
      meta adminFeeAccountB false false;
      meta tokenMintA false false;
      meta tokenAccountA false false;
      meta tokenMintB false false;
      meta tokenAccountB false false;
      meta poolTokenMint false true;
      meta poolTokenAccount false true;
      meta tokenProgramId false false ] in
  let dataLayout :=
    struct [ u8 "instruction"; u8 "nonce";
             Uint64Layout "ampFactor";
             Uint64Layout "adminTradeFeeNumerator";
             Uint64Layout "adminTradeFeeDenominator";
             Uint64Layout "adminWithdrawFeeNumerator";
             Uint64Layout "adminWithdrawFeeDenominator";
             Uint64Layout "tradeFeeNumerator";
             Uint64Layout "tradeFeeDenominator";
             Uint64Layout "withdrawFeeNumerator";
             Uint64Layout "withdrawFeeDenominator" ] None in
  let data := Buffer.alloc (span dataLayout) in
  ampFactor' <- bind (NumberU64.new ampFactor) NumberU64.toBuffer ;;
  f1 <-
    bind (NumberU64.new (NumberU64.OfNumber fees.(adminTradeFeeNumerator)))
         NumberU64.toBuffer ;;
  f2 <-
    bind (NumberU64.new (NumberU64.OfNumber fees.(adminTradeFeeDenominator)))
         NumberU64.toBuffer ;;
  f3 <-
    bind (NumberU64.new (NumberU64.OfNumber fees.(adminWithdrawFeeNumerator)))
         NumberU64.toBuffer ;;
  f4 <-
    bind (NumberU64.new (NumberU64.OfNumber fees.(adminWithdrawFeeDenominator)))
         NumberU64.toBuffer ;;
  f5 <-
    bind (NumberU64.new (NumberU64.OfNumber fees.(tradeFeeNumerator)))
         NumberU64.toBuffer ;;
  f6 <-
    bind (NumberU64.new (NumberU64.OfNumber fees.(tradeFeeDenominator)))
         NumberU64.toBuffer ;;
  f7 <-
    bind (NumberU64.new (NumberU64.OfNumber fees.(withdrawFeeNumerator)))
         NumberU64.toBuffer ;;
  f8 <-
    bind (NumberU64.new (NumberU64.OfNumber fees.(withdrawFeeDenominator)))
         NumberU64.toBuffer ;;
  '(data, encodeLength) <-
    encode StringToNumber dataLayout
      (VObj [ ("instruction", VNum 0);
              ("nonce", VNum nonce);
              ("ampFactor", VBuf ampFactor');
              ("adminTradeFeeNumerator", VBuf f1);
              ("adminTradeFeeDenominator", VBuf f2);
              ("adminWithdrawFeeNumerator", VBuf f3);
              ("adminWithdrawFeeDenominator", VBuf f4);
              ("tradeFeeNumerator", VBuf f5);
              ("tradeFeeDenominator", VBuf f6);
              ("withdrawFeeNumerator", VBuf f7);
              ("withdrawFeeDenominator", VBuf f8) ])
      data 0 ;;
  let data := Buffer.slice data 0 encodeLength in
  Ok {| keys := keys; programId := swapProgramId; data := data |}.

Definition swapInstruction
           (tokenSwap authority userSource poolSource poolDestination
            userDestination adminDestination swapProgramId
            tokenProgramId : PublicKey)
           (amountIn minimumAmountOut : NumberU64.source)
  : result TransactionInstruction :=
  let dataLayout :=
    struct [ u8 "instruction"; Uint64Layout "amountIn";
             Uint64Layout "minimumAmountOut" ] None in
  let data := Buffer.alloc (span dataLayout) in
  amountIn' <- bind (NumberU64.new amountIn) NumberU64.toBuffer ;;
  minimumAmountOut' <-
    bind (NumberU64.new minimumAmountOut)
         NumberU64.toBuffer ;;
  '(data, _) <- encode StringToNumber dataLayout
                  (VObj [ ("instruction", VNum 1);
                          ("amountIn", VBuf amountIn');
                          ("minimumAmountOut", VBuf minimumAmountOut') ])
                  data 0 ;;
  let keys :=
    [ meta tokenSwap false false;
      meta authority false false;
      meta userSource false true;
      meta poolSource false true;
      meta poolDestination false true;
      meta userDestination false true;
      meta adminDestination false true;
      meta tokenProgramId false false;
      meta SYSVAR_CLOCK_PUBKEY false false ] in
  Ok {| keys := keys; programId := swapProgramId; data := data |}.

Definition depositInstruction
           (tokenSwap authority sourceA sourceB intoA intoB poolTokenMint
            poolTokenAccount swapProgramId tokenProgramId : PublicKey)
           (tokenAmountA tokenAmountB minimumPoolTokenAmount
            : NumberU64.source)
  : result TransactionInstruction :=
  let dataLayout :=
    struct [ u8 "instruction"; Uint64Layout "tokenAmountA";
             Uint64Layout "tokenAmountB";
             Uint64Layout "minimumPoolTokenAmount" ] None in
  let data := Buffer.alloc (span dataLayout) in
  tokenAmountA' <- bind (NumberU64.new tokenAmountA) NumberU64.toBuffer ;;
  tokenAmountB' <- bind (NumberU64.new tokenAmountB) NumberU64.toBuffer ;;
  minimumPoolTokenAmount' <-
    bind (NumberU64.new minimumPoolTokenAmount) NumberU64.toBuffer ;;
  '(data, _) <- encode StringToNumber dataLayout
                  (VObj [ ("instruction", VNum 2);
                          ("tokenAmountA", VBuf tokenAmountA');
                          ("tokenAmountB", VBuf tokenAmountB');
                          ("minimumPoolTokenAmount",
                           VBuf minimumPoolTokenAmount') ])
                  data 0 ;;
  let keys :=
    [ meta tokenSwap false false;
      meta authority false false;
      meta sourceA false true;
      meta sourceB false true;
      meta intoA false true;
      meta intoB false true;
      meta poolTokenMint false true;
      meta poolTokenAccount false true;
      meta tokenProgramId false false;
      meta SYSVAR_CLOCK_PUBKEY false false ] in
  Ok {| keys := keys; programId := swapProgramId; data := data |}.

Definition withdrawInstruction
           (tokenSwap authority poolMint sourcePoolAccount fromA fromB
            userAccountA userAccountB adminFeeAccountA adminFeeAccountB
            swapProgramId tokenProgramId : PublicKey)
           (poolTokenAmount minimumTokenA minimumTokenB : NumberU64.source)
  : result TransactionInstruction :=
  let dataLayout :=
    struct [ u8 "instruction"; Uint64Layout "poolTokenAmount";
             Uint64Layout "minimumTokenA";
             Uint64Layout "minimumTokenB" ] None in
  let data := Buffer.alloc (span dataLayout) in
  poolTokenAmount' <- bind (NumberU64.new poolTokenAmount) NumberU64.toBuffer ;;
  minimumTokenA' <- bind (NumberU64.new minimumTokenA) NumberU64.toBuffer ;;
  minimumTokenB' <- bind (NumberU64.new minimumTokenB) NumberU64.toBuffer ;;
  '(data, _) <- encode StringToNumber dataLayout
                  (VObj [ ("instruction", VNum 3);
                          ("poolTokenAmount", VBuf poolTokenAmount');
                          ("minimumTokenA", VBuf minimumTokenA');
                          ("minimumTokenB", VBuf minimumTokenB') ])
                  data 0 ;;
  let keys :=
    [ meta tokenSwap false false;
      meta authority false false;
      meta poolMint false true;
      meta sourcePoolAccount false true;
      meta fromA false true;
      meta fromB false true;
      meta userAccountA false true;
      meta userAccountB false true;
      meta adminFeeAccountA false true;
      meta adminFeeAccountB false true;
      meta tokenProgramId false false ] in
  Ok {| keys := keys; programId := swapProgramId; data := data |}.

(** The payload the two farm encoders that carry a nonce and the eight
    fee numbers build, apart from the tag. *)
Definition nonceAndFees (instruction : Z) (nonce : Z) (fees : IFees)
  : result Buffer.t :=
  let dataLayout :=
    struct [ u8 "instruction"; u8 "nonce";
             Uint64Layout "adminTradeFeeNumerator";
             Uint64Layout "adminTradeFeeDenominator";
             Uint64Layout "adminWithdrawFeeNumerator";
             Uint64Layout "adminWithdrawFeeDenominator";
             Uint64Layout "tradeFeeNumerator";
             Uint64Layout "tradeFeeDenominator";
             Uint64Layout "withdrawFeeNumerator";
             Uint64Layout "withdrawFeeDenominator" ] None in
  let data := Buffer.alloc (span dataLayout) in
  f1 <-
    bind (NumberU64.new (NumberU64.OfNumber fees.(adminTradeFeeNumerator)))
         NumberU64.toBuffer ;;
  f2 <-
    bind (NumberU64.new (NumberU64.OfNumber fees.(adminTradeFeeDenominator)))
         NumberU64.toBuffer ;;
  f3 <-
    bind (NumberU64.new (NumberU64.OfNumber fees.(adminWithdrawFeeNumerator)))
         NumberU64.toBuffer ;;
  f4 <-
    bind (NumberU64.new (NumberU64.OfNumber fees.(adminWithdrawFeeDenominator)))
         NumberU64.toBuffer ;;
  f5 <-
    bind (NumberU64.new (NumberU64.OfNumber fees.(tradeFeeNumerator)))
         NumberU64.toBuffer ;;
  f6 <-
    bind (NumberU64.new (NumberU64.OfNumber fees.(tradeFeeDenominator)))
         NumberU64.toBuffer ;;
  f7 <-
    bind (NumberU64.new (NumberU64.OfNumber fees.(withdrawFeeNumerator)))
         NumberU64.toBuffer ;;
  f8 <-
    bind (NumberU64.new (NumberU64.OfNumber fees.(withdrawFeeDenominator)))
         NumberU64.toBuffer ;;
  '(data, encodeLength) <-
    encode StringToNumber dataLayout
      (VObj [ ("instruction", VNum instruction);
              ("nonce", VNum nonce);
              ("adminTradeFeeNumerator", VBuf f1);
              ("adminTradeFeeDenominator", VBuf f2);
              ("adminWithdrawFeeNumerator", VBuf f3);
              ("adminWithdrawFeeDenominator", VBuf f4);
              ("tradeFeeNumerator", VBuf f5);
              ("tradeFeeDenominator", VBuf f6);
              ("withdrawFeeNumerator", VBuf f7);
              ("withdrawFeeDenominator", VBuf f8) ])
      data 0 ;;
  Ok (Buffer.slice data 0 encodeLength).

Definition createInitFarmInstruction
           (farmAccount farmBaseAccount : Account)
           (authority adminAccount adminFeeAccountPool tokenMintPool
            tokenAccountPool deltafiTokenMint deltafiTokenAccount
            farmProgramId tokenProgramId : PublicKey)
           (nonce : Z) (fees : IFees) : result TransactionInstruction :=
  let keys :=
    [ meta farmBaseAccount.(publicKey) false true;
      meta farmAccount.(publicKey) false true;
      meta authority false false;
      meta adminAccount false false;
      meta adminFeeAccountPool false false;
      meta tokenMintPool false false;
      meta tokenAccountPool false false;
      meta deltafiTokenMint false true;
      meta deltafiTokenAccount false true;
      meta tokenProgramId false false ] in
  data <- nonceAndFees 108 nonce fees ;;
  Ok {| keys := keys; programId := farmProgramId; data := data |}.

Definition farmEnableUserInstruction
           (farmAccount authority userFarmingAccount owner
            farmProgramId : PublicKey) : result TransactionInstruction :=
  let keys :=
    [ meta farmAccount false true;
      meta authority false false;
      meta userFarmingAccount false false;
      meta owner false false ] in
  let dataLayout := struct [ u8 "instruction" ] None in
  let data := Buffer.alloc (span dataLayout) in
  '(data, encodeLength) <-
    encode StringToNumber dataLayout (VObj [ ("instruction", VNum 30) ])
      data 0 ;;
  let data := Buffer.slice data 0 encodeLength in
  Ok {| keys := keys; programId := farmProgramId; data := data |}.

Definition farmDepositInstruction
           (farmBaseAccount farmAccount authority adminFeeAccountDeltafi
            sourcePool userFarming farmPool deltafiTokenMint destDeltafi
            farmProgramId tokenProgramId : PublicKey)
           (tokenAmountPool : Z) : result TransactionInstruction :=
  let dataLayout :=
    struct [ u8 "instruction"; Uint64Layout "tokenAmountPool" ] None in
  let data := Buffer.alloc (span dataLayout) in
  tokenAmountPool' <-
    bind (NumberU64.new (NumberU64.OfNumber tokenAmountPool))
         NumberU64.toBuffer ;;
  '(data, _) <- encode StringToNumber dataLayout
                  (VObj [ ("instruction", VNum 31);
                          ("tokenAmountPool", VBuf tokenAmountPool') ])
                  data 0 ;;
  let keys :=
    [ meta farmBaseAccount false true;
      meta farmAccount false true;
      meta authority false false;
      meta adminFeeAccountDeltafi false false;
      meta sourcePool false false;
      meta userFarming false false;
      meta farmPool false false;
      meta deltafiTokenMint false true;
      meta destDeltafi false false;
      meta tokenProgramId false false;
      meta SYSVAR_CLOCK_PUBKEY false false ] in
  Ok {| keys := keys; programId := farmProgramId; data := data |}.

(** The amount is handed to the blob as the number it is. *)
Definition farmWithdrawInstruction
           (farmBaseAccount farmAccount authority adminFeeAccountDeltafi
            userPoolAccount userFarming tokenMintPool deltafiTokenMint
            deltafiTokenAccount farmProgramId tokenProgramId : PublicKey)
           (tokenAmountPool : Z) : result TransactionInstruction :=
  let keys :=
    [ meta farmBaseAccount false true;
      meta farmAccount false true;
      meta authority false false;
      meta adminFeeAccountDeltafi false false;
      meta userPoolAccount false false;
      meta userFarming false false;
      meta tokenMintPool false false;
      meta deltafiTokenMint false true;
      meta deltafiTokenAccount false true;
      meta tokenProgramId false false;
      meta SYSVAR_CLOCK_PUBKEY false false ] in
  let dataLayout :=
    struct [ u8 "instruction"; Uint64Layout "tokenAmountPool" ] None in
  let data := Buffer.alloc (span dataLayout) in
  '(data, _) <- encode StringToNumber dataLayout
                  (VObj [ ("instruction", VNum 32);
                          ("tokenAmountPool", VNum tokenAmountPool) ])
                  data 0 ;;
  Ok {| keys := keys; programId := farmProgramId; data := data |}.

Definition farmEmergencyWithdrawInstruction
           (farmBaseAccount farmAccount authority adminFeeAccountDeltafi
            userPoolAccount userFarming tokenMintPool deltafiTokenMint
            deltafiTokenAccount farmProgramId tokenProgramId : PublicKey)
  : result TransactionInstruction :=
  let keys :=
    [ meta farmBaseAccount false true;
      meta farmAccount false true;
      meta authority false false;
      meta adminFeeAccountDeltafi false false;
      meta userPoolAccount false false;
      meta userFarming false false;
      meta tokenMintPool false false;
      meta deltafiTokenMint false true;
      meta deltafiTokenAccount false true;
      meta tokenProgramId false false;
      meta SYSVAR_CLOCK_PUBKEY false false ] in
  let dataLayout := struct [ u8 "instruction" ] None in
  let data := Buffer.alloc (span dataLayout) in
  '(data, _) <- encode StringToNumber dataLayout
                  (VObj [ ("instruction", VNum 33) ]) data 0 ;;
  Ok {| keys := keys; programId := farmProgramId; data := data |}.

Definition farmPrintPendingDeltafiInstruction
           (farmAccount : Account)
           (authority adminAccount adminFeeAccountPool tokenMintPool
            tokenAccountPool deltafiTokenMint deltafiTokenAccount
            farmProgramId tokenProgramId : PublicKey)
           (nonce : Z) (fees : IFees) : result TransactionInstruction :=
  let keys :=
    [ meta farmAccount.(publicKey) false true;
      meta authority false false;
      meta adminAccount false false;
      meta adminFeeAccountPool false false;
      meta tokenMintPool false false;
      meta tokenAccountPool false false;
      meta deltafiTokenMint false true;
      meta deltafiTokenAccount false true;
      meta tokenProgramId false false ] in
  data <- nonceAndFees 34 nonce fees ;;
  Ok {| keys := keys; programId := farmProgramId; data := data |}.

End Encoders.

End Instructions.

(** ** farm.ts *)

Definition TOKEN_PROGRAM_ID : PublicKey :=
  "TokenkegQfeZyiNwAJbNbGKPFXCWuBvf9Ss623VQ5DA".

Module Farm.

Section Loader.

(** What [farm.ts] takes from outside the sources: the RPC connection
    and [loadAccount] of [util/account], which fetches the bytes of an
    account; [layout.FarmLayout], which both revisions of the layouts
    hold only inside a comment; and, from web3.js, the constructor of a
    public key from decoded bytes and [findProgramAddress]. *)
Variable Connection : Type.
Variable loadAccount : Connection -> PublicKey -> PublicKey -> result Buffer.t.
Variable FarmLayout : Layout.
Variable newPublicKey : value -> result PublicKey.
Variable findProgramAddress : PublicKey -> PublicKey -> result PublicKey.

(** The Farm client object. *)
Record t : Type := {
  connection : Connection;
  farmProgramId : PublicKey;
  tokenProgramId : PublicKey;
  farm : PublicKey;
  deltafiTokenMint : PublicKey;
  authority : PublicKey;
  adminAccount : PublicKey;
  adminFeeAccountPool : PublicKey;
  tokenAccountPool : PublicKey;
  mintPool : PublicKey;
  fees : value
}.

Definition loadFarm (connection : Connection) (address programId : PublicKey)
  : result t :=
  data <- loadAccount connection address programId ;;
  farmData <- decode FarmLayout data 0 ;;
  isInitialized <- get farmData "isInitialized" ;;
  if falsy isInitialized then Throw (Error "Invalid farm state")
  else
    authority <- findProgramAddress address programId ;;
    adminAccount <- bind (get farmData "adminAccount") newPublicKey ;;
    adminFeeAccountPool <-
      bind (get farmData "adminFeeAccountPool") newPublicKey ;;
    tokenAccountPool <- bind (get farmData "tokenAccountPool") newPublicKey ;;
    deltafiTokenMint <- bind (get farmData "deltafiTokenMint") newPublicKey ;;
    mintPool <- bind (get farmData "mintPool") newPublicKey ;;
    let tokenProgramId := TOKEN_PROGRAM_ID in
    f1 <- get farmData "adminTradeFeeNumerator" ;;
    f2 <- get farmData "adminTradeFeeDenominator" ;;
    f3 <- get farmData "adminWithdrawFeeNumerator" ;;
    f4 <- get farmData "adminWithdrawFeeDenominator" ;;
    f5 <- get farmData "tradeFeeNumerator" ;;
    f6 <- get farmData "tradeFeeDenominator" ;;
    f7 <- get farmData "withdrawFeeNumerator" ;;
    f8 <- get farmData "withdrawFeeDenominator" ;;
    let fees :=
      VObj [ ("adminTradeFeeNumerator", f1);
             ("adminTradeFeeDenominator", f2);
             ("adminWithdrawFeeNumerator", f3);
             ("adminWithdrawFeeDenominator", f4);
             ("tradeFeeNumerator", f5);
             ("tradeFeeDenominator", f6);
             ("withdrawFeeNumerator", f7);
             ("withdrawFeeDenominator", f8) ] in
    Ok {| connection := connection;
          farm := address;
          farmProgramId := programId;
          tokenProgramId := tokenProgramId;
          deltafiTokenMint := deltafiTokenMint;
          authority := authority;
          adminAccount := adminAccount;
          adminFeeAccountPool := adminFeeAccountPool;
          tokenAccountPool := tokenAccountPool;
          mintPool := mintPool;
          fees := fees |}.

End Loader.

End Farm.

(** ** The Farm client with a farm base account

    The later revision of the Farm class, whose objects hold the farm
    base and the user-farming account and whose methods call the encoders
    of [instructions.ts]. *)

Module FarmWithBase.

Definition Transaction : Type := list TransactionInstruction.

(** [new Transaction().add(instruction)] *)
Definition add (transaction : Transaction) (instruction : TransactionInstruction)
  : Transaction :=
  transaction ++ [instruction].

Section Client.

Variable Connection : Type.
Variable StringToNumber : list Z -> number.

Record t : Type := {
  connection : Connection;
  farmProgramId : PublicKey;
  tokenProgramId : PublicKey;
  farmBase : PublicKey;
  farm : PublicKey;
  userFarming : PublicKey;
  deltafiTokenMint : PublicKey;
  authority : PublicKey;
  adminAccount : PublicKey;
  adminFeeAccountDeltafi : PublicKey;
  tokenAccountPool : PublicKey;
  mintPool : PublicKey;
  fees : IFees
}.

Definition enableUser (this : t) (userFarmmingAccount owner : PublicKey)
  : result Transaction :=
  instruction <- Instructions.farmEnableUserInstruction StringToNumber
                   this.(farm) this.(authority) userFarmmingAccount owner
                   this.(farmProgramId) ;;
  Ok (add [] instruction).

(** The parameter [userFarming] of the method is written [userFarming']
    here; the body takes the field [this.userFarming] and leaves the
    parameter, the nonce and the minimum unused. *)
Definition deposit (this : t)
           (userAccountPool userFarming' deltafiTokenAccount : PublicKey)
           (nonce tokenAmountPool minimumDeltafiTokenAmount : Z)
  : result Transaction :=
  instruction <- Instructions.farmDepositInstruction StringToNumber
                   this.(farmBase) this.(farm) this.(authority)
                   this.(adminFeeAccountDeltafi) userAccountPool
                   this.(userFarming) this.(tokenAccountPool)
                   this.(deltafiTokenMint) deltafiTokenAccount
                   this.(farmProgramId) this.(tokenProgramId)
                   tokenAmountPool ;;
  Ok (add [] instruction).

Definition withdraw (this : t) (userAccountPool userAccountDeltafi : PublicKey)
           (poolTokenAmount minimumTokenPool minimumTokenDeltafi : Z)
  : result Transaction :=
  instruction <- Instructions.farmWithdrawInstruction StringToNumber
                   this.(farmBase) this.(farm) this.(authority)
                   this.(adminFeeAccountDeltafi) userAccountPool
                   this.(userFarming) this.(tokenAccountPool)
                   this.(deltafiTokenMint) userAccountDeltafi
                   this.(farmProgramId) this.(tokenProgramId)
                   poolTokenAmount ;;
  Ok (add [] instruction).

Definition emergencyWithdraw (this : t)
           (userAccountPool userAccountDeltafi : PublicKey)
  : result Transaction :=
  instruction <- Instructions.farmEmergencyWithdrawInstruction StringToNumber
                   this.(farmBase) this.(farm) this.(authority)
                   this.(adminFeeAccountDeltafi) userAccountPool
                   this.(userFarming) this.(tokenAccountPool)
                   this.(deltafiTokenMint) userAccountDeltafi
                   this.(farmProgramId) this.(tokenProgramId) ;;
  Ok (add [] instruction).

End Client.

End FarmWithBase.

(** * Properties *)

(** The payload of an instruction an encoder returned. *)
Definition payload (r : result TransactionInstruction) : result Buffer.t :=
  ix <- r ;; Ok ix.(data).

(** The signer flags of the accounts [ks] are those of an admin
    instruction: exactly two entries are signers, the first entry, which
    names [first], and the entry of [admin]. *)
Definition admin_signers (first admin : PublicKey) (ks : list AccountMeta)
  : Prop :=
  exists m1 m2,
    filter isSigner ks = [m1; m2] /\ hd_error ks = Some m1 /\
    m1.(pubkey) = first /\ m2.(pubkey) = admin.

(** The field a structure decodes last is read with an integer reader. *)
Definition last_field (ends : Layout -> bool) : list Layout -> bool :=
  fix last (fields : list Layout) : bool :=
    match fields with
    | [] => false
    | [fd] => match property fd with Some _ => ends fd | None => false end
    | _ :: rest => last rest
    end.

Fixpoint ends_in_integer (l : Layout) : bool :=
  match l with
  | UInt _ _ | NearUInt64 _ | NearInt64 _ => true
  | Blob _ _ => false
  | Structure fields _ => last_field ends_in_integer fields
  end.

(** The end of the last integer field a structure reads, its first field
    standing at [offset]; 0 when it reads no integer.  A field without a
    property is not decoded. *)
Definition reach_fields (reach : Layout -> nat -> nat)
  : list Layout -> nat -> nat :=
  fix each (fields : list Layout) (offset : nat) {struct fields} : nat :=
    match fields with
    | [] => O
    | fd :: rest =>
        Nat.max (match property fd with
                 | Some _ => reach fd offset
                 | None => O
                 end)
                (each rest (offset + span fd)%nat)
    end.

(** [reach l offset]: how long a buffer must be for every integer read of
    [l], placed at [offset], to lie inside it. *)
Fixpoint reach (l : Layout) (offset : nat) : nat :=
  match l with
  | UInt s _ => (offset + s)%nat
  | NearUInt64 _ | NearInt64 _ => (offset + 8)%nat
  | Blob _ _ => O
  | Structure fields _ => reach_fields reach fields offset
  end.

(** The widths of the numeric arguments of the encoders. *)
Definition fits_u8 (n : Z) : bool := (0 <=? n) && (n <=? 255).
Definition fits_u64 (n : Z) : bool := (0 <=? n) && (n <? 2 ^ 64).

Definition fees_fit (f : IFees) : bool :=
  fits_u64 f.(adminTradeFeeNumerator) && fits_u64 f.(adminTradeFeeDenominator)
  && fits_u64 f.(adminWithdrawFeeNumerator)
  && fits_u64 f.(adminWithdrawFeeDenominator)
  && fits_u64 f.(tradeFeeNumerator) && fits_u64 f.(tradeFeeDenominator)
  && fits_u64 f.(withdrawFeeNumerator) && fits_u64 f.(withdrawFeeDenominator).

Definition rewards_fit (r : IRewards) : bool :=
  fits_u64 r.(tradeRewardNumerator) && fits_u64 r.(tradeRewardDenominator)
  && fits_u64 r.(tradeRewardCap).

(** The object [Fees.fromBuffer] returns for the bytes of [fees]: each
    field a plain number. *)
Definition IFees_numbers (fees : IFees) : value :=
  VObj
    [ ("adminTradeFeeNumerator", VNum fees.(adminTradeFeeNumerator));
      ("adminTradeFeeDenominator", VNum fees.(adminTradeFeeDenominator));
      ("adminWithdrawFeeNumerator", VNum fees.(adminWithdrawFeeNumerator));
      ("adminWithdrawFeeDenominator", VNum fees.(adminWithdrawFeeDenominator));
      ("tradeFeeNumerator", VNum fees.(tradeFeeNumerator));
      ("tradeFeeDenominator", VNum fees.(tradeFeeDenominator));
      ("withdrawFeeNumerator", VNum fees.(withdrawFeeNumerator));
      ("withdrawFeeDenominator", VNum fees.(withdrawFeeDenominator)) ].

Definition IRewards_numbers (rewards : IRewards) : value :=
  VObj
    [ ("tradeRewardNumerator", VNum rewards.(tradeRewardNumerator));
      ("tradeRewardDenominator", VNum rewards.(tradeRewardDenominator));
      ("tradeRewardCap", VNum rewards.(tradeRewardCap)) ].

(** The default fees with a trade fee numerator one above 2^53. *)
Definition WIDE_FEES : IFees :=
  {| adminTradeFeeNumerator := DEFAULT_FEE_NUMERATOR;
     adminTradeFeeDenominator := DEFAULT_FEE_DENOMINATOR;
     adminWithdrawFeeNumerator := DEFAULT_FEE_NUMERATOR;
     adminWithdrawFeeDenominator := DEFAULT_FEE_DENOMINATOR;
     tradeFeeNumerator := 2 ^ 53 + 1;
     tradeFeeDenominator := 2 ^ 54;
     withdrawFeeNumerator := DEFAULT_FEE_NUMERATOR;
     withdrawFeeDenominator := DEFAULT_FEE_DENOMINATOR |}.

(** ** What the encoders and decoders are measured against *)

(** What a write that returned did to the buffer: the length is kept, and
    so is every byte before [offset] and from [offset + size] on. *)
Definition framed (b b' : Buffer.t) (offset size : nat) : Prop :=
  length b' = length b /\
  (forall k, (k <= offset)%nat -> firstn k b' = firstn k b) /\
  (forall k, (offset + size <= k)%nat -> skipn k b' = skipn k b).

(** No structure in the layout is without a field. *)
Fixpoint nonempty (l : Layout) : bool :=
  match l with
  | Structure fields _ =>
      match fields with [] => false | _ => forallb nonempty fields end
  | _ => true
  end.

(** The integers a double holds exactly, as far as the client needs
    them: 0 to 2^53 - 1. *)
Definition safe (n : Z) : bool := (0 <=? n) && (n <? 2 ^ 53).

(** The arguments [new NumberU64(x).toBuffer()] turns into eight bytes: a
    number from 0 to 2^53 - 1, a NumberU64 from 0 to 2^64 - 1. *)
Definition accepted (x : NumberU64.source) : bool :=
  match x with
  | NumberU64.OfNumber n => safe n
  | NumberU64.OfU64 n => fits_u64 n
  end.

(** The object a structure of 64-bit integer fields decodes: the numbers,
    assigned in the order of the fields. *)
Definition numbers_into (dest : list (string * value))
           (names : list string) (values : list Z) : list (string * value) :=
  fold_left (fun d nv => assign d (fst nv) (VNum (snd nv)))
            (combine names values) dest.

Definition fees_safe (f : IFees) : bool :=
  safe f.(adminTradeFeeNumerator) && safe f.(adminTradeFeeDenominator)
  && safe f.(adminWithdrawFeeNumerator) && safe f.(adminWithdrawFeeDenominator)
  && safe f.(tradeFeeNumerator) && safe f.(tradeFeeDenominator)
  && safe f.(withdrawFeeNumerator) && safe f.(withdrawFeeDenominator).

Definition rewards_safe (r : IRewards) : bool :=
  safe r.(tradeRewardNumerator) && safe r.(tradeRewardDenominator)
  && safe r.(tradeRewardCap).

(** The fields of a fee schedule and of a reward schedule, in the order of
    [FeesLayout] and [RewardsLayout]. *)
Definition fee_names : list string :=
  [ "adminTradeFeeNumerator"; "adminTradeFeeDenominator";
    "adminWithdrawFeeNumerator"; "adminWithdrawFeeDenominator";
    "tradeFeeNumerator"; "tradeFeeDenominator";
    "withdrawFeeNumerator"; "withdrawFeeDenominator" ].

Definition fee_values (f : IFees) : list Z :=
  [ f.(adminTradeFeeNumerator); f.(adminTradeFeeDenominator);
    f.(adminWithdrawFeeNumerator); f.(adminWithdrawFeeDenominator);
    f.(tradeFeeNumerator); f.(tradeFeeDenominator);
    f.(withdrawFeeNumerator); f.(withdrawFeeDenominator) ].

(** The decoded fields [Farm.loadFarm] builds its public keys from, in
    the order it does. *)
Definition farm_key_names : list string :=
  [ "adminAccount"; "adminFeeAccountPool"; "tokenAccountPool";
    "deltafiTokenMint"; "mintPool" ].

Definition reward_names : list string :=
  [ "tradeRewardNumerator"; "tradeRewardDenominator"; "tradeRewardCap" ].

Definition reward_values (r : IRewards) : list Z :=
  [ r.(tradeRewardNumerator); r.(tradeRewardDenominator); r.(tradeRewardCap) ].

(** A returned instruction carries a payload that starts with [tag] and is
    [size] bytes long. *)
Definition payload_shape (r : result TransactionInstruction) (tag : Z) (size : nat)
  : Prop :=
  forall ix, r = Ok ix -> hd_error ix.(data) = Some tag /\ length ix.(data) = size.

(** [has_nul b]: the buffer holds a zero byte. *)
Definition has_nul (b : Buffer.t) : bool := existsb (Z.eqb 0) b.

(** [signers ix]: the signer flags of the accounts of an instruction, in
    order. *)
Definition signers (ix : TransactionInstruction) : list bool :=
  map isSigner ix.(keys).

(** A returned instruction marks no account as a signer. *)
Definition unsigned (r : result TransactionInstruction) : Prop :=
  forall ix, r = Ok ix -> existsb (fun flag => flag) (signers ix) = false.

(** ** Layouts and short buffers *)

Lemma Layout_induction (P : Layout -> Prop) :
  (forall s p, P (UInt s p)) ->
  (forall p, P (NearUInt64 p)) ->
  (forall p, P (NearInt64 p)) ->
  (forall n p, P (Blob n p)) ->
  (forall fields p, Forall P fields -> P (Structure fields p)) ->
  forall l, P l.
Proof.
  intros HU HN HS HB HStr. fix IH 1.
  intros [s p|p|p|n p|fields p];
    [apply HU | apply HN | apply HS | apply HB | apply HStr].
  induction fields as [|fd rest IHrest]; constructor; [apply IH | exact IHrest].
Qed.

Lemma readUIntLE_short (b : Buffer.t) (offset k : nat) :
  (length b < offset + k)%nat -> Buffer.readUIntLE b offset k = Throw RangeError.
Proof.
  intros H. unfold Buffer.readUIntLE.
  destruct (Nat.leb_spec (offset + k) (length b)); [lia | reflexivity].
Qed.

Lemma readUIntLE_throws (b : Buffer.t) (offset k : nat) (e : exn) :
  Buffer.readUIntLE b offset k = Throw e -> e = RangeError.
Proof.
  unfold Buffer.readUIntLE.
  destruct (offset + k <=? length b)%nat; congruence.
Qed.

Lemma readInt32LE_throws (b : Buffer.t) (offset : nat) (e : exn) :
  Buffer.readInt32LE b offset = Throw e -> e = RangeError.
Proof.
  unfold Buffer.readInt32LE.
  destruct (Buffer.readUIntLE b offset 4) eqn:E; simpl; [congruence|].
  intros H; inversion H; subst. eapply readUIntLE_throws; eauto.
Qed.

(** Decoding raises nothing but a RangeError. *)
Lemma decode_throws (l : Layout) :
  forall b offset e, decode l b offset = Throw e -> e = RangeError.
Proof.
  induction l as [s p|p|p|n p|fields p IH] using Layout_induction;
    intros b offset e; simpl.
  - destruct (Buffer.readUIntLE b offset s) eqn:E; simpl; [congruence|].
    intros H; inversion H; subst. eapply readUIntLE_throws; eauto.
  - unfold Buffer.readUInt32LE.
    destruct (Buffer.readUIntLE b offset 4) eqn:E1; simpl.
    + destruct (Buffer.readUIntLE b (offset + 4) 4) eqn:E2; simpl; [congruence|].
      intros H; inversion H; subst. eapply readUIntLE_throws; eauto.
    + intros H; inversion H; subst. eapply readUIntLE_throws; eauto.
  - unfold Buffer.readUInt32LE.
    destruct (Buffer.readUIntLE b offset 4) eqn:E1; simpl.
    + destruct (Buffer.readInt32LE b (offset + 4)) eqn:E2; simpl; [congruence|].
      intros H; inversion H; subst. eapply readInt32LE_throws; eauto.
    + intros H; inversion H; subst. eapply readUIntLE_throws; eauto.
  - congruence.
  - generalize (@nil (string * value)) as dest. revert offset.
    induction IH as [|fd rest Hfd _ IHrest]; intros offset dest; simpl.
    + congruence.
    + destruct (property fd) as [q|]; simpl.
      * destruct (decode fd b offset) eqn:E; simpl.
        -- apply IHrest.
        -- intros H; inversion H; subst. eapply Hfd; eauto.
      * apply IHrest.
Qed.

(** A layout whose last leaf is an integer cannot be decoded from a buffer
    that ends before the layout does. *)
Lemma decode_short (l : Layout) :
  forall b offset,
    ends_in_integer l = true ->
    (length b < offset + span l)%nat ->
    decode l b offset = Throw RangeError.
Proof.
  induction l as [s p|p|p|n p|fields p IH] using Layout_induction;
    intros b offset Hends Hshort; simpl in *.
  - rewrite readUIntLE_short by lia. reflexivity.
  - unfold Buffer.readUInt32LE.
    destruct (Buffer.readUIntLE b offset 4) eqn:E1; simpl.
    + rewrite readUIntLE_short by lia. reflexivity.
    + f_equal. eapply readUIntLE_throws; eauto.
  - unfold Buffer.readUInt32LE.
    destruct (Buffer.readUIntLE b offset 4) eqn:E1; simpl.
    + unfold Buffer.readInt32LE. rewrite readUIntLE_short by lia. reflexivity.
    + f_equal. eapply readUIntLE_throws; eauto.
  - discriminate.
  - generalize (@nil (string * value)) as dest. revert offset Hshort.
    induction IH as [|fd rest Hfd Hrest IHrest]; intros offset Hshort dest.
    + discriminate.
    + simpl in Hshort. destruct rest as [|fd' rest'].
      * simpl in *. destruct (property fd) as [q|]; [|discriminate].
        rewrite Hfd by (auto; lia). reflexivity.
      * change (decode_fields decode b (fd :: fd' :: rest') offset dest)
          with (dest' <- match property fd with
                         | Some q => v <- decode fd b offset ;; Ok (assign dest q v)
                         | None => Ok dest
                         end ;;
                decode_fields decode b (fd' :: rest') (offset + span fd)%nat dest').
        assert (Hnext : forall d,
                   decode_fields decode b (fd' :: rest') (offset + span fd)%nat d
                   = Throw RangeError).
        { intros d. apply IHrest; [exact Hends|].
          change (list_sum (map span (fd' :: rest')))
            with (list_sum (map span (fd' :: rest'))) in *. lia. }
        destruct (property fd) as [q|]; simpl.
        -- destruct (decode fd b offset) eqn:E; simpl.
           ++ apply Hnext.
           ++ f_equal. eapply decode_throws; eauto.
        -- apply Hnext.
Qed.

Section Properties.

Variable StringToNumber : list Z -> number.
Variables k1 k2 k3 k4 k5 k6 k7 k8 k9 k10 k11 k12 k13 k14 k15 : PublicKey.
Variables account account' : Keypair.

(** C8. Each encoder of an operation without arguments (stop-ramp, pause,
    unpause, set-fee-account, apply-pending-admin, commit-pending-admin,
    farm emergency-withdraw) returns a payload of exactly one byte, the
    tag of the operation. *)
Theorem flag_only_payload_is_tag :
  payload (Admin.createStopRampInstruction StringToNumber account k1 k2 k3)
    = Ok [101] /\
  payload (Admin.createPauseInstruction StringToNumber account k1 k2 k3)
    = Ok [102] /\
  payload (Admin.createUnpauseInstruction StringToNumber account k1 k2 k3)
    = Ok [103] /\
  payload (Admin.createSetFeeAccountInstruction StringToNumber account k1 k2 k3 k4)
    = Ok [104] /\
  payload (Admin.createApplyNewAdminInstruction StringToNumber account k1 k2 k3)
    = Ok [105] /\
  payload (Admin.createCommitNewAdminInstruction StringToNumber account k1 k2 k3 k4)
    = Ok [106] /\
  payload (Instructions.farmEmergencyWithdrawInstruction StringToNumber
             k1 k2 k3 k4 k5 k6 k7 k8 k9 k10 k11)
    = Ok [33] /\
  Admin.code Admin.StopRamp = 101 /\ Admin.code Admin.Pause = 102 /\
  Admin.code Admin.Unpause = 103 /\ Admin.code Admin.SetFeeAccount = 104 /\
  Admin.code Admin.ApplyNewAdmin = 105 /\ Admin.code Admin.CommitNewAdmin = 106.
Proof.
  repeat split; reflexivity.
Qed.

(** C2. The swap encoder of [instructions.ts] called with amountIn =
    100000 and minimumAmountOut = 0, given as numbers or as NumberU64s,
    returns the payload [1] followed by the little-endian 8 bytes of
    100000 and of 0, 17 bytes in all, and nine account references in the
    order of its layout, none a signer. *)
Theorem swapInstruction_scenario :
  let scenario (amountIn minimumAmountOut : NumberU64.source) :=
    exists ix,
      Instructions.swapInstruction StringToNumber k1 k2 k3 k4 k5 k6 k7 k8 k9
        amountIn minimumAmountOut = Ok ix /\
      ix.(data) = [1] ++ Buffer.le_bytes 8 100000 ++ Buffer.le_bytes 8 0 /\
      length ix.(data) = 17%nat /\
      map pubkey ix.(keys)
        = [k1; k2; k3; k4; k5; k6; k7; k9; SYSVAR_CLOCK_PUBKEY] /\
      length ix.(keys) = 9%nat /\
      forallb (fun m => negb m.(isSigner)) ix.(keys) = true in
  scenario (NumberU64.OfNumber 100000) (NumberU64.OfNumber 0) /\
  scenario (NumberU64.OfU64 100000) (NumberU64.OfU64 0).
Proof.
  split; (eexists; split; [reflexivity|]; repeat split).
Qed.

(** C3. Encoding the fee schedule whose admin-trade, admin-withdraw and
    withdraw pairs are 0/1000 and whose trade pair is 1/4 gives 64 bytes;
    bytes 32..39 are the little-endian 64-bit 1 and bytes 40..47 the
    little-endian 64-bit 4. *)
Theorem Fees_toBuffer_scenario :
  exists buf,
    Struct.toBuffer StringToNumber (Fees DEFAULT_FEES) = Ok buf /\
    length buf = 64%nat /\
    firstn 8 (skipn 32 buf) = Buffer.le_bytes 8 1 /\
    firstn 8 (skipn 40 buf) = Buffer.le_bytes 8 4.
Proof.
  eexists. split; [reflexivity|]. repeat split.
Qed.

(** C1. The tags of the admin family are not pairwise distinct: the
    set-fees and the set-rewards encoders write the tag of
    commit-pending-admin, 106, and not their own members of
    [AdminInstruction], 107 and 108. *)
Theorem set_fees_and_set_rewards_reuse_commit_tag :
  exists commit fees rewards,
    Admin.createCommitNewAdminInstruction StringToNumber account k1 k2 k3 k4
      = Ok commit /\
    Admin.createSetNewFeesInstruction StringToNumber account k1 k2
      (Fees DEFAULT_FEES) k4 = Ok fees /\
    Admin.createSetNewRewardsInstruction StringToNumber account k1 k2
      (Rewards DEFAULT_REWARDS) k4 = Ok rewards /\
    hd_error commit.(data) = Some (Admin.code Admin.CommitNewAdmin) /\
    hd_error fees.(data) = Some (Admin.code Admin.CommitNewAdmin) /\
    hd_error rewards.(data) = Some (Admin.code Admin.CommitNewAdmin) /\
    Admin.code Admin.SetNewFees <> Admin.code Admin.CommitNewAdmin /\
    Admin.code Admin.SetNewRewards <> Admin.code Admin.CommitNewAdmin.
Proof.
  do 3 eexists.
  split; [reflexivity|]. split; [reflexivity|]. split; [reflexivity|].
  repeat split; simpl; discriminate.
Qed.

(** C9. Called with poolTokenAmount = 5 and minimumTokenAmount = 7 the
    withdraw-one encoder returns the tag 4 followed by sixteen zero
    bytes, not by the little-endian 5 and 7: the minimum is stored under
    a name the layout does not have, and the pool amount reaches the
    64-bit integer field as a buffer. *)
Theorem createWithdrawOne_writes_no_amount :
  payload (Swap.createWithdrawOneInstruction StringToNumber
             k1 k2 k3 k4 k5 k6 k7 k8 k9 5 7 k10)
    = Ok (4 :: repeat 0 16) /\
  4 :: repeat 0 16 <> [4] ++ Buffer.le_bytes 8 5 ++ Buffer.le_bytes 8 7.
Proof.
  split; [reflexivity | discriminate].
Qed.

End Properties.

Ltac unbind :=
  repeat match goal with
         | |- context [bind ?r _] =>
             destruct r as [?|?] eqn:?; cbn [bind]; try discriminate
         end.

Ltac returned :=
  unbind;
  repeat match goal with
         | |- context [let (_, _) := ?p in _] => destruct p
         end;
  let H := fresh in intros H; inversion H; subst; clear H.

Section FarmLoader.

Variable Connection : Type.
Variable loadAccount : Connection -> PublicKey -> PublicKey -> result Buffer.t.
Variable FarmLayout : Layout.
Variable newPublicKey : value -> result PublicKey.
Variable findProgramAddress : PublicKey -> PublicKey -> result PublicKey.

(** C7. When the bytes of the account decode under the farm layout and
    the decoded [isInitialized] is zero, [Farm.loadFarm] raises its
    invalid-state error and returns no farm, whatever the layout and the
    other fields are. *)
Theorem loadFarm_rejects_uninitialized
        (connection : Connection) (address programId : PublicKey)
        (data : Buffer.t) (farmData : value) :
  loadAccount connection address programId = Ok data ->
  decode FarmLayout data 0 = Ok farmData ->
  get farmData "isInitialized" = Ok (VNum 0) ->
  Farm.loadFarm Connection loadAccount FarmLayout newPublicKey
    findProgramAddress connection address programId
  = Throw (Error "Invalid farm state").
Proof.
  intros Hload Hdecode Hflag. unfold Farm.loadFarm.
  rewrite Hload. cbn [bind]. rewrite Hdecode. cbn [bind].
  rewrite Hflag. reflexivity.
Qed.

End FarmLoader.

(** Decoding fails exactly when the buffer ends before the last integer
    read does. *)
Lemma decode_reach (l : Layout) :
  forall b offset,
    ((length b < reach l offset)%nat -> decode l b offset = Throw RangeError) /\
    ((reach l offset <= length b)%nat -> exists v, decode l b offset = Ok v).
Proof.
  induction l as [s p|p|p|n p|fields p IH] using Layout_induction;
    intros b offset; cbn [decode reach].
  - unfold Buffer.readUIntLE. split; intros H.
    + destruct (Nat.leb_spec (offset + s) (length b)); [lia | reflexivity].
    + destruct (Nat.leb_spec (offset + s) (length b)); [|lia].
      eexists; reflexivity.
  - unfold Buffer.readUInt32LE, Buffer.readUIntLE. split; intros H.
    + destruct (Nat.leb_spec (offset + 4) (length b)); [|reflexivity].
      cbn [bind].
      destruct (Nat.leb_spec (offset + 4 + 4) (length b)); [lia | reflexivity].
    + destruct (Nat.leb_spec (offset + 4) (length b)); [|lia]. cbn [bind].
      destruct (Nat.leb_spec (offset + 4 + 4) (length b)); [|lia].
      eexists; reflexivity.
  - unfold Buffer.readInt32LE, Buffer.readUInt32LE, Buffer.readUIntLE.
    split; intros H.
    + destruct (Nat.leb_spec (offset + 4) (length b)); [|reflexivity].
      cbn [bind].
      destruct (Nat.leb_spec (offset + 4 + 4) (length b)); [lia | reflexivity].
    + destruct (Nat.leb_spec (offset + 4) (length b)); [|lia]. cbn [bind].
      destruct (Nat.leb_spec (offset + 4 + 4) (length b)); [|lia].
      eexists; reflexivity.
  - split; intros H; [lia | eexists; reflexivity].
  - generalize (@nil (string * value)) as dest. revert offset.
    induction IH as [|fd rest Hfd _ IHrest]; intros offset dest;
      cbn [decode_fields reach_fields].
    + split; intros H; [lia | eexists; reflexivity].
    + destruct (property fd) as [q|]; cbn [bind].
      * destruct (Hfd b offset) as [Hcut Hin].
        destruct (Nat.ltb_spec (length b) (reach fd offset)) as [Hlt|Hge].
        -- rewrite (Hcut Hlt). cbn [bind]. split; intros H; [reflexivity | lia].
        -- destruct (Hin Hge) as [v ->]. cbn [bind].
           destruct (IHrest (offset + span fd)%nat (assign dest q v))
             as [Hcut' Hin'].
           split; intros H; [apply Hcut' | apply Hin']; lia.
      * destruct (IHrest (offset + span fd)%nat dest) as [Hcut' Hin'].
        split; intros H; [apply Hcut' | apply Hin']; lia.
Qed.

(** C5. Decoding checks no length of its own: from a buffer shorter than
    the span of the layout it fails, with a RangeError and no struct, when
    the buffer ends before the last integer field of the layout does, and
    only then; otherwise it returns a struct whose trailing blobs are cut.
    A layout whose last leaf is read as an integer (the config info, fees,
    rewards and 64-bit fixed-point layouts among them) is therefore not
    decoded from any buffer shorter than its span. *)
Theorem decode_short_buffer_throws (l : Layout) (b : Buffer.t) :
  (length b < span l)%nat ->
  (ends_in_integer l = true -> decode l b 0 = Throw RangeError) /\
  ((length b < reach l 0)%nat -> decode l b 0 = Throw RangeError) /\
  ((reach l 0 <= length b)%nat -> exists v, decode l b 0 = Ok v).
Proof.
  intros Hshort. split; [|exact (decode_reach l b 0%nat)].
  intros Hends. apply decode_short; [exact Hends | lia].
Qed.

Lemma decode_short_buffer_throws_witness :
  ((length (Buffer.alloc 201) < span ConfigInfoLayout)%nat /\
   ends_in_integer ConfigInfoLayout = true /\
   decode ConfigInfoLayout (Buffer.alloc 201) 0 = Throw RangeError) /\
  ((length (Buffer.alloc 1087) < span StableSwapLayout)%nat /\
   (length (Buffer.alloc 1087) < reach StableSwapLayout 0)%nat /\
   decode StableSwapLayout (Buffer.alloc 1087) 0 = Throw RangeError) /\
  ((length (Buffer.alloc 1088) < span StableSwapLayout)%nat /\
   (reach StableSwapLayout 0 <= length (Buffer.alloc 1088))%nat /\
   exists v, decode StableSwapLayout (Buffer.alloc 1088) 0 = Ok v).
Proof.
  assert (H1 : (length (Buffer.alloc 201) < span ConfigInfoLayout)%nat)
    by (vm_compute; lia).
  assert (H2 : (length (Buffer.alloc 1087) < span StableSwapLayout)%nat)
    by (vm_compute; lia).
  assert (H3 : (length (Buffer.alloc 1088) < span StableSwapLayout)%nat)
    by (vm_compute; lia).
  assert (H4 : (length (Buffer.alloc 1087) < reach StableSwapLayout 0)%nat)
    by (vm_compute; lia).
  assert (H5 : (reach StableSwapLayout 0 <= length (Buffer.alloc 1088))%nat)
    by (vm_compute; lia).
  split; [|split].
  - split; [exact H1|]. split; [reflexivity|].
    apply (proj1 (decode_short_buffer_throws ConfigInfoLayout
                    (Buffer.alloc 201) H1)).
    reflexivity.
  - split; [exact H2|]. split; [exact H4|].
    apply (proj1 (proj2 (decode_short_buffer_throws StableSwapLayout
                           (Buffer.alloc 1087) H2))).
    exact H4.
  - split; [exact H3|]. split; [exact H5|].
    apply (proj2 (proj2 (decode_short_buffer_throws StableSwapLayout
                           (Buffer.alloc 1088) H3))).
    exact H5.
Defined.

(** Where the layouts of the client stand: the StableSwap layout of
    [layout.ts], 1152 bytes, reads its last integer at byte 1088; the
    layouts made of blobs read none; the config info, fee and reward
    layouts read up to their last byte. *)
Lemma reach_of_the_layouts :
  span StableSwapLayout = 1152%nat /\ reach StableSwapLayout 0 = 1088%nat /\
  reach (OracleLayout "oracle") 0 = 140%nat /\
  reach (PublicKeyLayout "publicKey") 0 = 0%nat /\
  reach (FixedU256Layout "fixedU256") 0 = 0%nat /\
  reach ConfigInfoLayout 0 = span ConfigInfoLayout /\
  reach (FeesLayout "fees") 0 = span (FeesLayout "fees") /\
  reach (RewardsLayout "rewards") 0 = span (RewardsLayout "rewards").
Proof. repeat split. Qed.

(** A layout that ends in a blob is decoded from a buffer one byte short:
    the last blob comes back one byte short. *)
Lemma FixedU256_decodes_short_buffer :
  (length (Buffer.alloc 63) < span (FixedU256Layout "k"))%nat /\
  decode (FixedU256Layout "k") (Buffer.alloc 63) 0
  = Ok (VObj [ ("inner", VBuf (Buffer.alloc 32));
               ("basePoint", VBuf (Buffer.alloc 31)) ]).
Proof.
  split; [vm_compute; lia | reflexivity].
Qed.

Lemma loadFarm_rejects_uninitialized_witness :
  exists farmData,
    decode FarmLayout_candidate (Buffer.alloc (span FarmLayout_candidate)) 0
    = Ok farmData /\
    get farmData "isInitialized" = Ok (VNum 0) /\
    Farm.loadFarm unit
      (fun _ _ _ => Ok (Buffer.alloc (span FarmLayout_candidate)))
      FarmLayout_candidate (fun _ => Ok "key") (fun _ _ => Ok "authority")
      tt "farm" "program"
    = Throw (Error "Invalid farm state").
Proof.
  eexists. split; [reflexivity|]. split; [reflexivity|].
  eapply loadFarm_rejects_uninitialized; reflexivity.
Defined.

(** C4. Decoding the bytes of an encoded fee schedule does not give back
    the schedule: each field returns as a plain number where the schedule
    held a NumberU64, and a field above 2^53 returns as the nearest double
    (2^53 + 1 comes back as 2^53). *)
Theorem Fees_fromBuffer_toBuffer_differs (StringToNumber : list Z -> number) :
  (exists buf,
      Struct.toBuffer StringToNumber (Fees DEFAULT_FEES) = Ok buf /\
      Fees_fromBuffer buf = Ok (IFees_numbers DEFAULT_FEES) /\
      IFees_numbers DEFAULT_FEES <> IFees_object DEFAULT_FEES) /\
  (exists buf decoded,
      Struct.toBuffer StringToNumber (Fees WIDE_FEES) = Ok buf /\
      Fees_fromBuffer buf = Ok decoded /\
      get (IFees_object WIDE_FEES) "tradeFeeNumerator" = Ok (VBN (2 ^ 53 + 1)) /\
      get decoded "tradeFeeNumerator" = Ok (VNum (2 ^ 53))).
Proof.
  split.
  - eexists. split; [reflexivity|]. split; [reflexivity|]. discriminate.
  - do 2 eexists. split; [reflexivity|]. split; [reflexivity|].
    split; reflexivity.
Qed.

(** ** Arguments outside the width of their field *)

Lemma round_nonneg_lower (m : Z) : 0 < m -> 2 ^ Z.log2 m <= round_nonneg m.
Proof.
  intros Hm. unfold round_nonneg.
  destruct (Z.ltb_spec m (2 ^ 53)) as [Hs|Hs].
  - apply Z.log2_spec; lia.
  - assert (Hl : 53 <= Z.log2 m).
    { replace 53 with (Z.log2 (2 ^ 53)) by reflexivity. apply Z.log2_le_mono. lia. }
    set (e := Z.log2 m - 52).
    set (q := Z.shiftr m e).
    assert (Hq : 2 ^ 52 <= q).
    { unfold q. rewrite Z.shiftr_div_pow2 by lia.
      apply Z.div_le_lower_bound; [apply Z.pow_pos_nonneg; lia|].
      rewrite Z.mul_comm, <- Z.pow_add_r by lia.
      replace (52 + e) with (Z.log2 m) by (unfold e; lia).
      apply Z.log2_spec; lia. }
    match goal with |- _ <= Z.shiftl ?q' e => assert (Hq' : q <= q') end.
    { destruct (_ <? _); [lia|]. destruct (_ <? _); [lia|]. destruct (Z.even q); lia. }
    rewrite Z.shiftl_mul_pow2 by lia.
    replace (Z.log2 m) with (52 + e) by (unfold e; lia).
    rewrite Z.pow_add_r by lia.
    apply Z.mul_le_mono_nonneg; try lia; apply Z.pow_nonneg; lia.
Qed.

Lemma round_double_unfit (n : Z) :
  fits_u64 n = false -> round_double n < 0 \/ 2 ^ 64 <= round_double n.
Proof.
  unfold fits_u64, round_double. intros H.
  destruct (Z.ltb_spec n 0) as [Hn|Hn].
  - left. pose proof (round_nonneg_lower (- n) ltac:(lia)) as Hl.
    assert (0 < 2 ^ Z.log2 (- n)) by (apply Z.pow_pos_nonneg; [lia | apply Z.log2_nonneg]).
    lia.
  - right. apply andb_false_iff in H. destruct H as [H|H].
    + apply Z.leb_gt in H. lia.
    + apply Z.ltb_ge in H.
      etransitivity; [|apply round_nonneg_lower; lia].
      apply Z.pow_le_mono_r; [lia|].
      replace 64 with (Z.log2 (2 ^ 64)) by reflexivity. apply Z.log2_le_mono. exact H.
Qed.

Lemma out_of_range_unsigned (n max : Z) :
  n < 0 \/ max < n -> Buffer.out_of_range (Int n) 0 max = true.
Proof.
  intros H. unfold Buffer.out_of_range, Int.
  destruct (Z.ltb_spec max n); [reflexivity|].
  destruct (Z.ltb_spec n 0); [|lia].
  rewrite andb_false_r. reflexivity.
Qed.

Lemma encode_nu64_unfit S2N p n b offset :
  fits_u64 n = false -> fails (encode S2N (NearUInt64 p) (VBN n) b offset).
Proof.
  intros H. apply round_double_unfit in H.
  cbn [encode ToNumber divmodInt64 Int fst snd].
  destruct (Buffer.writeUInt32LE _ offset b) as [b1|e]; cbn [bind];
    [|eexists; reflexivity].
  unfold Buffer.writeUInt32LE at 1. unfold Buffer.writeInt.
  change (Finite (round_double n / 4294967296) false)
    with (Int (round_double n / 4294967296)).
  rewrite out_of_range_unsigned; [eexists; reflexivity|].
  destruct H as [H|H]; [left | right].
  - apply Z.div_lt_upper_bound; lia.
  - change (2 ^ 64) with (4294967296 * 4294967296) in H.
    assert (4294967296 <= round_double n / 4294967296); [|lia].
    apply Z.div_le_lower_bound; lia.
Qed.

Lemma encode_u8_unfit S2N p n b offset :
  fits_u8 n = false -> fails (encode S2N (UInt 1 p) (VNum n) b offset).
Proof.
  intros H. cbn [encode ToNumber].
  unfold Buffer.writeUIntLE, Buffer.writeInt.
  rewrite out_of_range_unsigned; [eexists; reflexivity|].
  unfold fits_u8 in H. apply andb_false_iff in H.
  destruct H as [H|H]; [apply Z.leb_gt in H | apply Z.leb_gt in H].
  - left; lia.
  - right. change (2 ^ (8 * Z.of_nat 1) - 1) with 255. lia.
Qed.

Lemma encode_fields_fails enc src first fd p fv :
  property fd = Some p ->
  get src p = Ok fv ->
  fv <> VUndef ->
  (forall b offset, fails (enc fd fv b offset)) ->
  forall fields, In fd fields ->
  forall b offset lastOffset lastWrote,
    fails (encode_fields enc src first fields b offset lastOffset lastWrote).
Proof.
  intros Hp Hget Hdef Hfail fields.
  induction fields as [|fd' rest IH]; intros Hin b offset lastOffset lastWrote.
  - destruct Hin.
  - cbn [encode_fields]. destruct Hin as [->|Hin].
    + rewrite Hp, Hget. cbn [bind].
      destruct (Hfail b offset) as [e He].
      destruct fv; try (rewrite He; eexists; reflexivity). congruence.
    + match goal with |- fails (bind ?r _) => destruct r as [r'|e] end;
        cbn [bind]; [apply IH; exact Hin | eexists; reflexivity].
Qed.

Lemma encode_Structure_fails S2N fields prop src fd p fv :
  In fd fields ->
  property fd = Some p ->
  get src p = Ok fv ->
  fv <> VUndef ->
  (forall b offset, fails (encode S2N fd fv b offset)) ->
  forall b offset, fails (encode S2N (Structure fields prop) src b offset).
Proof.
  intros Hin Hp Hget Hdef Hfail b offset. cbn [encode].
  eapply encode_fields_fails; eauto.
Qed.

Lemma toBuffer_fails S2N (this : Struct.t) :
  (forall b offset, fails (encode S2N this.(Struct.layout) this.(Struct.data) b offset)) ->
  fails (Struct.toBuffer S2N this).
Proof.
  intros H. unfold Struct.toBuffer.
  destruct (H (Buffer.alloc (span (Struct.layout this))) 0%nat) as [e He].
  rewrite He. eexists; reflexivity.
Qed.

Ltac unfit_field name :=
  eapply encode_Structure_fails with (fd := nu64 name) (p := name);
  [ cbn [In]; repeat (first [left; reflexivity | right])
  | reflexivity | reflexivity | discriminate
  | intros; apply encode_nu64_unfit; assumption ].

Lemma Fees_toBuffer_unfit S2N (f : IFees) :
  fees_fit f = false -> fails (Struct.toBuffer S2N (Fees f)).
Proof.
  intros H. apply toBuffer_fails. intros b offset.
  unfold fees_fit in H. cbn [Fees Struct.layout Struct.data FeesLayout struct].
  rewrite !andb_false_iff in H.
  destruct H as [[[[[[[H|H]|H]|H]|H]|H]|H]|H].
  - unfit_field "adminTradeFeeNumerator".
  - unfit_field "adminTradeFeeDenominator".
  - unfit_field "adminWithdrawFeeNumerator".
  - unfit_field "adminWithdrawFeeDenominator".
  - unfit_field "tradeFeeNumerator".
  - unfit_field "tradeFeeDenominator".
  - unfit_field "withdrawFeeNumerator".
  - unfit_field "withdrawFeeDenominator".
Qed.

Lemma Rewards_toBuffer_unfit S2N (r : IRewards) :
  rewards_fit r = false -> fails (Struct.toBuffer S2N (Rewards r)).
Proof.
  intros H. apply toBuffer_fails. intros b offset.
  unfold rewards_fit in H. cbn [Rewards Struct.layout Struct.data RewardsLayout struct].
  rewrite !andb_false_iff in H.
  destruct H as [[H|H]|H].
  - unfit_field "tradeRewardNumerator".
  - unfit_field "tradeRewardDenominator".
  - unfit_field "tradeRewardCap".
Qed.

Lemma toBuffer_fit (n : Z) :
  fits_u64 n = true -> NumberU64.toBuffer n = Ok (Buffer.le_bytes 8 n).
Proof. unfold NumberU64.toBuffer, fits_u64, NumberU64.fits. intros ->. reflexivity. Qed.

Lemma toBuffer_unfit (n : Z) :
  fits_u64 n = false -> NumberU64.toBuffer n = Throw AssertionError.
Proof. unfold NumberU64.toBuffer, fits_u64, NumberU64.fits. intros ->. reflexivity. Qed.

(** [new NumberU64(x).toBuffer()] returns for the accepted arguments and
    for no other. *)
Lemma new_toBuffer_accepted (x : NumberU64.source) :
  accepted x = true ->
  bind (NumberU64.new x) NumberU64.toBuffer
  = Ok (Buffer.le_bytes 8 (NumberU64.value x)).
Proof.
  destruct x as [n|n]; cbn [accepted NumberU64.new NumberU64.value]; intros H.
  - unfold safe in H. apply andb_true_iff in H. destruct H as [H0 H1].
    apply Z.leb_le in H0. apply Z.ltb_lt in H1.
    destruct (Z.ltb_spec (Z.abs n) (2 ^ 53)); [|lia]. cbn [bind].
    apply toBuffer_fit. unfold fits_u64. apply andb_true_iff. split.
    + apply Z.leb_le; lia.
    + apply Z.ltb_lt. assert (2 ^ 53 < 2 ^ 64) by reflexivity. lia.
  - cbn [bind]. apply toBuffer_fit. exact H.
Qed.

Lemma new_toBuffer_refused (x : NumberU64.source) :
  accepted x = false ->
  bind (NumberU64.new x) NumberU64.toBuffer = Throw AssertionError.
Proof.
  destruct x as [n|n]; cbn [accepted NumberU64.new NumberU64.value]; intros H.
  - destruct (Z.ltb_spec (Z.abs n) (2 ^ 53)); [|reflexivity]. cbn [bind].
    apply toBuffer_unfit. unfold fits_u64, safe in *.
    apply andb_false_iff in H. apply andb_false_iff.
    destruct H as [H|H]; [left; exact H|].
    apply Z.ltb_ge in H. left. apply Z.leb_gt. lia.
  - cbn [bind]. apply toBuffer_unfit. exact H.
Qed.

Lemma accepted_fits (x : NumberU64.source) :
  accepted x = true -> fits_u64 (NumberU64.value x) = true.
Proof.
  destruct x as [n|n]; cbn [accepted NumberU64.value]; [|tauto].
  unfold safe, fits_u64. rewrite !andb_true_iff, !Z.leb_le, !Z.ltb_lt.
  assert (2 ^ 53 < 2 ^ 64) by reflexivity. lia.
Qed.

Lemma new_toBuffer_unfit (x : NumberU64.source) :
  fits_u64 (NumberU64.value x) = false ->
  bind (NumberU64.new x) NumberU64.toBuffer = Throw AssertionError.
Proof.
  intros H. apply new_toBuffer_refused.
  destruct (accepted x) eqn:E; [|reflexivity].
  apply accepted_fits in E. congruence.
Qed.

Ltac thrown := cbn [bind]; eexists; reflexivity.

Ltac amounts :=
  repeat match goal with
         | |- context [bind (NumberU64.new ?x) NumberU64.toBuffer] =>
             let E := fresh "E" in
             destruct (fits_u64 (NumberU64.value x)) eqn:E;
             [ destruct (bind (NumberU64.new x) NumberU64.toBuffer);
               [cbn [bind] | thrown]
             | rewrite (new_toBuffer_unfit x E); thrown ]
         | |- context [NumberU64.toBuffer ?x] =>
             let E := fresh "E" in
             destruct (fits_u64 x) eqn:E;
             [ rewrite (toBuffer_fit x E); cbn [bind]
             | rewrite (toBuffer_unfit x E); thrown ]
         end.

Ltac structs S2N :=
  repeat match goal with
         | |- context [Struct.toBuffer S2N (Fees ?f)] =>
             let E := fresh "E" in
             destruct (fees_fit f) eqn:E;
             [ destruct (Struct.toBuffer S2N (Fees f)); [cbn [bind] | thrown]
             | let e := fresh in let He := fresh in
               destruct (Fees_toBuffer_unfit S2N f E) as [e He]; rewrite He; thrown ]
         | |- context [Struct.toBuffer S2N (Rewards ?f)] =>
             let E := fresh "E" in
             destruct (rewards_fit f) eqn:E;
             [ destruct (Struct.toBuffer S2N (Rewards f)); [cbn [bind] | thrown]
             | let e := fresh in let He := fresh in
               destruct (Rewards_toBuffer_unfit S2N f E) as [e He]; rewrite He; thrown ]
         end.

Ltac all_fit H :=
  cbn [NumberU64.value] in *;
  repeat match goal with E : _ = true |- _ => rewrite E in H; clear E end;
  rewrite ?andb_true_r in H; cbn [andb] in H; try discriminate H.

Section OutOfRange.

Variable StringToNumber : list Z -> number.
Variables k1 k2 k3 k4 k5 k6 k7 k8 k9 k10 k11 k12 k13 k14 k15 : PublicKey.
Variables account account' : Keypair.

Lemma nonce_unfit nonce fields src p :
  In (u8 "nonce") fields -> get src "nonce" = Ok (VNum nonce) ->
  fits_u8 nonce = false ->
  forall b offset,
    fails (encode StringToNumber (struct fields p) src b offset).
Proof.
  intros Hin Hget H. unfold struct.
  eapply encode_Structure_fails with (fd := u8 "nonce"); eauto.
  - reflexivity.
  - discriminate.
  - intros. apply encode_u8_unfit. exact H.
Qed.

Ltac nonce H :=
  match goal with
  | |- fails (bind (encode StringToNumber (struct ?fields ?p) ?src ?b ?o) _) =>
      let e := fresh in let He := fresh in
      destruct (nonce_unfit _ fields src p
                  ltac:(cbn [In]; repeat (first [left; reflexivity | right]))
                  ltac:(reflexivity) H b o) as [e He];
      rewrite He; thrown
  end.

(** The blob of [farmWithdrawInstruction] is handed a number. *)
Lemma farmWithdrawInstruction_throws tokenAmountPool :
  Instructions.farmWithdrawInstruction StringToNumber
    k1 k2 k3 k4 k5 k6 k7 k8 k9 k10 k11 tokenAmountPool = Throw TypeError.
Proof. reflexivity. Qed.

(** C6. Every encoder fails, and returns no payload, when one of its
    numeric arguments is negative or too wide for its field: a 64-bit
    amount, factor or timestamp outside 0..2^64-1, given as a number or
    as a NumberU64, a fee or reward field outside that range, a nonce
    outside 0..255. *)
Theorem encoders_reject_out_of_range :
  (forall ampFactor fees rewards,
      fits_u64 ampFactor && fees_fit fees && rewards_fit rewards = false ->
      fails (Admin.createAdminInitializeInstruction StringToNumber k1 k2 k3
               ampFactor (Fees fees) (Rewards rewards) k4)) /\
  (forall targetAmp stopRampTimestamp,
      fits_u64 targetAmp && fits_u64 stopRampTimestamp = false ->
      fails (Admin.createRampAInstruction StringToNumber k1 k2 k3
               targetAmp stopRampTimestamp k4)) /\
  (forall newFees,
      fees_fit newFees = false ->
      fails (Admin.createSetNewFeesInstruction StringToNumber account k1 k2
               (Fees newFees) k3)) /\
  (forall newRewards,
      rewards_fit newRewards = false ->
      fails (Admin.createSetNewRewardsInstruction StringToNumber account k1 k2
               (Rewards newRewards) k3)) /\
  (forall nonce ampFactor fees rewards k i isOpenTwap,
      fits_u8 nonce && fits_u64 ampFactor && fees_fit fees
      && rewards_fit rewards && fits_u64 k && fits_u64 i
      && fits_u64 isOpenTwap = false ->
      fails (Swap.createInitSwapInstruction StringToNumber
               k1 k2 k3 k4 k5 k6 k7 k8 k9 k10 k11 k12 k13 k14
               nonce ampFactor (Fees fees) (Rewards rewards) k i isOpenTwap
               k15)) /\
  (forall amountIn minimumAmountOut swapDirection,
      fits_u64 amountIn && fits_u64 minimumAmountOut
      && fits_u64 swapDirection = false ->
      fails (Swap.createSwapInstruction StringToNumber
               k1 k2 k3 k4 k5 k6 k7 k8 k9 k10
               amountIn minimumAmountOut swapDirection k11)) /\
  (forall tokenAmountA tokenAmountB minimumPoolTokenAmount,
      fits_u64 tokenAmountA && fits_u64 tokenAmountB
      && fits_u64 minimumPoolTokenAmount = false ->
      fails (Swap.createDepositInstruction StringToNumber
               k1 k2 k3 k4 k5 k6 k7 k8 k9
               tokenAmountA tokenAmountB minimumPoolTokenAmount k10)) /\
  (forall poolTokenAmount minimumTokenA minimumTokenB,
      fits_u64 poolTokenAmount && fits_u64 minimumTokenA
      && fits_u64 minimumTokenB = false ->
      fails (Swap.createWithdrawInstruction StringToNumber
               k1 k2 k3 k4 k5 k6 k7 k8 k9 k10 k11
               poolTokenAmount minimumTokenA minimumTokenB k12)) /\
  (forall poolTokenAmount minimumTokenAmount,
      fits_u64 poolTokenAmount && fits_u64 minimumTokenAmount = false ->
      fails (Swap.createWithdrawOneInstruction StringToNumber
               k1 k2 k3 k4 k5 k6 k7 k8 k9
               poolTokenAmount minimumTokenAmount k10)) /\
  (forall nonce ampFactor fees,
      fits_u8 nonce && fits_u64 (NumberU64.value ampFactor)
      && fees_fit fees = false ->
      fails (Instructions.createInitSwapInstruction StringToNumber account
               k1 k2 k3 k4 k5 k6 k7 k8 k9 k10 k11 k12 nonce ampFactor fees)) /\
  (forall amountIn minimumAmountOut,
      fits_u64 (NumberU64.value amountIn)
      && fits_u64 (NumberU64.value minimumAmountOut) = false ->
      fails (Instructions.swapInstruction StringToNumber
               k1 k2 k3 k4 k5 k6 k7 k8 k9 amountIn minimumAmountOut)) /\
  (forall tokenAmountA tokenAmountB minimumPoolTokenAmount,
      fits_u64 (NumberU64.value tokenAmountA)
      && fits_u64 (NumberU64.value tokenAmountB)
      && fits_u64 (NumberU64.value minimumPoolTokenAmount) = false ->
      fails (Instructions.depositInstruction StringToNumber
               k1 k2 k3 k4 k5 k6 k7 k8 k9 k10
               tokenAmountA tokenAmountB minimumPoolTokenAmount)) /\
  (forall poolTokenAmount minimumTokenA minimumTokenB,
      fits_u64 (NumberU64.value poolTokenAmount)
      && fits_u64 (NumberU64.value minimumTokenA)
      && fits_u64 (NumberU64.value minimumTokenB) = false ->
      fails (Instructions.withdrawInstruction StringToNumber
               k1 k2 k3 k4 k5 k6 k7 k8 k9 k10 k11 k12
               poolTokenAmount minimumTokenA minimumTokenB)) /\
  (forall nonce fees,
      fits_u8 nonce && fees_fit fees = false ->
      fails (Instructions.createInitFarmInstruction StringToNumber
               account account' k1 k2 k3 k4 k5 k6 k7 k8 k9 nonce fees)) /\
  (forall tokenAmountPool,
      fits_u64 tokenAmountPool = false ->
      fails (Instructions.farmDepositInstruction StringToNumber
               k1 k2 k3 k4 k5 k6 k7 k8 k9 k10 k11 tokenAmountPool)) /\
  (forall tokenAmountPool,
      fits_u64 tokenAmountPool = false ->
      fails (Instructions.farmWithdrawInstruction StringToNumber
               k1 k2 k3 k4 k5 k6 k7 k8 k9 k10 k11 tokenAmountPool)) /\
  (forall nonce fees,
      fits_u8 nonce && fees_fit fees = false ->
      fails (Instructions.farmPrintPendingDeltafiInstruction StringToNumber
               account k1 k2 k3 k4 k5 k6 k7 k8 k9 nonce fees)).
Proof.
  repeat match goal with |- _ /\ _ => split end.
  - intros ampFactor fees rewards H.
    unfold Admin.createAdminInitializeInstruction.
    amounts. structs StringToNumber. all_fit H.
  - intros targetAmp stopRampTimestamp H.
    unfold Admin.createRampAInstruction. amounts. all_fit H.
  - intros newFees H. unfold Admin.createSetNewFeesInstruction.
    structs StringToNumber. all_fit H.
  - intros newRewards H. unfold Admin.createSetNewRewardsInstruction.
    structs StringToNumber. all_fit H.
  - intros nonce ampFactor fees rewards k i isOpenTwap H.
    unfold Swap.createInitSwapInstruction.
    amounts. structs StringToNumber. amounts. all_fit H. nonce H.
  - intros amountIn minimumAmountOut swapDirection H.
    unfold Swap.createSwapInstruction. amounts. all_fit H.
  - intros tokenAmountA tokenAmountB minimumPoolTokenAmount H.
    unfold Swap.createDepositInstruction. amounts. all_fit H.
  - intros poolTokenAmount minimumTokenA minimumTokenB H.
    unfold Swap.createWithdrawInstruction. amounts. all_fit H.
  - intros poolTokenAmount minimumTokenAmount H.
    unfold Swap.createWithdrawOneInstruction. amounts. all_fit H.
  - intros nonce ampFactor fees H. unfold fees_fit in H.
    unfold Instructions.createInitSwapInstruction.
    amounts. all_fit H. nonce H.
  - intros amountIn minimumAmountOut H.
    unfold Instructions.swapInstruction. amounts. all_fit H.
  - intros tokenAmountA tokenAmountB minimumPoolTokenAmount H.
    unfold Instructions.depositInstruction. amounts. all_fit H.
  - intros poolTokenAmount minimumTokenA minimumTokenB H.
    unfold Instructions.withdrawInstruction. amounts. all_fit H.
  - intros nonce fees H. unfold fees_fit in H.
    unfold Instructions.createInitFarmInstruction, Instructions.nonceAndFees.
    amounts. all_fit H.
    match goal with |- fails (bind ?r _) => assert (Hr : fails r) end;
      [nonce H | destruct Hr as [e ->]; thrown].
  - intros tokenAmountPool H.
    unfold Instructions.farmDepositInstruction. amounts. all_fit H.
  - intros tokenAmountPool _. rewrite farmWithdrawInstruction_throws.
    eexists; reflexivity.
  - intros nonce fees H. unfold fees_fit in H.
    unfold Instructions.farmPrintPendingDeltafiInstruction,
      Instructions.nonceAndFees.
    amounts. all_fit H.
    match goal with |- fails (bind ?r _) => assert (Hr : fails r) end;
      [nonce H | destruct Hr as [e ->]; thrown].
Qed.

End OutOfRange.

Lemma encoders_reject_out_of_range_witness :
  fits_u64 (2 ^ 64) && fits_u64 0 = false /\
  fails (Admin.createRampAInstruction (fun _ => NaN) "swap" "authority" "admin"
           (2 ^ 64) 0 "program").
Proof.
  split; [reflexivity|].
  apply (proj1 (proj2 (encoders_reject_out_of_range (fun _ => NaN)
           "swap" "authority" "admin" "program" "k5" "k6" "k7" "k8" "k9"
           "k10" "k11" "k12" "k13" "k14" "k15"
           {| publicKey := "a" |} {| publicKey := "b" |})) (2 ^ 64) 0).
  reflexivity.
Defined.

(** ** Frames, spans and round trips *)

Lemma le_bytes_length (k : nat) (n : Z) : length (Buffer.le_bytes k n) = k.
Proof. revert n. induction k; intros n; simpl; [reflexivity | rewrite IHk; reflexivity]. Qed.

Lemma write_at_length (b : Buffer.t) (offset : nat) (bytes : list Z) :
  (offset + length bytes <= length b)%nat ->
  length (Buffer.write_at b offset bytes) = length b.
Proof.
  intros H. unfold Buffer.write_at.
  rewrite !length_app, length_firstn, length_skipn. lia.
Qed.

Lemma write_at_firstn (b : Buffer.t) (offset : nat) (bytes : list Z) (k : nat) :
  (offset + length bytes <= length b)%nat -> (k <= offset)%nat ->
  firstn k (Buffer.write_at b offset bytes) = firstn k b.
Proof.
  intros H Hk. unfold Buffer.write_at.
  rewrite firstn_app, length_firstn.
  replace (k - Nat.min offset (length b))%nat with O by lia.
  rewrite firstn_firstn. simpl. rewrite app_nil_r. f_equal. lia.
Qed.

Lemma write_at_skipn (b : Buffer.t) (offset : nat) (bytes : list Z) (k : nat) :
  (offset + length bytes <= length b)%nat -> (offset + length bytes <= k)%nat ->
  skipn k (Buffer.write_at b offset bytes) = skipn k b.
Proof.
  intros H Hk. unfold Buffer.write_at.
  rewrite skipn_app, length_firstn.
  rewrite (skipn_all2 (firstn offset b)) by (rewrite length_firstn; lia).
  rewrite skipn_app.
  rewrite (skipn_all2 bytes) by lia.
  simpl. rewrite skipn_skipn. f_equal. lia.
Qed.

Lemma framed_write_at b offset bytes :
  (offset + length bytes <= length b)%nat ->
  framed b (Buffer.write_at b offset bytes) offset (length bytes).
Proof.
  intros H. repeat split.
  - apply write_at_length; exact H.
  - intros k Hk. apply write_at_firstn; assumption.
  - intros k Hk. apply write_at_skipn; assumption.
Qed.

Lemma framed_refl b offset size : framed b b offset size.
Proof. repeat split; auto. Qed.

Lemma framed_trans b b1 b2 offset s1 s2 :
  framed b b1 offset s1 -> framed b1 b2 (offset + s1) s2 ->
  framed b b2 offset (s1 + s2).
Proof.
  intros (L1 & F1 & S1) (L2 & F2 & S2). repeat split.
  - congruence.
  - intros k Hk. rewrite F2 by lia. apply F1; lia.
  - intros k Hk. rewrite S2 by lia. apply S1; lia.
Qed.

Lemma writeInt_framed min max k value offset b b' :
  Buffer.writeInt min max k value offset b = Ok b' -> framed b b' offset k.
Proof.
  unfold Buffer.writeInt.
  destruct (Buffer.out_of_range value min max); [discriminate|].
  destruct (Nat.leb_spec (offset + k) (length b)); [|discriminate].
  intros E; inversion E; subst.
  rewrite <- (le_bytes_length k (Buffer.stored value)) at 2.
  apply framed_write_at. rewrite le_bytes_length. assumption.
Qed.

Section EncodeFrame.
Variable S2N : list Z -> number.

Lemma encode_fields_framed src first fields :
  Forall (fun fd => forall src b offset b' n,
              encode S2N fd src b offset = Ok (b', n) ->
              framed b b' offset (span fd)) fields ->
  forall b offset lastOffset lastWrote b' n,
    encode_fields (encode S2N) src first fields b offset lastOffset lastWrote
    = Ok (b', n) ->
    framed b b' offset (list_sum (map span fields)).
Proof.
  induction 1 as [|fd rest Hfd _ IH];
    intros b offset lastOffset lastWrote b' n; cbn [encode_fields map list_sum fold_right].
  - intros E; inversion E; subst. apply framed_refl.
  - match goal with |- bind ?r _ = _ -> _ => destruct r as [[b1 w]|e] eqn:E1 end;
      cbn [bind fst snd]; [|discriminate].
    intros E2.
    assert (F1 : framed b b1 offset (span fd)).
    { destruct (property fd) as [p|].
      - destruct (get src p) as [fv|]; cbn [bind] in E1; [|discriminate].
        destruct fv; try (eapply Hfd; exact E1).
        inversion E1; subst. apply framed_refl.
      - inversion E1; subst. apply framed_refl. }
    eapply framed_trans; [exact F1|].
    eapply IH; exact E2.
Qed.

(** Encoding a layout leaves the buffer its length and writes only
    inside the span of the layout. *)
Lemma encode_framed (l : Layout) :
  forall src b offset b' n,
    encode S2N l src b offset = Ok (b', n) -> framed b b' offset (span l).
Proof.
  induction l as [s p|p|p|k p|fields p IH] using Layout_induction;
    intros src b offset b' n; cbn [encode span].
  - unfold Buffer.writeUIntLE.
    destruct (Buffer.writeInt _ _ _ _ _ _) as [b1|] eqn:E; cbn [bind]; [|discriminate].
    intros E'; inversion E'; subst. eapply writeInt_framed; eauto.
  - unfold Buffer.writeUInt32LE.
    destruct (Buffer.writeInt 0 4294967295 4 _ offset b) as [b1|] eqn:E1; cbn [bind]; [|discriminate].
    destruct (Buffer.writeInt 0 4294967295 4 _ (offset + 4) b1) as [b2|] eqn:E2; cbn [bind]; [|discriminate].
    intros E'; inversion E'; subst.
    change 8%nat with (4 + 4)%nat.
    eapply framed_trans; eapply writeInt_framed; eauto.
  - unfold Buffer.writeUInt32LE, Buffer.writeInt32LE.
    destruct (Buffer.writeInt 0 4294967295 4 _ offset b) as [b1|] eqn:E1; cbn [bind]; [|discriminate].
    destruct (Buffer.writeInt _ _ 4 _ (offset + 4) b1) as [b2|] eqn:E2; cbn [bind]; [|discriminate].
    intros E'; inversion E'; subst.
    change 8%nat with (4 + 4)%nat.
    eapply framed_trans; eapply writeInt_framed; eauto.
  - destruct src; try discriminate.
    destruct (Nat.eqb_spec (length b0) k); [|discriminate].
    destruct (Nat.leb_spec (offset + k) (length b)); [|discriminate].
    intros E'; inversion E'; subst. apply framed_write_at. assumption.
  - intros E. eapply encode_fields_framed; eauto.
Qed.
End EncodeFrame.

Section EncodeSpan.
Variable S2N : list Z -> number.

Lemma encode_fields_written src first fields :
  Forall (fun fd => nonempty fd = true ->
                    forall src b offset b' n,
                      encode S2N fd src b offset = Ok (b', n) ->
                      n = Z.of_nat (span fd)) fields ->
  forallb nonempty fields = true ->
  forall b offset lastOffset lastWrote b' n,
    Z.of_nat lastOffset + lastWrote = Z.of_nat offset ->
    encode_fields (encode S2N) src first fields b offset lastOffset lastWrote
    = Ok (b', n) ->
    n = Z.of_nat (offset + list_sum (map span fields)) - Z.of_nat first.
Proof.
  induction 1 as [|fd rest Hfd _ IH]; intros Hne b offset lastOffset lastWrote b' n Hinv;
    cbn [encode_fields].
  - intros E; inversion E; subst. simpl. lia.
  - cbn [forallb] in Hne. apply andb_true_iff in Hne. destruct Hne as [Hne1 Hne2].
    match goal with |- bind ?r _ = _ -> _ => destruct r as [[b1 w]|e] eqn:E1 end;
      cbn [bind fst snd]; [|discriminate].
    intros E2.
    assert (Hw : w = Z.of_nat (span fd)).
    { destruct (property fd) as [p|].
      - destruct (get src p) as [fv|]; cbn [bind] in E1; [|discriminate].
        destruct fv; try (eapply Hfd; [exact Hne1 | exact E1]).
        inversion E1; subst. reflexivity.
      - inversion E1; subst. reflexivity. }
    subst w. apply IH in E2; [|exact Hne2|lia]. rewrite E2.
    change (list_sum (map span (fd :: rest)))
      with (span fd + list_sum (map span rest))%nat. lia.
Qed.

(** A layout without an empty structure reports its span as written. *)
Lemma encode_written (l : Layout) :
  nonempty l = true ->
  forall src b offset b' n,
    encode S2N l src b offset = Ok (b', n) -> n = Z.of_nat (span l).
Proof.
  induction l as [s p|p|p|k p|fields p IH] using Layout_induction;
    intros Hne src b offset b' n; cbn [encode span].
  - destruct (Buffer.writeUIntLE _ _ _ _); cbn [bind]; [|discriminate].
    intros E; inversion E; reflexivity.
  - destruct (Buffer.writeUInt32LE _ _ _); cbn [bind]; [|discriminate].
    destruct (Buffer.writeUInt32LE _ _ _); cbn [bind]; [|discriminate].
    intros E; inversion E; reflexivity.
  - destruct (Buffer.writeUInt32LE _ _ _); cbn [bind]; [|discriminate].
    destruct (Buffer.writeInt32LE _ _ _); cbn [bind]; [|discriminate].
    intros E; inversion E; reflexivity.
  - destruct src; try discriminate.
    destruct (length b0 =? k)%nat; [|discriminate].
    destruct (offset + k <=? length b)%nat; [|discriminate].
    intros E; inversion E; reflexivity.
  - intros E. cbn [nonempty] in Hne.
    destruct fields as [|fd rest]; [discriminate|].
    cbn [encode_fields] in E.
    match type of E with bind ?r _ = _ => destruct r as [[b1 w]|e] eqn:E1 end;
      cbn [bind fst snd] in E; [|discriminate].
    cbn [forallb] in Hne. apply andb_true_iff in Hne. destruct Hne as [Hne1 Hne2].
    inversion IH as [|? ? Hfd Hrest]; subst.
    assert (Hw : w = Z.of_nat (span fd)).
    { destruct (property fd) as [q|].
      - destruct (get src q) as [fv|]; cbn [bind] in E1; [|discriminate].
        destruct fv; try (eapply Hfd; [exact Hne1 | exact E1]).
        inversion E1; subst. reflexivity.
      - inversion E1; subst. reflexivity. }
    subst w.
    eapply encode_fields_written in E; [|exact Hrest|exact Hne2|lia].
    rewrite E.
    change (list_sum (map span (fd :: rest)))
      with (span fd + list_sum (map span rest))%nat. lia.
Qed.

End EncodeSpan.

Lemma slice_whole (b : Buffer.t) :
  Buffer.slice b 0 (Z.of_nat (length b)) = b.
Proof.
  unfold Buffer.slice, Buffer.adjustOffset.
  change (0 <? 0) with false. cbn iota.
  destruct (Z.ltb_spec (Z.of_nat (length b)) 0); [lia|].
  rewrite !Z.min_l by lia.
  change (Z.to_nat 0) with O. rewrite Z.sub_0_r, Nat2Z.id.
  simpl. apply firstn_all.
Qed.

(** X1. The buffer [Struct.toBuffer] returns is exactly as long as the span
    of the layout, whatever the data hold and whichever fields were
    written, for a layout none of whose structures is empty. *)
Theorem Struct_toBuffer_length S2N (this : Struct.t) (buf : Buffer.t) :
  nonempty this.(Struct.layout) = true ->
  Struct.toBuffer S2N this = Ok buf ->
  length buf = span this.(Struct.layout).
Proof.
  intros Hne. unfold Struct.toBuffer.
  destruct (encode S2N _ _ _ _) as [[b' n]|] eqn:E; cbn [bind]; [|discriminate].
  intros E'; inversion E'; subst.
  pose proof (encode_written S2N _ Hne _ _ _ _ _ E) as Hn.
  pose proof (encode_framed S2N _ _ _ _ _ _ E) as (Hl & _).
  unfold Buffer.alloc in Hl. rewrite repeat_length in Hl.
  subst n. rewrite <- Hl at 1. rewrite slice_whole. exact Hl.
Qed.

Lemma readUIntLE_inside (b : Buffer.t) (offset k : nat) :
  (offset + k <= length b)%nat ->
  Buffer.readUIntLE b offset k = Ok (Buffer.from_le (firstn k (skipn offset b))).
Proof.
  intros H. unfold Buffer.readUIntLE.
  destruct (Nat.leb_spec (offset + k) (length b)); [reflexivity | lia].
Qed.

Lemma window_app (b extra : list Z) (offset k : nat) :
  (offset + k <= length b)%nat ->
  firstn k (skipn offset (b ++ extra)) = firstn k (skipn offset b).
Proof.
  intros H. rewrite skipn_app, firstn_app, length_skipn.
  replace (k - (length b - offset))%nat with O by lia.
  rewrite firstn_O, app_nil_r. reflexivity.
Qed.

Lemma slice_inside (b : Buffer.t) (offset k : nat) :
  (offset + k <= length b)%nat ->
  Buffer.slice b (Z.of_nat offset) (Z.of_nat (offset + k))
  = firstn k (skipn offset b).
Proof.
  intros H. unfold Buffer.slice, Buffer.adjustOffset.
  destruct (Z.ltb_spec (Z.of_nat offset) 0); [lia|].
  destruct (Z.ltb_spec (Z.of_nat (offset + k)) 0); [lia|].
  rewrite !Z.min_l by lia. rewrite Nat2Z.id. f_equal. lia.
Qed.

Lemma decode_fields_total b fields :
  Forall (fun fd => forall offset, (offset + span fd <= length b)%nat ->
                                   exists v, decode fd b offset = Ok v) fields ->
  forall offset dest,
    (offset + list_sum (map span fields) <= length b)%nat ->
    exists v, decode_fields decode b fields offset dest = Ok v.
Proof.
  induction 1 as [|fd rest Hfd _ IH]; intros offset dest Hb; cbn [decode_fields].
  - eexists; reflexivity.
  - change (list_sum (map span (fd :: rest)))
      with (span fd + list_sum (map span rest))%nat in Hb.
    destruct (property fd) as [p|]; cbn [bind].
    + destruct (Hfd offset ltac:(lia)) as [v ->]. cbn [bind]. apply IH. lia.
    + apply IH. lia.
Qed.

(** A buffer that holds the whole span of a layout is decoded. *)
Lemma decode_total (l : Layout) :
  forall b offset,
    (offset + span l <= length b)%nat -> exists v, decode l b offset = Ok v.
Proof.
  induction l as [s p|p|p|k p|fields p IH] using Layout_induction;
    intros b offset Hb; cbn [decode span] in *.
  - rewrite readUIntLE_inside by lia. eexists; reflexivity.
  - unfold Buffer.readUInt32LE. rewrite !readUIntLE_inside by lia.
    eexists; reflexivity.
  - unfold Buffer.readUInt32LE, Buffer.readInt32LE.
    rewrite !readUIntLE_inside by lia. eexists; reflexivity.
  - eexists; reflexivity.
  - apply decode_fields_total; [|exact Hb].
    eapply Forall_impl; [|exact IH]. intros fd Hfd offset'. apply Hfd.
Qed.

Lemma decode_fields_excess b extra fields :
  Forall (fun fd => forall offset, (offset + span fd <= length b)%nat ->
                                   decode fd (b ++ extra) offset = decode fd b offset)
         fields ->
  forall offset dest,
    (offset + list_sum (map span fields) <= length b)%nat ->
    decode_fields decode (b ++ extra) fields offset dest
    = decode_fields decode b fields offset dest.
Proof.
  induction 1 as [|fd rest Hfd _ IH]; intros offset dest Hb; cbn [decode_fields].
  - reflexivity.
  - change (list_sum (map span (fd :: rest)))
      with (span fd + list_sum (map span rest))%nat in Hb.
    rewrite Hfd by lia.
    destruct (property fd) as [p|]; cbn [bind].
    + destruct (decode fd b offset); cbn [bind]; [apply IH; lia | reflexivity].
    + apply IH. lia.
Qed.

(** The bytes after the span of a layout play no part in decoding. *)
Lemma decode_excess (l : Layout) :
  forall b extra offset,
    (offset + span l <= length b)%nat ->
    decode l (b ++ extra) offset = decode l b offset.
Proof.
  induction l as [s p|p|p|k p|fields p IH] using Layout_induction;
    intros b extra offset Hb; cbn [decode span] in *.
  - rewrite !readUIntLE_inside by (rewrite ?length_app; lia).
    rewrite window_app by lia. reflexivity.
  - unfold Buffer.readUInt32LE.
    rewrite !readUIntLE_inside by (rewrite ?length_app; lia).
    rewrite !window_app by lia. reflexivity.
  - unfold Buffer.readUInt32LE, Buffer.readInt32LE.
    rewrite !readUIntLE_inside by (rewrite ?length_app; lia).
    rewrite !window_app by lia. reflexivity.
  - rewrite !slice_inside by (rewrite ?length_app; lia).
    rewrite window_app by lia. reflexivity.
  - apply decode_fields_excess; [|exact Hb].
    eapply Forall_impl; [|exact IH]. intros fd Hfd offset'. apply Hfd.
Qed.

(** X2. A layout reads its own span and nothing else: from a buffer that
    holds the whole span at the offset, decoding returns a value, and the
    bytes that follow the span do not change it.  So it is for the fee and
    reward schedules of [fromBuffer] and for the account layouts. *)
Theorem decode_reads_only_its_span (l : Layout) (b extra : Buffer.t)
        (offset : nat) :
  (offset + span l <= length b)%nat ->
  exists v, decode l b offset = Ok v /\ decode l (b ++ extra) offset = Ok v.
Proof.
  intros Hb. destruct (decode_total l b offset Hb) as [v Hv].
  exists v. split; [exact Hv|]. rewrite decode_excess by exact Hb. exact Hv.
Qed.

Lemma byte_low (n : Z) : Z.land n 255 = n mod 256.
Proof. change 255 with (Z.ones 8). rewrite Z.land_ones by lia. reflexivity. Qed.

Lemma byte_shift (n : Z) : Z.shiftr n 8 = n / 256.
Proof. rewrite Z.shiftr_div_pow2 by lia. reflexivity. Qed.

Lemma pow256_pos (k : nat) : 0 < 256 ^ Z.of_nat k.
Proof. apply Z.pow_pos_nonneg; lia. Qed.

Lemma pow256_S (k : nat) : 256 ^ Z.of_nat (S k) = 256 * 256 ^ Z.of_nat k.
Proof. rewrite Nat2Z.inj_succ, Z.pow_succ_r by lia. reflexivity. Qed.

(** The bytes of [le_bytes] read back as the integer modulo the width. *)
Lemma from_le_le_bytes (k : nat) :
  forall n, Buffer.from_le (Buffer.le_bytes k n) = n mod 256 ^ Z.of_nat k.
Proof.
  induction k as [|k IH]; intros n.
  - simpl. rewrite Z.mod_1_r. reflexivity.
  - cbn [Buffer.le_bytes Buffer.from_le].
    rewrite IH, byte_low, byte_shift, pow256_S.
    rewrite Z.rem_mul_r by (pose proof (pow256_pos k); lia). reflexivity.
Qed.

Lemma le_bytes_app (j k : nat) :
  forall n, Buffer.le_bytes (j + k) n
            = Buffer.le_bytes j n ++ Buffer.le_bytes k (n / 256 ^ Z.of_nat j).
Proof.
  induction j as [|j IH]; intros n.
  - simpl. rewrite Z.div_1_r. reflexivity.
  - cbn [Nat.add Buffer.le_bytes app]. rewrite IH, byte_shift, pow256_S.
    rewrite Z.div_div by (pose proof (pow256_pos j); lia). reflexivity.
Qed.

Lemma le_bytes_mod (k : nat) :
  forall n, Buffer.le_bytes k (n mod 256 ^ Z.of_nat k) = Buffer.le_bytes k n.
Proof.
  induction k as [|k IH]; intros n.
  - reflexivity.
  - cbn [Buffer.le_bytes]. rewrite !byte_low, !byte_shift, pow256_S.
    pose proof (pow256_pos k) as Hp.
    rewrite Z.rem_mul_r by lia.
    f_equal.
    + rewrite Z.mul_comm, Z.mod_add by lia. apply Z.mod_mod. lia.
    + rewrite <- (IH (n / 256)). f_equal.
      rewrite Z.mul_comm, Z.div_add by lia.
      rewrite (Z.div_small (n mod 256)) by (apply Z.mod_pos_bound; lia).
      reflexivity.
Qed.

Lemma le_bytes_8 (n : Z) :
  Buffer.le_bytes 4 (n mod 4294967296) ++ Buffer.le_bytes 4 (n / 4294967296)
  = Buffer.le_bytes 8 n.
Proof.
  change 8%nat with (4 + 4)%nat. rewrite le_bytes_app.
  change (256 ^ Z.of_nat 4) with 4294967296.
  rewrite <- (le_bytes_mod 4 n). reflexivity.
Qed.

Lemma write_at_write_at (b : Buffer.t) (offset : nat) (xs ys : list Z) :
  (offset + length xs + length ys <= length b)%nat ->
  Buffer.write_at (Buffer.write_at b offset xs) (offset + length xs) ys
  = Buffer.write_at b offset (xs ++ ys).
Proof.
  intros H. unfold Buffer.write_at at 1.
  assert (L : length (firstn offset b) = offset) by (rewrite length_firstn; lia).
  assert (F : firstn (offset + length xs) (Buffer.write_at b offset xs)
              = firstn offset b ++ xs).
  { unfold Buffer.write_at. rewrite app_assoc.
    rewrite firstn_app, length_app, L.
    replace (offset + length xs - (offset + length xs))%nat with O by lia.
    rewrite firstn_O, app_nil_r. apply firstn_all2. rewrite length_app, L. lia. }
  rewrite F, write_at_skipn by lia.
  unfold Buffer.write_at. rewrite <- !app_assoc, length_app.
  rewrite Nat.add_assoc. reflexivity.
Qed.

Lemma write_at_whole (b : Buffer.t) (xs : list Z) :
  length xs = length b -> Buffer.write_at b 0 xs = xs.
Proof.
  intros H. unfold Buffer.write_at. simpl.
  rewrite skipn_all2 by lia. apply app_nil_r.
Qed.

Lemma round_double_safe (n : Z) : safe n = true -> round_double n = n.
Proof.
  unfold safe. intros H. apply andb_true_iff in H. destruct H as [H0 H1].
  apply Z.leb_le in H0. unfold round_double, round_nonneg.
  destruct (Z.ltb_spec n 0); [lia|]. rewrite H1. reflexivity.
Qed.

Section Nu64.
Variable S2N : list Z -> number.

(** A NumberU64 below 2^53 is stored by a 64-bit integer field as its
    eight little-endian bytes. *)
Lemma encode_nu64_safe p n b offset :
  safe n = true -> (offset + 8 <= length b)%nat ->
  encode S2N (NearUInt64 p) (VBN n) b offset
  = Ok (Buffer.write_at b offset (Buffer.le_bytes 8 n), 8).
Proof.
  intros Hs Hb. cbn [encode ToNumber divmodInt64 Int fst snd].
  rewrite (round_double_safe n Hs).
  unfold safe in Hs. apply andb_true_iff in Hs. destruct Hs as [H0 H1].
  apply Z.leb_le in H0. apply Z.ltb_lt in H1.
  assert (Hlo : 0 <= n mod 4294967296 < 4294967296) by (apply Z.mod_pos_bound; lia).
  assert (Hhi : 0 <= n / 4294967296 < 4294967296).
  { split; [apply Z.div_pos; lia | apply Z.div_lt_upper_bound; lia]. }
  unfold Int.
  unfold Buffer.writeUInt32LE, Buffer.writeInt, Buffer.out_of_range, Buffer.stored.
  rewrite andb_false_r.
  destruct (Z.ltb_spec 4294967295 (n mod 4294967296)); [lia|].
  destruct (Z.ltb_spec (n mod 4294967296) 0); [lia|].
  cbn [orb].
  destruct (Nat.leb_spec (offset + 4) (length b)); [|lia].
  cbn [bind]. rewrite andb_false_r.
  destruct (Z.ltb_spec 4294967295 (n / 4294967296)); [lia|].
  destruct (Z.ltb_spec (n / 4294967296) 0); [lia|].
  cbn [orb].
  rewrite write_at_length by (rewrite le_bytes_length; lia).
  destruct (Nat.leb_spec (offset + 4 + 4) (length b)); [|lia].
  cbn [bind]. f_equal. f_equal.
  rewrite <- (le_bytes_length 4 (n mod 4294967296)) at 2.
  rewrite write_at_write_at by (rewrite !le_bytes_length; lia).
  rewrite le_bytes_8. reflexivity.
Qed.

(** A structure of 64-bit integer fields, each named in the object and
    below 2^53 there, stores the concatenation of their bytes. *)
Lemma encode_fields_nu64 src first names values :
  Forall2 (fun name n => get src name = Ok (VBN n) /\ safe n = true)
          names values ->
  forall b offset lastOffset lastWrote,
    (offset + 8 * length names <= length b)%nat ->
    exists n,
      encode_fields (encode S2N) src first (map nu64 names) b offset
        lastOffset lastWrote
      = Ok (Buffer.write_at b offset (concat (map (Buffer.le_bytes 8) values)), n).
Proof.
  induction 1 as [|name n names values [Hget Hs] Hrest IH];
    intros b offset lastOffset lastWrote Hb.
  - cbn [map encode_fields concat]. eexists. f_equal. f_equal.
    unfold Buffer.write_at. simpl. rewrite Nat.add_0_r.
    symmetry. apply firstn_skipn.
  - cbn [map encode_fields property nu64 length] in *.
    rewrite Hget. cbn [bind]. 
    change (nu64 name) with (NearUInt64 (Some name)).
    rewrite encode_nu64_safe by (auto; lia). cbn [bind fst snd span].
    destruct (IH (Buffer.write_at b offset (Buffer.le_bytes 8 n))
                 (offset + 8)%nat offset 8) as [m Hm].
    { rewrite write_at_length by (rewrite le_bytes_length; lia). lia. }
    exists m. rewrite Hm. f_equal. f_equal.
    cbn [concat].
    rewrite <- (le_bytes_length 8 n) at 2.
    apply write_at_write_at.
    rewrite le_bytes_length.
    assert (length (concat (map (Buffer.le_bytes 8) values)) = 8 * length names)%nat;
      [|lia].
    clear -Hrest. induction Hrest; cbn [map concat length];
      [reflexivity | rewrite length_app, le_bytes_length; lia].
Qed.

End Nu64.

Lemma firstn_prefix {A : Type} (k : nat) (xs ys : list A) :
  length xs = k -> firstn k (xs ++ ys) = xs.
Proof.
  intros <-. induction xs; simpl; [reflexivity | rewrite IHxs; reflexivity].
Qed.

Lemma skipn_prefix {A : Type} (k : nat) (xs ys : list A) :
  length xs = k -> skipn k (xs ++ ys) = ys.
Proof. intros <-. induction xs; simpl; [reflexivity | exact IHxs]. Qed.

Lemma decode_nu64_at p n (b : Buffer.t) offset post :
  safe n = true ->
  skipn offset b = Buffer.le_bytes 8 n ++ post ->
  decode (NearUInt64 p) b offset = Ok (VNum n).
Proof.
  intros Hs Hw.
  assert (Hb : (offset + 8 <= length b)%nat).
  { assert (L : length (skipn offset b) = (8 + length post)%nat)
      by (rewrite Hw, length_app, le_bytes_length; reflexivity).
    rewrite length_skipn in L. lia. }
  change 8%nat with (4 + 4)%nat in Hw. rewrite le_bytes_app in Hw.
  change (256 ^ Z.of_nat 4) with 4294967296 in Hw.
  cbn [decode]. unfold Buffer.readUInt32LE.
  rewrite !readUIntLE_inside by lia. cbn [bind].
  assert (W1 : firstn 4 (skipn offset b) = Buffer.le_bytes 4 n).
  { rewrite Hw, <- app_assoc. apply firstn_prefix, le_bytes_length. }
  assert (W2 : firstn 4 (skipn (offset + 4) b) = Buffer.le_bytes 4 (n / 4294967296)).
  { rewrite Nat.add_comm, <- skipn_skipn, Hw, <- app_assoc.
    rewrite skipn_prefix by apply le_bytes_length.
    apply firstn_prefix, le_bytes_length. }
  rewrite W1, W2, !from_le_le_bytes.
  change (256 ^ Z.of_nat 4) with 4294967296.
  unfold safe in Hs. apply andb_true_iff in Hs. destruct Hs as [H0 H1].
  pose proof H0 as H0'. apply Z.leb_le in H0'. pose proof H1 as H1'. apply Z.ltb_lt in H1'.
  rewrite (Z.mod_small (n / 4294967296)).
  2:{ split; [apply Z.div_pos; lia | apply Z.div_lt_upper_bound; lia]. }
  unfold roundedInt64.
  replace (n / 4294967296 * 4294967296 + n mod 4294967296) with n
    by (rewrite Z.mul_comm; apply Z.div_mod; lia).
  rewrite round_double_safe; [reflexivity|].
  unfold safe. rewrite H0, H1. reflexivity.
Qed.

Lemma decode_fields_nu64 (b : Buffer.t) names values :
  length names = length values ->
  Forall (fun n => safe n = true) values ->
  forall offset post dest,
    skipn offset b = concat (map (Buffer.le_bytes 8) values) ++ post ->
    decode_fields decode b (map nu64 names) offset dest
    = Ok (VObj (numbers_into dest names values)).
Proof.
  intros Hlen Hsafe. revert names Hlen.
  induction Hsafe as [|n values Hs _ IH]; intros names Hlen offset post dest Hw.
  - destruct names; [reflexivity | discriminate].
  - destruct names as [|name names]; [discriminate|].
    cbn [map concat] in Hw. rewrite <- app_assoc in Hw.
    cbn [map decode_fields].
    change (property (nu64 name)) with (Some name).
    change (nu64 name) with (NearUInt64 (Some name)).
    rewrite (decode_nu64_at _ n b offset _ Hs Hw). cbn [bind span].
    unfold numbers_into. cbn [combine fold_left fst snd].
    apply (IH names ltac:(simpl in Hlen; lia) (offset + 8)%nat post).
    rewrite Nat.add_comm, <- skipn_skipn, Hw.
    apply skipn_prefix, le_bytes_length.
Qed.

Lemma concat_le_bytes_length (values : list Z) :
  length (concat (map (Buffer.le_bytes 8) values)) = (8 * length values)%nat.
Proof.
  induction values as [|n values IH]; [reflexivity|].
  cbn [map concat length]. rewrite length_app, le_bytes_length, IH. lia.
Qed.

Lemma span_nu64_fields (names : list string) :
  list_sum (map span (map nu64 names)) = (8 * length names)%nat.
Proof.
  induction names as [|name names IH]; [reflexivity|].
  change (list_sum (map span (map nu64 (name :: names))))
    with (8 + list_sum (map span (map nu64 names)))%nat.
  rewrite IH. cbn [length]. lia.
Qed.

Lemma nonempty_nu64_fields (names : list string) :
  forallb nonempty (map nu64 names) = true.
Proof.
  induction names as [|name names IH]; [reflexivity|].
  cbn [map forallb]. rewrite IH. reflexivity.
Qed.

Section RoundTrip.
Variable S2N : list Z -> number.

Lemma toBuffer_nu64 (this : Struct.t) names values p :
  this.(Struct.layout) = Structure (map nu64 names) p ->
  names <> [] ->
  Forall2 (fun name n => get this.(Struct.data) name = Ok (VBN n) /\ safe n = true)
          names values ->
  Struct.toBuffer S2N this = Ok (concat (map (Buffer.le_bytes 8) values)).
Proof.
  intros Hl Hne Hf.
  assert (Hspan : span (Structure (map nu64 names) p) = (8 * length names)%nat)
    by apply span_nu64_fields.
  assert (Hlen : length (concat (map (Buffer.le_bytes 8) values))
                 = (8 * length names)%nat)
    by (rewrite concat_le_bytes_length, (Forall2_length Hf); reflexivity).
  assert (Hnon : nonempty (Structure (map nu64 names) p) = true).
  { destruct names as [|name names]; [congruence|].
    cbn [nonempty map]. apply (nonempty_nu64_fields (name :: names)). }
  unfold Struct.toBuffer. rewrite Hl.
  destruct (encode_fields_nu64 S2N _ O _ _ Hf
              (Buffer.alloc (span (Structure (map nu64 names) p))) O O 0)
    as [m Hm].
  { unfold Buffer.alloc. rewrite repeat_length, Hspan. lia. }
  assert (E : encode S2N (Structure (map nu64 names) p) (Struct.data this)
                (Buffer.alloc (span (Structure (map nu64 names) p))) 0
              = Ok (Buffer.write_at
                      (Buffer.alloc (span (Structure (map nu64 names) p))) 0
                      (concat (map (Buffer.le_bytes 8) values)), m))
    by exact Hm.
  rewrite E. cbn [bind].
  apply (encode_written S2N _ Hnon) in E. subst m.
  rewrite write_at_whole
    by (unfold Buffer.alloc; rewrite repeat_length, Hspan; exact Hlen).
  rewrite Hspan, <- Hlen. f_equal. apply slice_whole.
Qed.

End RoundTrip.

Section FeesRoundTrip.
Variable StringToNumber : list Z -> number.

Lemma fees_fields_safe (f : IFees) :
  fees_safe f = true ->
  Forall2 (fun name n => get (IFees_object f) name = Ok (VBN n) /\ safe n = true)
          fee_names (fee_values f).
Proof.
  unfold fees_safe. rewrite !andb_true_iff.
  intros [[[[[[[H1 H2] H3] H4] H5] H6] H7] H8].
  repeat constructor; assumption.
Qed.

Lemma rewards_fields_safe (r : IRewards) :
  rewards_safe r = true ->
  Forall2 (fun name n => get (IRewards_object r) name = Ok (VBN n) /\ safe n = true)
          reward_names (reward_values r).
Proof.
  unfold rewards_safe. rewrite !andb_true_iff.
  intros [[H1 H2] H3]. repeat constructor; assumption.
Qed.

(** X3. The bytes of a fee schedule, and of a reward schedule, whose fields
    are below 2^53 are the eight bytes of each field, little-endian, one
    after the other in the order of the layout, with nothing between. *)
Theorem toBuffer_concatenates_fields :
  (forall f, fees_safe f = true ->
             Struct.toBuffer StringToNumber (Fees f)
             = Ok (concat (map (Buffer.le_bytes 8) (fee_values f)))) /\
  (forall r, rewards_safe r = true ->
             Struct.toBuffer StringToNumber (Rewards r)
             = Ok (concat (map (Buffer.le_bytes 8) (reward_values r)))).
Proof.
  split.
  - intros f Hf.
    apply (toBuffer_nu64 StringToNumber (Fees f) fee_names _ (Some "fees"));
      [reflexivity | discriminate | apply fees_fields_safe; exact Hf].
  - intros r Hr.
    apply (toBuffer_nu64 StringToNumber (Rewards r) reward_names _ (Some "rewards"));
      [reflexivity | discriminate | apply rewards_fields_safe; exact Hr].
Qed.

(** X4. Decoding the bytes of a fee schedule whose fields are below 2^53
    gives back the value of every field, as a plain number. *)
Theorem Fees_roundtrip_numbers (f : IFees) :
  fees_safe f = true ->
  exists buf,
    Struct.toBuffer StringToNumber (Fees f) = Ok buf /\
    Fees_fromBuffer buf = Ok (IFees_numbers f).
Proof.
  intros Hf. eexists. split.
  - apply (toBuffer_nu64 StringToNumber (Fees f) fee_names (fee_values f)
             (Some "fees"));
      [reflexivity | discriminate | apply fees_fields_safe; exact Hf].
  - unfold Fees_fromBuffer.
    change (decode (FeesLayout "fees"))
      with (fun b offset => decode_fields decode b (map nu64 fee_names) offset []).
    cbv beta.
    rewrite (decode_fields_nu64 _ fee_names (fee_values f) eq_refl) with (post := []).
    + reflexivity.
    + apply fees_fields_safe in Hf. clear -Hf.
      unfold fee_names, fee_values in *.
      repeat match goal with H : Forall2 _ _ _ |- _ => inversion H; subst; clear H end.
      repeat constructor; tauto.
    + rewrite app_nil_r. reflexivity.
Qed.

(** X5. Decoding the bytes of a reward schedule whose fields are below 2^53
    gives back the value of every field, as a plain number. *)
Theorem Rewards_roundtrip_numbers (r : IRewards) :
  rewards_safe r = true ->
  exists buf,
    Struct.toBuffer StringToNumber (Rewards r) = Ok buf /\
    Rewards_fromBuffer buf = Ok (IRewards_numbers r).
Proof.
  intros Hr. eexists. split.
  - apply (toBuffer_nu64 StringToNumber (Rewards r) reward_names
             (reward_values r) (Some "rewards"));
      [reflexivity | discriminate | apply rewards_fields_safe; exact Hr].
  - unfold Rewards_fromBuffer.
    change (decode (RewardsLayout "rewards"))
      with (fun b offset => decode_fields decode b (map nu64 reward_names) offset []).
    cbv beta.
    rewrite (decode_fields_nu64 _ reward_names (reward_values r) eq_refl)
      with (post := []).
    + reflexivity.
    + apply rewards_fields_safe in Hr. clear -Hr.
      unfold reward_names, reward_values in *.
      repeat match goal with H : Forall2 _ _ _ |- _ => inversion H; subst; clear H end.
      repeat constructor; tauto.
    + rewrite app_nil_r. reflexivity.
Qed.

End FeesRoundTrip.

Section Payloads.
Variable S2N : list Z -> number.

(** A structure handed a buffer where it expects an object finds none
    of its fields in it and writes nothing. *)
Lemma encode_fields_of_Buffer bytes first fields :
  Forall (fun fd => property fd <> Some "length") fields ->
  forall b offset lastOffset lastWrote,
    exists n,
      encode_fields (encode S2N) (VBuf bytes) first fields b offset
        lastOffset lastWrote = Ok (b, n).
Proof.
  induction 1 as [|fd rest Hfd _ IH]; intros b offset lastOffset lastWrote;
    cbn [encode_fields].
  - eexists; reflexivity.
  - destruct (property fd) as [p|]; cbn [bind fst snd get].
    + destruct (String.eqb_spec p "length") as [->|_]; [congruence|].
      cbn [bind fst snd]. apply IH.
    + apply IH.
Qed.

Lemma encode_of_Buffer bytes fields p b offset :
  Forall (fun fd => property fd <> Some "length") fields ->
  exists n, encode S2N (Structure fields p) (VBuf bytes) b offset = Ok (b, n).
Proof. intros H. cbn [encode]. apply encode_fields_of_Buffer. exact H. Qed.

Lemma FeesLayout_of_Buffer bytes p b offset :
  exists n, encode S2N (FeesLayout p) (VBuf bytes) b offset = Ok (b, n).
Proof. apply encode_of_Buffer. repeat constructor; discriminate. Qed.

Lemma RewardsLayout_of_Buffer bytes p b offset :
  exists n, encode S2N (RewardsLayout p) (VBuf bytes) b offset = Ok (b, n).
Proof. apply encode_of_Buffer. repeat constructor; discriminate. Qed.

End Payloads.

Section FixedPayloads.
Variable StringToNumber : list Z -> number.
Variables tokenSwapAccount : Keypair.
Variables config authority adminAccount deltafiMint programId : PublicKey.

(** X6. The fee schedule handed to the set-fees encoder, and the reward
    schedule handed to the set-rewards encoder, never reach the payload:
    whenever the encoder returns, the payload is the tag byte followed by
    zero bytes only. *)
Theorem set_fees_and_set_rewards_payloads_are_constant :
  (forall newFees ix,
      Admin.createSetNewFeesInstruction StringToNumber tokenSwapAccount
        authority adminAccount newFees programId = Ok ix ->
      ix.(data) = 106 :: repeat 0 64) /\
  (forall newRewards ix,
      Admin.createSetNewRewardsInstruction StringToNumber tokenSwapAccount
        authority adminAccount newRewards programId = Ok ix ->
      ix.(data) = 106 :: repeat 0 24).
Proof.
  split.
  - intros newFees ix. unfold Admin.createSetNewFeesInstruction.
    destruct (Struct.toBuffer StringToNumber newFees) as [buf|];
      cbn [bind]; [|discriminate].
    intros H. vm_compute in H. inversion H. reflexivity.
  - intros newRewards ix. unfold Admin.createSetNewRewardsInstruction.
    destruct (Struct.toBuffer StringToNumber newRewards) as [buf|];
      cbn [bind]; [|discriminate].
    intros H. vm_compute in H. inversion H. reflexivity.
Qed.

End FixedPayloads.

Lemma hd_error_firstn {A : Type} (l l' : list A) :
  firstn 1 l = firstn 1 l' -> hd_error l = hd_error l'.
Proof. destruct l, l'; simpl; congruence. Qed.

Lemma encode_fields_named enc src first fd rest b offset lastOffset lastWrote p fv :
  property fd = Some p -> get src p = Ok fv -> fv <> VUndef ->
  encode_fields enc src first (fd :: rest) b offset lastOffset lastWrote
  = (r <- enc fd fv b offset ;;
     encode_fields enc src first rest (fst r) (offset + span fd)%nat offset (snd r)).
Proof.
  intros Hp Hget Hdef. cbn [encode_fields]. rewrite Hp, Hget. cbn [bind].
  destruct fv; congruence.
Qed.

Lemma encode_fields_skipped enc src first fd rest b offset lastOffset lastWrote p :
  property fd = Some p -> get src p = Ok VUndef ->
  encode_fields enc src first (fd :: rest) b offset lastOffset lastWrote
  = encode_fields enc src first rest b (offset + span fd)%nat offset
      (Z.of_nat (span fd)).
Proof.
  intros Hp Hget. cbn [encode_fields]. rewrite Hp, Hget. reflexivity.
Qed.

Section Tagged.
Variable S2N : list Z -> number.

(** A structure whose first field is the one-byte [instruction] leaves
    the tag in the first byte of the buffer it was given. *)
Lemma encode_tagged fields src tag size b' n :
  encode S2N (struct (u8 "instruction" :: fields) None) src
    (Buffer.alloc size) 0 = Ok (b', n) ->
  get src "instruction" = Ok (VNum tag) ->
  fits_u8 tag = true ->
  hd_error b' = Some tag /\ length b' = size.
Proof.
  intros E Hget Htag. split.
  - unfold struct in E. cbn [encode] in E.
    rewrite (encode_fields_named _ _ _ _ _ _ _ _ _ "instruction" (VNum tag))
      in E by (reflexivity || exact Hget || discriminate).
    change (u8 "instruction") with (UInt 1 (Some "instruction")) in E.
    cbn [encode ToNumber] in E.
    unfold Buffer.writeUIntLE, Buffer.writeInt in E.
    destruct (Buffer.out_of_range _ _ _); [discriminate|].
    destruct (Nat.leb_spec (0 + 1) (length (Buffer.alloc size))) as [Hs|];
      [|discriminate].
    cbn [bind fst snd span] in E.
    apply encode_fields_framed in E.
    2:{ apply Forall_forall. intros fd _ src' b offset b'' n'.
        apply encode_framed. }
    destruct E as (_ & F & _).
    rewrite (hd_error_firstn _ _ (F 1%nat ltac:(lia))).
    unfold Buffer.alloc in *. rewrite repeat_length in Hs.
    destruct size as [|size]; [lia|].
    cbn [repeat Buffer.write_at firstn app Buffer.le_bytes Buffer.stored Int hd_error].
    f_equal. rewrite byte_low.
    unfold fits_u8 in Htag. apply andb_true_iff in Htag.
    destruct Htag as [H0 H1]. apply Z.leb_le in H0, H1.
    apply Z.mod_small. lia.
  - apply encode_framed in E. destruct E as (L & _).
    rewrite L. unfold Buffer.alloc. apply repeat_length.
Qed.

(** When the layout has no empty structure, the slice the encoders take
    of the encoded buffer is the whole buffer. *)
Lemma slice_encoded l src size b' n :
  encode S2N l src (Buffer.alloc size) 0 = Ok (b', n) ->
  nonempty l = true -> span l = size ->
  Buffer.slice b' 0 n = b'.
Proof.
  intros E Hne Hspan.
  pose proof (encode_written S2N l Hne _ _ _ _ _ E) as ->.
  apply encode_framed in E. destruct E as (L & _).
  unfold Buffer.alloc in L. rewrite repeat_length in L.
  rewrite Hspan, <- L. apply slice_whole.
Qed.

End Tagged.

Ltac tagged :=
  match goal with
  | E : encode ?S ?l ?src _ _ = Ok (_, _) |- _ =>
      try rewrite (slice_encoded S l src _ _ _ E eq_refl eq_refl);
      apply (encode_tagged S _ src _ _ _ _ E eq_refl); reflexivity || assumption
  end.

Ltac shaped :=
  intros ?ix; unbind;
  repeat match goal with
         | |- context [let (_, _) := ?p in _] => destruct p
         end;
  let H := fresh in
  intros H; inversion H; subst; clear H; cbn [data]; tagged.

Section Shapes.
Variable StringToNumber : list Z -> number.
Variables k1 k2 k3 k4 k5 k6 k7 k8 k9 k10 k11 k12 k13 k14 k15 : PublicKey.
Variables account account' : Keypair.

Lemma nonceAndFees_shape instruction nonce fees buf :
  fits_u8 instruction = true ->
  Instructions.nonceAndFees StringToNumber instruction nonce fees = Ok buf ->
  hd_error buf = Some instruction /\ length buf = 66%nat.
Proof.
  intros Htag. unfold Instructions.nonceAndFees. unbind.
  repeat match goal with
         | |- context [let (_, _) := ?p in _] => destruct p
         end.
  intros H; inversion H; subst; clear H. tagged.
Qed.

Lemma farm_encoder_shape keys' programId' tag nonce fees :
  fits_u8 tag = true ->
  payload_shape
    (data <- Instructions.nonceAndFees StringToNumber tag nonce fees ;;
     Ok {| keys := keys'; programId := programId'; data := data |}) tag 66.
Proof.
  intros Htag ix.
  destruct (Instructions.nonceAndFees _ _ _ _) as [buf|] eqn:E; cbn [bind];
    [|discriminate].
  intros H; inversion H; subst; clear H. cbn [data].
  apply (nonceAndFees_shape tag _ _ _ Htag E).
Qed.

(** X7. Whenever an encoder returns, its payload starts with the tag byte
    of the operation and has the length its layout declares, whatever
    the arguments are. *)
Theorem payloads_have_tag_and_length :
  (forall ampFactor fees rewards,
      payload_shape
        (Admin.createAdminInitializeInstruction StringToNumber k1 k2 k3
           ampFactor fees rewards k4) 99 97) /\
  (forall targetAmp stopRampTimestamp,
      payload_shape
        (Admin.createRampAInstruction StringToNumber k1 k2 k3
           targetAmp stopRampTimestamp k4) 100 17) /\
  payload_shape
    (Admin.createStopRampInstruction StringToNumber account k1 k2 k3) 101 1 /\
  payload_shape
    (Admin.createPauseInstruction StringToNumber account k1 k2 k3) 102 1 /\
  payload_shape
    (Admin.createUnpauseInstruction StringToNumber account k1 k2 k3) 103 1 /\
  payload_shape
    (Admin.createSetFeeAccountInstruction StringToNumber account k1 k2 k3 k4)
    104 1 /\
  payload_shape
    (Admin.createApplyNewAdminInstruction StringToNumber account k1 k2 k3)
    105 1 /\
  payload_shape
    (Admin.createCommitNewAdminInstruction StringToNumber account k1 k2 k3 k4)
    106 1 /\
  (forall newFees,
      payload_shape
        (Admin.createSetNewFeesInstruction StringToNumber account k1 k2
           newFees k3) 106 65) /\
  (forall newRewards,
      payload_shape
        (Admin.createSetNewRewardsInstruction StringToNumber account k1 k2
           newRewards k3) 106 25) /\
  (forall nonce ampFactor fees rewards k i isOpenTwap,
      payload_shape
        (Swap.createInitSwapInstruction StringToNumber
           k1 k2 k3 k4 k5 k6 k7 k8 k9 k10 k11 k12 k13 k14
           nonce ampFactor fees rewards k i isOpenTwap k15) 0 98) /\
  (forall amountIn minimumAmountOut swapDirection,
      payload_shape
        (Swap.createSwapInstruction StringToNumber
           k1 k2 k3 k4 k5 k6 k7 k8 k9 k10
           amountIn minimumAmountOut swapDirection k11) 1 25) /\
  (forall tokenAmountA tokenAmountB minimumPoolTokenAmount,
      payload_shape
        (Swap.createDepositInstruction StringToNumber
           k1 k2 k3 k4 k5 k6 k7 k8 k9
           tokenAmountA tokenAmountB minimumPoolTokenAmount k10) 2 25) /\
  (forall poolTokenAmount minimumTokenA minimumTokenB,
      payload_shape
        (Swap.createWithdrawInstruction StringToNumber
           k1 k2 k3 k4 k5 k6 k7 k8 k9 k10 k11
           poolTokenAmount minimumTokenA minimumTokenB k12) 3 25) /\
  (forall poolTokenAmount minimumTokenAmount,
      payload_shape
        (Swap.createWithdrawOneInstruction StringToNumber
           k1 k2 k3 k4 k5 k6 k7 k8 k9
           poolTokenAmount minimumTokenAmount k10) 4 17) /\
  (forall nonce ampFactor fees,
      payload_shape
        (Instructions.createInitSwapInstruction StringToNumber account
           k1 k2 k3 k4 k5 k6 k7 k8 k9 k10 k11 k12 nonce ampFactor fees)
        0 74) /\
  (forall amountIn minimumAmountOut,
      payload_shape
        (Instructions.swapInstruction StringToNumber
           k1 k2 k3 k4 k5 k6 k7 k8 k9 amountIn minimumAmountOut) 1 17) /\
  (forall tokenAmountA tokenAmountB minimumPoolTokenAmount,
      payload_shape
        (Instructions.depositInstruction StringToNumber
           k1 k2 k3 k4 k5 k6 k7 k8 k9 k10
           tokenAmountA tokenAmountB minimumPoolTokenAmount) 2 25) /\
  (forall poolTokenAmount minimumTokenA minimumTokenB,
      payload_shape
        (Instructions.withdrawInstruction StringToNumber
           k1 k2 k3 k4 k5 k6 k7 k8 k9 k10 k11 k12
           poolTokenAmount minimumTokenA minimumTokenB) 3 25) /\
  (forall nonce fees,
      payload_shape
        (Instructions.createInitFarmInstruction StringToNumber
           account account' k1 k2 k3 k4 k5 k6 k7 k8 k9 nonce fees) 108 66) /\
  payload_shape
    (Instructions.farmEnableUserInstruction StringToNumber k1 k2 k3 k4 k5)
    30 1 /\
  (forall tokenAmountPool,
      payload_shape
        (Instructions.farmDepositInstruction StringToNumber
           k1 k2 k3 k4 k5 k6 k7 k8 k9 k10 k11 tokenAmountPool) 31 9) /\
  payload_shape
    (Instructions.farmEmergencyWithdrawInstruction StringToNumber
       k1 k2 k3 k4 k5 k6 k7 k8 k9 k10 k11) 33 1 /\
  (forall nonce fees,
      payload_shape
        (Instructions.farmPrintPendingDeltafiInstruction StringToNumber
           account k1 k2 k3 k4 k5 k6 k7 k8 k9 nonce fees) 34 66).
Proof.
  repeat match goal with |- _ /\ _ => split end; intros.
  - unfold Admin.createAdminInitializeInstruction. shaped.
  - unfold Admin.createRampAInstruction. shaped.
  - unfold Admin.createStopRampInstruction, Admin.flagOnly. shaped.
  - unfold Admin.createPauseInstruction, Admin.flagOnly. shaped.
  - unfold Admin.createUnpauseInstruction, Admin.flagOnly. shaped.
  - unfold Admin.createSetFeeAccountInstruction, Admin.flagOnly. shaped.
  - unfold Admin.createApplyNewAdminInstruction, Admin.flagOnly. shaped.
  - unfold Admin.createCommitNewAdminInstruction, Admin.flagOnly. shaped.
  - unfold Admin.createSetNewFeesInstruction. shaped.
  - unfold Admin.createSetNewRewardsInstruction. shaped.
  - unfold Swap.createInitSwapInstruction. shaped.
  - unfold Swap.createSwapInstruction. shaped.
  - unfold Swap.createDepositInstruction. shaped.
  - unfold Swap.createWithdrawInstruction. shaped.
  - unfold Swap.createWithdrawOneInstruction. shaped.
  - unfold Instructions.createInitSwapInstruction. shaped.
  - unfold Instructions.swapInstruction. shaped.
  - unfold Instructions.depositInstruction. shaped.
  - unfold Instructions.withdrawInstruction. shaped.
  - apply farm_encoder_shape. reflexivity.
  - unfold Instructions.farmEnableUserInstruction. shaped.
  - unfold Instructions.farmDepositInstruction. shaped.
  - unfold Instructions.farmEmergencyWithdrawInstruction. shaped.
  - apply farm_encoder_shape. reflexivity.
Qed.

End Shapes.

Section Untouched.
Variable StringToNumber : list Z -> number.
Variables k1 k2 k3 k4 k5 k6 k7 k8 k9 k10 : PublicKey.

Lemma encode_u8_at p n b offset :
  fits_u8 n = true -> (offset + 1 <= length b)%nat ->
  encode StringToNumber (UInt 1 p) (VNum n) b offset
  = Ok (Buffer.write_at b offset [n], 1).
Proof.
  intros Hn Hb. cbn [encode ToNumber].
  unfold Buffer.writeUIntLE, Buffer.writeInt, Int, Buffer.out_of_range,
    Buffer.stored.
  unfold fits_u8 in Hn. apply andb_true_iff in Hn. destruct Hn as [H0 H1].
  apply Z.leb_le in H0, H1.
  change (2 ^ (8 * Z.of_nat 1) - 1) with 255.
  rewrite andb_false_r.
  destruct (Z.ltb_spec 255 n); [lia|]. destruct (Z.ltb_spec n 0); [lia|].
  cbn [orb]. destruct (Nat.leb_spec (offset + 1) (length b)); [|lia].
  cbn [bind Buffer.le_bytes]. rewrite byte_low, Z.mod_small by lia.
  reflexivity.
Qed.

(** X8. The minimum amount handed to the withdraw-one encoder is never
    written: whenever the encoder returns, the last eight bytes of the
    payload, the place of [minimumTokenAmount], are zero. *)
Theorem createWithdrawOne_never_writes_minimum
        (poolTokenAmount minimumTokenAmount : NumberU64.t)
        (ix : TransactionInstruction) :
  Swap.createWithdrawOneInstruction StringToNumber
    k1 k2 k3 k4 k5 k6 k7 k8 k9 poolTokenAmount minimumTokenAmount k10
  = Ok ix ->
  skipn 9 ix.(data) = repeat 0 8.
Proof.
  unfold Swap.createWithdrawOneInstruction.
  destruct (NumberU64.toBuffer poolTokenAmount) as [pool|]; cbn [bind];
    [|discriminate].
  destruct (NumberU64.toBuffer minimumTokenAmount) as [minimum|]; cbn [bind];
    [|discriminate].
  unfold struct. cbn [encode].
  rewrite (encode_fields_named _ _ _ _ _ _ _ _ _ "instruction" (VNum 4))
    by (reflexivity || discriminate).
  change (u8 "instruction") with (UInt 1 (Some "instruction")).
  rewrite encode_u8_at by (reflexivity || (vm_compute; lia)).
  cbn [bind fst snd span].
  rewrite (encode_fields_named _ _ _ _ _ _ _ _ _ "poolTokenAmount" (VBuf pool))
    by (reflexivity || discriminate).
  destruct (encode StringToNumber (nu64 "poolTokenAmount") (VBuf pool) _ _)
    as [[b2 n2]|] eqn:E; cbn [bind fst snd]; [|discriminate].
  rewrite (encode_fields_skipped _ _ _ _ _ _ _ _ _ "minimumTokenAmount")
    by reflexivity.
  cbn [encode_fields]. intros H; inversion H; subst; clear H. cbn [data].
  apply encode_framed in E. destruct E as (_ & _ & S).
  rewrite (S 9%nat) by (cbn [span nu64]; lia). reflexivity.
Qed.

(** X9. The fee and reward schedules handed to the initialize-config encoder
    never reach the payload: whenever the encoder returns, the 88 bytes
    after the amplification factor are zero. *)
Theorem createAdminInitialize_never_writes_schedules
        (ampFactor : NumberU64.t) (fees rewards : Struct.t)
        (ix : TransactionInstruction) :
  Admin.createAdminInitializeInstruction StringToNumber k1 k2 k3
    ampFactor fees rewards k4 = Ok ix ->
  skipn 9 ix.(data) = repeat 0 88.
Proof.
  unfold Admin.createAdminInitializeInstruction.
  destruct (NumberU64.toBuffer ampFactor) as [amp|]; cbn [bind];
    [|discriminate].
  destruct (Struct.toBuffer StringToNumber fees) as [fees'|]; cbn [bind];
    [|discriminate].
  destruct (Struct.toBuffer StringToNumber rewards) as [rewards'|]; cbn [bind];
    [|discriminate].
  unfold struct. cbn [encode].
  rewrite (encode_fields_named _ _ _ _ _ _ _ _ _ "instruction" (VNum 99))
    by (reflexivity || discriminate).
  change (u8 "instruction") with (UInt 1 (Some "instruction")).
  rewrite encode_u8_at by (reflexivity || (vm_compute; lia)).
  cbn [bind fst snd span].
  rewrite (encode_fields_named _ _ _ _ _ _ _ _ _ "ampFactor" (VBuf amp))
    by (reflexivity || discriminate).
  destruct (encode StringToNumber (nu64 "ampFactor") (VBuf amp) _ _)
    as [[b2 n2]|] eqn:E; cbn [bind fst snd]; [|discriminate].
  rewrite (encode_fields_named _ _ _ _ _ _ _ _ _ "fees" (VBuf fees'))
    by (reflexivity || discriminate).
  destruct (FeesLayout_of_Buffer StringToNumber fees' "fees" b2
              (0 + 1 + span (nu64 "ampFactor"))) as [n3 ->].
  cbn [bind fst snd].
  rewrite (encode_fields_named _ _ _ _ _ _ _ _ _ "rewards" (VBuf rewards'))
    by (reflexivity || discriminate).
  match goal with
  | |- context [encode StringToNumber (RewardsLayout "rewards") _ b2 ?o] =>
      destruct (RewardsLayout_of_Buffer StringToNumber rewards' "rewards" b2 o)
        as [n4 ->]
  end.
  cbn [bind fst snd encode_fields].
  intros H; inversion H; subst; clear H. cbn [data].
  apply encode_framed in E. destruct E as (_ & _ & S).
  rewrite (S 9%nat) by (cbn [span nu64]; lia). reflexivity.
Qed.

End Untouched.

Section Coerced.
Variable StringToNumber : list Z -> number.

(** No numeric text holds a zero byte: a buffer with one, read as a
    number, is NaN. *)
Lemma BufferToNumber_nul (bytes : Buffer.t) :
  has_nul bytes = true -> BufferToNumber StringToNumber bytes = NaN.
Proof.
  intros H. unfold BufferToNumber.
  apply existsb_exists in H. destruct H as (c & Hin & Hc).
  apply Z.eqb_eq in Hc. subst c.
  replace (existsb _ bytes) with true; [reflexivity|].
  symmetry. apply existsb_exists. exists 0. split; [assumption | reflexivity].
Qed.

(** A 64-bit integer field handed such a buffer stores eight zero
    bytes. *)
Lemma encode_nu64_nul p bytes b offset :
  has_nul bytes = true -> (offset + 8 <= length b)%nat ->
  encode StringToNumber (NearUInt64 p) (VBuf bytes) b offset
  = Ok (Buffer.write_at b offset (repeat 0 8), 8).
Proof.
  intros Hn Hb. cbn [encode ToNumber]. rewrite (BufferToNumber_nul bytes Hn).
  cbn [divmodInt64 fst snd].
  unfold Buffer.writeUInt32LE, Buffer.writeInt.
  cbn [Buffer.out_of_range Buffer.stored].
  destruct (Nat.leb_spec (offset + 4) (length b)); [|lia].
  cbn [bind].
  rewrite write_at_length by (rewrite le_bytes_length; lia).
  destruct (Nat.leb_spec (offset + 4 + 4) (length b)); [|lia].
  cbn [bind]. f_equal. f_equal.
  change (Buffer.le_bytes 4 0) with (repeat 0 4).
  rewrite <- (repeat_length 0 4) at 2.
  rewrite write_at_write_at by (rewrite !repeat_length; lia).
  reflexivity.
Qed.

Lemma encode_blob_at p k bytes b offset :
  length bytes = k -> (offset + k <= length b)%nat ->
  encode StringToNumber (Blob k p) (VBuf bytes) b offset
  = Ok (Buffer.write_at b offset bytes, Z.of_nat k).
Proof.
  intros Hk Hb. cbn [encode]. rewrite Hk, Nat.eqb_refl.
  destruct (Nat.leb_spec (offset + k) (length b)); [reflexivity | lia].
Qed.

End Coerced.

Ltac inside :=
  repeat rewrite write_at_length by (rewrite ?repeat_length, ?le_bytes_length; inside);
  rewrite ?repeat_length, ?le_bytes_length;
  unfold Buffer.alloc; rewrite ?repeat_length; vm_compute; lia.

Ltac field p v :=
  rewrite (encode_fields_named _ _ _ _ _ _ _ _ _ p v)
    by (reflexivity || discriminate);
  unfold u8, nu64, Uint64Layout, blob.

Ltac tag_field v :=
  field "instruction" (VNum v);
  rewrite encode_u8_at by (reflexivity || inside); cbn [bind fst snd span].

Ltac zero_field p bytes :=
  field p (VBuf bytes);
  rewrite encode_nu64_nul by (assumption || inside); cbn [bind fst snd span].

Ltac buffers :=
  repeat match goal with
         | H : NumberU64.toBuffer _ = Ok _ |- _ => rewrite H; clear H
         | H : Struct.toBuffer _ _ = Ok _ |- _ => rewrite H; clear H
         end;
  cbn [bind].

(** Each [new NumberU64(x).toBuffer()] of the goal, by whether [x] is
    accepted. *)
Ltac converted :=
  repeat match goal with
         | |- context [bind (NumberU64.new ?x) NumberU64.toBuffer] =>
             let E := fresh "E" in
             destruct (accepted x) eqn:E;
             [ rewrite (new_toBuffer_accepted x E)
             | rewrite (new_toBuffer_refused x E) ];
             cbn [bind andb]
         end;
  rewrite ?andb_false_r; cbn [NumberU64.value]; try reflexivity.

Section Zeroed.
Variable StringToNumber : list Z -> number.
Variables k1 k2 k3 k4 k5 k6 k7 k8 k9 k10 k11 k12 k13 k14 k15 : PublicKey.

(** X10. The encoders of [instructions/admin.ts] hand the buffer of each
    NumberU64 to a 64-bit integer field.  Whatever bytes those buffers
    hold, when each has a zero byte (as the eight bytes of an amount
    below 2^56 have) no amount is stored: the payload of
    ramp-amplification, swap, deposit, withdraw and withdraw-one is the
    tag followed by zero bytes. *)
Theorem buffers_with_a_zero_byte_are_stored_as_zero :
  (forall targetAmp stopRampTimestamp b1 b2,
      NumberU64.toBuffer targetAmp = Ok b1 ->
      NumberU64.toBuffer stopRampTimestamp = Ok b2 ->
      has_nul b1 = true -> has_nul b2 = true ->
      payload (Admin.createRampAInstruction StringToNumber k1 k2 k3
                 targetAmp stopRampTimestamp k4)
      = Ok (100 :: repeat 0 16)) /\
  (forall amountIn minimumAmountOut swapDirection b1 b2 b3,
      NumberU64.toBuffer amountIn = Ok b1 ->
      NumberU64.toBuffer minimumAmountOut = Ok b2 ->
      NumberU64.toBuffer swapDirection = Ok b3 ->
      has_nul b1 = true -> has_nul b2 = true -> has_nul b3 = true ->
      payload (Swap.createSwapInstruction StringToNumber
                 k1 k2 k3 k4 k5 k6 k7 k8 k9 k10
                 amountIn minimumAmountOut swapDirection k11)
      = Ok (1 :: repeat 0 24)) /\
  (forall tokenAmountA tokenAmountB minimumPoolTokenAmount b1 b2 b3,
      NumberU64.toBuffer tokenAmountA = Ok b1 ->
      NumberU64.toBuffer tokenAmountB = Ok b2 ->
      NumberU64.toBuffer minimumPoolTokenAmount = Ok b3 ->
      has_nul b1 = true -> has_nul b2 = true -> has_nul b3 = true ->
      payload (Swap.createDepositInstruction StringToNumber
                 k1 k2 k3 k4 k5 k6 k7 k8 k9
                 tokenAmountA tokenAmountB minimumPoolTokenAmount k10)
      = Ok (2 :: repeat 0 24)) /\
  (forall poolTokenAmount minimumTokenA minimumTokenB b1 b2 b3,
      NumberU64.toBuffer poolTokenAmount = Ok b1 ->
      NumberU64.toBuffer minimumTokenA = Ok b2 ->
      NumberU64.toBuffer minimumTokenB = Ok b3 ->
      has_nul b1 = true -> has_nul b2 = true -> has_nul b3 = true ->
      payload (Swap.createWithdrawInstruction StringToNumber
                 k1 k2 k3 k4 k5 k6 k7 k8 k9 k10 k11
                 poolTokenAmount minimumTokenA minimumTokenB k12)
      = Ok (3 :: repeat 0 24)) /\
  (forall poolTokenAmount minimumTokenAmount b1 b2,
      NumberU64.toBuffer poolTokenAmount = Ok b1 ->
      NumberU64.toBuffer minimumTokenAmount = Ok b2 ->
      has_nul b1 = true ->
      payload (Swap.createWithdrawOneInstruction StringToNumber
                 k1 k2 k3 k4 k5 k6 k7 k8 k9
                 poolTokenAmount minimumTokenAmount k10)
      = Ok (4 :: repeat 0 16)).
Proof.
  repeat match goal with |- _ /\ _ => split end.
  - intros targetAmp stopRampTimestamp b1 b2 E1 E2 H1 H2.
    unfold payload, Admin.createRampAInstruction. buffers.
    unfold struct. cbn [encode].
    tag_field 100. zero_field "targetAmp" b1.
    zero_field "stopRampTimestamp" b2.
    reflexivity.
  - intros amountIn minimumAmountOut swapDirection b1 b2 b3 E1 E2 E3 H1 H2 H3.
    unfold payload, Swap.createSwapInstruction. buffers.
    unfold struct. cbn [encode].
    tag_field 1. zero_field "amountIn" b1.
    zero_field "minimumAmountOut" b2.
    zero_field "swapDirection" b3.
    reflexivity.
  - intros tokenAmountA tokenAmountB minimumPoolTokenAmount b1 b2 b3
           E1 E2 E3 H1 H2 H3.
    unfold payload, Swap.createDepositInstruction. buffers.
    unfold struct. cbn [encode].
    tag_field 2. zero_field "tokenAmountA" b1.
    zero_field "tokenAmountB" b2.
    zero_field "minimumPoolTokenAmount" b3.
    reflexivity.
  - intros poolTokenAmount minimumTokenA minimumTokenB b1 b2 b3
           E1 E2 E3 H1 H2 H3.
    unfold payload, Swap.createWithdrawInstruction.
    cbn [NumberU64.new bind]. buffers.
    unfold struct. cbn [encode].
    tag_field 3. zero_field "poolTokenAmount" b1.
    zero_field "minimumTokenA" b2.
    zero_field "minimumTokenB" b3.
    reflexivity.
  - intros poolTokenAmount minimumTokenAmount b1 b2 E1 E2 H1.
    unfold payload, Swap.createWithdrawOneInstruction. buffers.
    unfold struct. cbn [encode].
    tag_field 4. zero_field "poolTokenAmount" b1.
    reflexivity.
Qed.

(** X11. The initialize-swap encoder of [instructions/admin.ts] stores the
    tag and the nonce and nothing else: the fee schedule, handed over as
    a buffer, is stepped over, the rewards have no field, and the
    amplification factor, k, i and the TWAP flag are stored as zero when
    their buffers hold a zero byte. *)
Theorem createInitSwap_stores_only_the_nonce
        (nonce : Z) (ampFactor k i isOpenTwap : NumberU64.t)
        (fees rewards : Struct.t) (b1 b2 b3 b4 bf br : Buffer.t) :
  fits_u8 nonce = true ->
  NumberU64.toBuffer ampFactor = Ok b1 -> NumberU64.toBuffer k = Ok b2 ->
  NumberU64.toBuffer i = Ok b3 -> NumberU64.toBuffer isOpenTwap = Ok b4 ->
  Struct.toBuffer StringToNumber fees = Ok bf ->
  Struct.toBuffer StringToNumber rewards = Ok br ->
  has_nul b1 = true -> has_nul b2 = true -> has_nul b3 = true ->
  has_nul b4 = true ->
  payload (Swap.createInitSwapInstruction StringToNumber
             k1 k2 k3 k4 k5 k6 k7 k8 k9 k10 k11 k12 k13 k14
             nonce ampFactor fees rewards k i isOpenTwap k15)
  = Ok (0 :: nonce :: repeat 0 96).
Proof.
  intros Hn E1 E2 E3 E4 Ef Er H1 H2 H3 H4.
  unfold payload, Swap.createInitSwapInstruction. buffers.
  unfold struct. cbn [encode].
  tag_field 0.
  field "nonce" (VNum nonce).
  rewrite encode_u8_at by (assumption || inside). cbn [bind fst snd span].
  zero_field "ampFactor" b1.
  rewrite (encode_fields_named _ _ _ _ _ _ _ _ _ "fees" (VBuf bf))
    by (reflexivity || discriminate).
  match goal with
  | |- context [encode StringToNumber (FeesLayout "fees") _ ?b ?o] =>
      destruct (FeesLayout_of_Buffer StringToNumber bf "fees" b o)
        as [n ->]
  end.
  cbn [bind fst snd].
  zero_field "k" b2. zero_field "i" b3. zero_field "isOpenTwap" b4.
  reflexivity.
Qed.

(** X12. The swap, deposit, withdraw and farm-deposit encoders of
    [instructions.ts] store every amount [new NumberU64(x).toBuffer()]
    accepts, a number from 0 to 2^53 - 1 or a NumberU64 from 0 to
    2^64 - 1: the payload is the tag followed by the eight little-endian
    bytes of each amount, in the order of the layout.  With any other
    amount, a number from 2^53 on among them, they fail an assertion and
    return nothing. *)
Theorem blob_encoders_store_amounts :
  (forall amountIn minimumAmountOut,
      payload (Instructions.swapInstruction StringToNumber
                 k1 k2 k3 k4 k5 k6 k7 k8 k9 amountIn minimumAmountOut)
      = if accepted amountIn && accepted minimumAmountOut
        then Ok (1 :: Buffer.le_bytes 8 (NumberU64.value amountIn)
                   ++ Buffer.le_bytes 8 (NumberU64.value minimumAmountOut))
        else Throw AssertionError) /\
  (forall tokenAmountA tokenAmountB minimumPoolTokenAmount,
      payload (Instructions.depositInstruction StringToNumber
                 k1 k2 k3 k4 k5 k6 k7 k8 k9 k10
                 tokenAmountA tokenAmountB minimumPoolTokenAmount)
      = if accepted tokenAmountA && accepted tokenAmountB
           && accepted minimumPoolTokenAmount
        then Ok (2 :: Buffer.le_bytes 8 (NumberU64.value tokenAmountA)
                   ++ Buffer.le_bytes 8 (NumberU64.value tokenAmountB)
                   ++ Buffer.le_bytes 8
                        (NumberU64.value minimumPoolTokenAmount))
        else Throw AssertionError) /\
  (forall poolTokenAmount minimumTokenA minimumTokenB,
      payload (Instructions.withdrawInstruction StringToNumber
                 k1 k2 k3 k4 k5 k6 k7 k8 k9 k10 k11 k12
                 poolTokenAmount minimumTokenA minimumTokenB)
      = if accepted poolTokenAmount && accepted minimumTokenA
           && accepted minimumTokenB
        then Ok (3 :: Buffer.le_bytes 8 (NumberU64.value poolTokenAmount)
                   ++ Buffer.le_bytes 8 (NumberU64.value minimumTokenA)
                   ++ Buffer.le_bytes 8 (NumberU64.value minimumTokenB))
        else Throw AssertionError) /\
  (forall tokenAmountPool,
      payload (Instructions.farmDepositInstruction StringToNumber
                 k1 k2 k3 k4 k5 k6 k7 k8 k9 k10 k11 tokenAmountPool)
      = if safe tokenAmountPool
        then Ok (31 :: Buffer.le_bytes 8 tokenAmountPool)
        else Throw AssertionError).
Proof.
  repeat match goal with |- _ /\ _ => split end.
  - intros amountIn minimumAmountOut.
    unfold payload, Instructions.swapInstruction. converted.
  - intros tokenAmountA tokenAmountB minimumPoolTokenAmount.
    unfold payload, Instructions.depositInstruction. converted.
  - intros poolTokenAmount minimumTokenA minimumTokenB.
    unfold payload, Instructions.withdrawInstruction. converted.
  - intros tokenAmountPool.
    unfold payload, Instructions.farmDepositInstruction.
    change (safe tokenAmountPool)
      with (accepted (NumberU64.OfNumber tokenAmountPool)).
    converted.
Qed.

End Zeroed.

Section AdminSigners.

Variable StringToNumber : list Z -> number.
Variables config tokenSwap authority adminAccount : PublicKey.
Variables deltafiMint newFeeAccount newAdminAccount programId : PublicKey.
Variable tokenSwapAccount : Keypair.

Lemma admin_signers_intro (first admin : PublicKey) (rest : list AccountMeta)
      (middle : list AccountMeta) :
  filter isSigner middle = [] ->
  filter isSigner rest = [] ->
  admin_signers first admin
    (meta first true false :: middle ++ meta admin true false :: rest).
Proof.
  intros Hm Hr. exists (meta first true false), (meta admin true false).
  simpl. rewrite filter_app, Hm. simpl. rewrite Hr. auto.
Qed.

(** The four encoders with arguments return once the buffers of their
    arguments are there: the tag fits its byte, a schedule handed over as
    a buffer is stepped over, and the buffer of an amount that holds a
    zero byte is stored as zero. *)
Lemma createAdminInitialize_returns ampFactor fees rewards amp bf br :
  NumberU64.toBuffer ampFactor = Ok amp -> has_nul amp = true ->
  Struct.toBuffer StringToNumber fees = Ok bf ->
  Struct.toBuffer StringToNumber rewards = Ok br ->
  exists ix,
    Admin.createAdminInitializeInstruction StringToNumber config
      adminAccount deltafiMint ampFactor fees rewards programId = Ok ix.
Proof.
  intros Ea Ha Ef Er.
  destruct (Admin.createAdminInitializeInstruction StringToNumber config
              adminAccount deltafiMint ampFactor fees rewards programId)
    as [ix|e] eqn:E; [exists ix; reflexivity | exfalso].
  revert E. unfold Admin.createAdminInitializeInstruction. buffers.
  unfold struct. cbn [encode].
  tag_field 99. zero_field "ampFactor" amp.
  rewrite (encode_fields_named _ _ _ _ _ _ _ _ _ "fees" (VBuf bf))
    by (reflexivity || discriminate).
  match goal with
  | |- context [encode StringToNumber (FeesLayout "fees") _ ?b ?o] =>
      destruct (FeesLayout_of_Buffer StringToNumber bf "fees" b o) as [n ->]
  end.
  cbn [bind fst snd].
  rewrite (encode_fields_named _ _ _ _ _ _ _ _ _ "rewards" (VBuf br))
    by (reflexivity || discriminate).
  match goal with
  | |- context [encode StringToNumber (RewardsLayout "rewards") _ ?b ?o] =>
      destruct (RewardsLayout_of_Buffer StringToNumber br "rewards" b o)
        as [m ->]
  end.
  cbn [bind fst snd encode_fields]. discriminate.
Qed.

Lemma createRampA_returns targetAmp stopRampTimestamp b1 b2 :
  NumberU64.toBuffer targetAmp = Ok b1 ->
  NumberU64.toBuffer stopRampTimestamp = Ok b2 ->
  has_nul b1 = true -> has_nul b2 = true ->
  exists ix,
    Admin.createRampAInstruction StringToNumber tokenSwap authority
      adminAccount targetAmp stopRampTimestamp programId = Ok ix.
Proof.
  intros E1 E2 H1 H2.
  destruct (Admin.createRampAInstruction StringToNumber tokenSwap authority
              adminAccount targetAmp stopRampTimestamp programId)
    as [ix|e] eqn:E; [exists ix; reflexivity | exfalso].
  revert E. unfold Admin.createRampAInstruction. buffers.
  unfold struct. cbn [encode].
  tag_field 100. zero_field "targetAmp" b1.
  zero_field "stopRampTimestamp" b2.
  cbn [bind fst snd encode_fields]. discriminate.
Qed.

Lemma createSetNewFees_returns newFees buf :
  Struct.toBuffer StringToNumber newFees = Ok buf ->
  exists ix,
    Admin.createSetNewFeesInstruction StringToNumber tokenSwapAccount
      authority adminAccount newFees programId = Ok ix.
Proof.
  intros Ef.
  destruct (Admin.createSetNewFeesInstruction StringToNumber tokenSwapAccount
              authority adminAccount newFees programId)
    as [ix|e] eqn:E; [exists ix; reflexivity | exfalso].
  revert E. unfold Admin.createSetNewFeesInstruction. rewrite Ef.
  cbn [bind]. intros E. vm_compute in E. discriminate E.
Qed.

Lemma createSetNewRewards_returns newRewards buf :
  Struct.toBuffer StringToNumber newRewards = Ok buf ->
  exists ix,
    Admin.createSetNewRewardsInstruction StringToNumber tokenSwapAccount
      authority adminAccount newRewards programId = Ok ix.
Proof.
  intros Er.
  destruct (Admin.createSetNewRewardsInstruction StringToNumber
              tokenSwapAccount authority adminAccount newRewards programId)
    as [ix|e] eqn:E; [exists ix; reflexivity | exfalso].
  revert E. unfold Admin.createSetNewRewardsInstruction. rewrite Er.
  cbn [bind]. intros E. vm_compute in E. discriminate E.
Qed.

(** C10. Every encoder of the admin family returns an account list in
    which exactly two entries are signers: the first entry, the config or
    token-swap account, and the entry of the admin account.  The six
    encoders without arguments always return; the four with arguments
    return such a list whenever they return, and they do return once the
    buffers of their arguments are there (an amount's buffer holding a
    zero byte, as that of any amount below 2^56 does). *)
Theorem admin_encoders_have_two_signers :
  (forall ampFactor fees rewards,
      (forall ix,
          Admin.createAdminInitializeInstruction StringToNumber config
            adminAccount deltafiMint ampFactor fees rewards programId
          = Ok ix ->
          admin_signers config adminAccount ix.(keys)) /\
      (forall amp bf br,
          NumberU64.toBuffer ampFactor = Ok amp -> has_nul amp = true ->
          Struct.toBuffer StringToNumber fees = Ok bf ->
          Struct.toBuffer StringToNumber rewards = Ok br ->
          exists ix,
            Admin.createAdminInitializeInstruction StringToNumber config
              adminAccount deltafiMint ampFactor fees rewards programId
            = Ok ix /\
            admin_signers config adminAccount ix.(keys))) /\
  (forall targetAmp stopRampTimestamp,
      (forall ix,
          Admin.createRampAInstruction StringToNumber tokenSwap authority
            adminAccount targetAmp stopRampTimestamp programId = Ok ix ->
          admin_signers tokenSwap adminAccount ix.(keys)) /\
      (forall b1 b2,
          NumberU64.toBuffer targetAmp = Ok b1 ->
          NumberU64.toBuffer stopRampTimestamp = Ok b2 ->
          has_nul b1 = true -> has_nul b2 = true ->
          exists ix,
            Admin.createRampAInstruction StringToNumber tokenSwap authority
              adminAccount targetAmp stopRampTimestamp programId = Ok ix /\
            admin_signers tokenSwap adminAccount ix.(keys))) /\
  (exists ix,
      Admin.createStopRampInstruction StringToNumber tokenSwapAccount
        authority adminAccount programId = Ok ix /\
      admin_signers tokenSwapAccount.(publicKey) adminAccount ix.(keys)) /\
  (exists ix,
      Admin.createPauseInstruction StringToNumber tokenSwapAccount
        authority adminAccount programId = Ok ix /\
      admin_signers tokenSwapAccount.(publicKey) adminAccount ix.(keys)) /\
  (exists ix,
      Admin.createUnpauseInstruction StringToNumber tokenSwapAccount
        authority adminAccount programId = Ok ix /\
      admin_signers tokenSwapAccount.(publicKey) adminAccount ix.(keys)) /\
  (exists ix,
      Admin.createSetFeeAccountInstruction StringToNumber tokenSwapAccount
        authority adminAccount newFeeAccount programId = Ok ix /\
      admin_signers tokenSwapAccount.(publicKey) adminAccount ix.(keys)) /\
  (exists ix,
      Admin.createApplyNewAdminInstruction StringToNumber tokenSwapAccount
        authority adminAccount programId = Ok ix /\
      admin_signers tokenSwapAccount.(publicKey) adminAccount ix.(keys)) /\
  (exists ix,
      Admin.createCommitNewAdminInstruction StringToNumber tokenSwapAccount
        authority adminAccount newAdminAccount programId = Ok ix /\
      admin_signers tokenSwapAccount.(publicKey) adminAccount ix.(keys)) /\
  (forall newFees,
      (forall ix,
          Admin.createSetNewFeesInstruction StringToNumber tokenSwapAccount
            authority adminAccount newFees programId = Ok ix ->
          admin_signers tokenSwapAccount.(publicKey) adminAccount ix.(keys)) /\
      (forall buf,
          Struct.toBuffer StringToNumber newFees = Ok buf ->
          exists ix,
            Admin.createSetNewFeesInstruction StringToNumber tokenSwapAccount
              authority adminAccount newFees programId = Ok ix /\
            admin_signers tokenSwapAccount.(publicKey) adminAccount
              ix.(keys))) /\
  (forall newRewards,
      (forall ix,
          Admin.createSetNewRewardsInstruction StringToNumber tokenSwapAccount
            authority adminAccount newRewards programId = Ok ix ->
          admin_signers tokenSwapAccount.(publicKey) adminAccount ix.(keys)) /\
      (forall buf,
          Struct.toBuffer StringToNumber newRewards = Ok buf ->
          exists ix,
            Admin.createSetNewRewardsInstruction StringToNumber
              tokenSwapAccount authority adminAccount newRewards programId
            = Ok ix /\
            admin_signers tokenSwapAccount.(publicKey) adminAccount
              ix.(keys))).
Proof.
  assert (Hinit : forall ampFactor fees rewards ix,
             Admin.createAdminInitializeInstruction StringToNumber config
               adminAccount deltafiMint ampFactor fees rewards programId
             = Ok ix ->
             admin_signers config adminAccount ix.(keys)).
  { intros ampFactor fees rewards ix.
    unfold Admin.createAdminInitializeInstruction. returned.
    apply (admin_signers_intro config adminAccount _ []); reflexivity. }
  assert (Hramp : forall targetAmp stopRampTimestamp ix,
             Admin.createRampAInstruction StringToNumber tokenSwap authority
               adminAccount targetAmp stopRampTimestamp programId = Ok ix ->
             admin_signers tokenSwap adminAccount ix.(keys)).
  { intros targetAmp stopRampTimestamp ix.
    unfold Admin.createRampAInstruction. returned.
    apply (admin_signers_intro tokenSwap adminAccount _
             [meta authority false false]); reflexivity. }
  assert (Hfees : forall newFees ix,
             Admin.createSetNewFeesInstruction StringToNumber tokenSwapAccount
               authority adminAccount newFees programId = Ok ix ->
             admin_signers tokenSwapAccount.(publicKey) adminAccount
               ix.(keys)).
  { intros newFees ix.
    unfold Admin.createSetNewFeesInstruction. returned.
    apply (admin_signers_intro _ adminAccount _
             [meta authority false false]); reflexivity. }
  assert (Hrewards : forall newRewards ix,
             Admin.createSetNewRewardsInstruction StringToNumber
               tokenSwapAccount authority adminAccount newRewards programId
             = Ok ix ->
             admin_signers tokenSwapAccount.(publicKey) adminAccount
               ix.(keys)).
  { intros newRewards ix.
    unfold Admin.createSetNewRewardsInstruction. returned.
    apply (admin_signers_intro _ adminAccount _
             [meta authority false false]); reflexivity. }
  repeat match goal with |- _ /\ _ => split end.
  - intros ampFactor fees rewards. split; [apply Hinit|].
    intros amp bf br Ea Ha Ef Er.
    destruct (createAdminInitialize_returns ampFactor fees rewards amp bf br
                Ea Ha Ef Er) as [ix Hix].
    exists ix. split; [exact Hix | exact (Hinit _ _ _ _ Hix)].
  - intros targetAmp stopRampTimestamp. split; [apply Hramp|].
    intros b1 b2 E1 E2 H1 H2.
    destruct (createRampA_returns targetAmp stopRampTimestamp b1 b2
                E1 E2 H1 H2) as [ix Hix].
    exists ix. split; [exact Hix | exact (Hramp _ _ _ Hix)].
  - eexists; split; [reflexivity|].
    apply (admin_signers_intro _ adminAccount _
             [meta authority false false]); reflexivity.
  - eexists; split; [reflexivity|].
    apply (admin_signers_intro _ adminAccount _
             [meta authority false false]); reflexivity.
  - eexists; split; [reflexivity|].
    apply (admin_signers_intro _ adminAccount _
             [meta authority false false]); reflexivity.
  - eexists; split; [reflexivity|].
    apply (admin_signers_intro _ adminAccount _
             [meta authority false false]); reflexivity.
  - eexists; split; [reflexivity|].
    apply (admin_signers_intro _ adminAccount _
             [meta authority false false]); reflexivity.
  - eexists; split; [reflexivity|].
    apply (admin_signers_intro _ adminAccount _
             [meta authority false false]); reflexivity.
  - intros newFees. split; [apply Hfees|].
    intros buf Ef.
    destruct (createSetNewFees_returns newFees buf Ef) as [ix Hix].
    exists ix. split; [exact Hix | exact (Hfees _ _ Hix)].
  - intros newRewards. split; [apply Hrewards|].
    intros buf Er.
    destruct (createSetNewRewards_returns newRewards buf Er) as [ix Hix].
    exists ix. split; [exact Hix | exact (Hrewards _ _ Hix)].
Qed.

End AdminSigners.

Lemma admin_encoders_have_two_signers_witness :
  (exists ix,
      Admin.createAdminInitializeInstruction (fun _ => NaN) "config" "admin"
        "mint" 100 (Fees DEFAULT_FEES) (Rewards DEFAULT_REWARDS) "program"
      = Ok ix /\
      admin_signers "config" "admin" ix.(keys)) /\
  (exists ix,
      Admin.createRampAInstruction (fun _ => NaN) "swap" "authority" "admin"
        100 200 "program" = Ok ix /\
      admin_signers "swap" "admin" ix.(keys)) /\
  (exists ix,
      Admin.createSetNewFeesInstruction (fun _ => NaN) {| publicKey := "swap" |}
        "authority" "admin" (Fees DEFAULT_FEES) "program" = Ok ix /\
      admin_signers "swap" "admin" ix.(keys)) /\
  (exists ix,
      Admin.createSetNewRewardsInstruction (fun _ => NaN)
        {| publicKey := "swap" |} "authority" "admin"
        (Rewards DEFAULT_REWARDS) "program" = Ok ix /\
      admin_signers "swap" "admin" ix.(keys)).
Proof.
  pose proof (admin_encoders_have_two_signers (fun _ => NaN)
                "config" "swap" "authority" "admin" "mint" "fee" "new"
                "program" {| publicKey := "swap" |})
    as (Hinit & Hramp & _ & _ & _ & _ & _ & _ & Hfees & Hrewards).
  split; [|split; [|split]].
  - eapply (proj2 (Hinit 100 (Fees DEFAULT_FEES) (Rewards DEFAULT_REWARDS)));
      reflexivity.
  - eapply (proj2 (Hramp 100 200)); reflexivity.
  - eapply (proj2 (Hfees (Fees DEFAULT_FEES))); reflexivity.
  - eapply (proj2 (Hrewards (Rewards DEFAULT_REWARDS))); reflexivity.
Defined.

Section NonceAndFees.
Variable StringToNumber : list Z -> number.
Variables k1 k2 k3 k4 k5 k6 k7 k8 k9 k10 k11 k12 : PublicKey.
Variables account account' : Keypair.

Lemma fees_safe_fields (f : IFees) :
  fees_safe f = true -> Forall (fun n => safe n = true) (fee_values f).
Proof.
  unfold fees_safe. rewrite !andb_true_iff.
  intros [[[[[[[H1 H2] H3] H4] H5] H6] H7] H8]. repeat constructor; assumption.
Qed.

Ltac numbers H :=
  unfold fee_values in H;
  repeat match goal with
         | H : Forall _ (_ :: _) |- _ => inversion H; subst; clear H
         end;
  repeat match goal with
         | H : safe ?n = true |- _ =>
             rewrite (new_toBuffer_accepted (NumberU64.OfNumber n) H); clear H
         end;
  cbn [bind NumberU64.value].

Lemma nonceAndFees_stores instruction nonce fees :
  fits_u8 instruction = true -> fits_u8 nonce = true -> fees_safe fees = true ->
  Instructions.nonceAndFees StringToNumber instruction nonce fees
  = Ok (instruction :: nonce
          :: concat (map (Buffer.le_bytes 8) (fee_values fees))).
Proof.
  intros Hi Hn Hf. apply fees_safe_fields in Hf.
  unfold Instructions.nonceAndFees. numbers Hf.
  unfold struct. cbn [encode].
  field "instruction" (VNum instruction).
  rewrite encode_u8_at by (assumption || inside). cbn [bind fst snd span].
  field "nonce" (VNum nonce).
  rewrite encode_u8_at by (assumption || inside). cbn [bind fst snd span].
  reflexivity.
Qed.

(** Eight conversions in a row fail when one of the numbers is refused. *)
Lemma conversions_fail (A : Type) (f : IFees)
      (k : Buffer.t -> Buffer.t -> Buffer.t -> Buffer.t -> Buffer.t ->
           Buffer.t -> Buffer.t -> Buffer.t -> result A) :
  fees_safe f = false ->
  fails
    (f1 <- bind (NumberU64.new (NumberU64.OfNumber f.(adminTradeFeeNumerator)))
                NumberU64.toBuffer ;;
     f2 <- bind (NumberU64.new (NumberU64.OfNumber f.(adminTradeFeeDenominator)))
                NumberU64.toBuffer ;;
     f3 <- bind (NumberU64.new (NumberU64.OfNumber f.(adminWithdrawFeeNumerator)))
                NumberU64.toBuffer ;;
     f4 <- bind (NumberU64.new
                   (NumberU64.OfNumber f.(adminWithdrawFeeDenominator)))
                NumberU64.toBuffer ;;
     f5 <- bind (NumberU64.new (NumberU64.OfNumber f.(tradeFeeNumerator)))
                NumberU64.toBuffer ;;
     f6 <- bind (NumberU64.new (NumberU64.OfNumber f.(tradeFeeDenominator)))
                NumberU64.toBuffer ;;
     f7 <- bind (NumberU64.new (NumberU64.OfNumber f.(withdrawFeeNumerator)))
                NumberU64.toBuffer ;;
     f8 <- bind (NumberU64.new (NumberU64.OfNumber f.(withdrawFeeDenominator)))
                NumberU64.toBuffer ;;
     k f1 f2 f3 f4 f5 f6 f7 f8).
Proof.
  intros H. unfold fees_safe in H.
  repeat match goal with
         | |- context [bind (NumberU64.new (NumberU64.OfNumber ?n))
                            NumberU64.toBuffer] =>
             let E := fresh "E" in
             destruct (safe n) eqn:E;
             [ rewrite (new_toBuffer_accepted (NumberU64.OfNumber n) E);
               cbn [bind]
             | rewrite (new_toBuffer_refused (NumberU64.OfNumber n) E);
               thrown ]
         end.
  all_fit H.
Qed.

(** X13. The encoders of [instructions.ts] that carry a nonce and the eight
    fee numbers store all of them when the nonce fits a byte and each fee
    is a number from 0 to 2^53 - 1 (the amplification factor a number in
    that range or a NumberU64 below 2^64): the tag, the nonce byte, then
    the eight little-endian bytes of each number in the order of the
    layout.  A fee number outside that range, from 2^53 on included, makes
    them fail and return nothing. *)
Theorem nonce_and_fee_encoders_store_fields :
  (forall nonce ampFactor fees,
      (fits_u8 nonce = true -> accepted ampFactor = true ->
       fees_safe fees = true ->
       payload (Instructions.createInitSwapInstruction StringToNumber account
                  k1 k2 k3 k4 k5 k6 k7 k8 k9 k10 k11 k12 nonce ampFactor fees)
       = Ok (0 :: nonce :: Buffer.le_bytes 8 (NumberU64.value ampFactor)
               ++ concat (map (Buffer.le_bytes 8) (fee_values fees)))) /\
      (accepted ampFactor && fees_safe fees = false ->
       fails (Instructions.createInitSwapInstruction StringToNumber account
                k1 k2 k3 k4 k5 k6 k7 k8 k9 k10 k11 k12 nonce ampFactor
                fees))) /\
  (forall nonce fees,
      (fits_u8 nonce = true -> fees_safe fees = true ->
       payload (Instructions.createInitFarmInstruction StringToNumber
                  account account' k1 k2 k3 k4 k5 k6 k7 k8 k9 nonce fees)
       = Ok (108 :: nonce
               :: concat (map (Buffer.le_bytes 8) (fee_values fees)))) /\
      (fees_safe fees = false ->
       fails (Instructions.createInitFarmInstruction StringToNumber
                account account' k1 k2 k3 k4 k5 k6 k7 k8 k9 nonce fees))) /\
  (forall nonce fees,
      (fits_u8 nonce = true -> fees_safe fees = true ->
       payload (Instructions.farmPrintPendingDeltafiInstruction StringToNumber
                  account k1 k2 k3 k4 k5 k6 k7 k8 k9 nonce fees)
       = Ok (34 :: nonce
               :: concat (map (Buffer.le_bytes 8) (fee_values fees)))) /\
      (fees_safe fees = false ->
       fails (Instructions.farmPrintPendingDeltafiInstruction StringToNumber
                account k1 k2 k3 k4 k5 k6 k7 k8 k9 nonce fees))).
Proof.
  split; [|split].
  - intros nonce ampFactor fees. split.
    + intros Hn Ha Hf. apply fees_safe_fields in Hf.
      unfold payload, Instructions.createInitSwapInstruction.
      rewrite (new_toBuffer_accepted ampFactor Ha). cbn [bind].
      numbers Hf.
      unfold struct. cbn [encode].
      tag_field 0.
      field "nonce" (VNum nonce).
      rewrite encode_u8_at by (assumption || inside). cbn [bind fst snd span].
      reflexivity.
    + intros H. unfold Instructions.createInitSwapInstruction.
      destruct (accepted ampFactor) eqn:Ha.
      * rewrite (new_toBuffer_accepted ampFactor Ha). cbn [bind].
        apply conversions_fail. exact H.
      * rewrite (new_toBuffer_refused ampFactor Ha). thrown.
  - intros nonce fees. split.
    + intros Hn Hf.
      unfold payload, Instructions.createInitFarmInstruction.
      rewrite nonceAndFees_stores by (reflexivity || assumption). reflexivity.
    + intros Hf. unfold Instructions.createInitFarmInstruction.
      match goal with |- fails (bind ?r _) => assert (Hr : fails r) end;
        [|destruct Hr as [e ->]; thrown].
      unfold Instructions.nonceAndFees. apply conversions_fail. exact Hf.
  - intros nonce fees. split.
    + intros Hn Hf.
      unfold payload, Instructions.farmPrintPendingDeltafiInstruction.
      rewrite nonceAndFees_stores by (reflexivity || assumption). reflexivity.
    + intros Hf. unfold Instructions.farmPrintPendingDeltafiInstruction.
      match goal with |- fails (bind ?r _) => assert (Hr : fails r) end;
        [|destruct Hr as [e ->]; thrown].
      unfold Instructions.nonceAndFees. apply conversions_fail. exact Hf.
Qed.

End NonceAndFees.

Section FarmMethods.
Variable Connection : Type.
Variable StringToNumber : list Z -> number.
Variable this : FarmWithBase.t Connection.

(** X14. [Farm.withdraw] builds no transaction, whatever the farm and the
    amounts are: the amount reaches the 8-byte field of the withdraw
    instruction as a number, not as a buffer, and the field refuses
    it. *)
Theorem Farm_withdraw_always_throws
        (userAccountPool userAccountDeltafi : PublicKey)
        (poolTokenAmount minimumTokenPool minimumTokenDeltafi : Z) :
  FarmWithBase.withdraw Connection StringToNumber this userAccountPool
    userAccountDeltafi poolTokenAmount minimumTokenPool minimumTokenDeltafi
  = Throw TypeError.
Proof. reflexivity. Qed.

(** X15. [Farm.deposit] takes its amount as a number.  With an amount
    from 0 to 2^53 - 1 it returns a transaction of one instruction for the
    farm program, tagged 31 and carrying the amount.  Its accounts are
    those of the farm object: the user-farming account it names is the
    farm's own field, not the [userFarming] argument, and the nonce and
    the minimum are not used.  With any other amount, from 2^53 on
    included, it fails an assertion and builds no transaction. *)
Theorem Farm_deposit_names_the_farm_accounts
        (userAccountPool userFarming' deltafiTokenAccount : PublicKey)
        (nonce tokenAmountPool minimumDeltafiTokenAmount : Z) :
  (safe tokenAmountPool = true ->
   exists ix,
     FarmWithBase.deposit Connection StringToNumber this userAccountPool
       userFarming' deltafiTokenAccount nonce tokenAmountPool
       minimumDeltafiTokenAmount = Ok [ix] /\
     ix.(programId) = this.(FarmWithBase.farmProgramId Connection) /\
     ix.(data) = 31 :: Buffer.le_bytes 8 tokenAmountPool /\
     map pubkey ix.(keys)
     = [ this.(FarmWithBase.farmBase Connection);
         this.(FarmWithBase.farm Connection);
         this.(FarmWithBase.authority Connection);
         this.(FarmWithBase.adminFeeAccountDeltafi Connection);
         userAccountPool;
         this.(FarmWithBase.userFarming Connection);
         this.(FarmWithBase.tokenAccountPool Connection);
         this.(FarmWithBase.deltafiTokenMint Connection);
         deltafiTokenAccount;
         this.(FarmWithBase.tokenProgramId Connection);
         SYSVAR_CLOCK_PUBKEY ]) /\
  (safe tokenAmountPool = false ->
   FarmWithBase.deposit Connection StringToNumber this userAccountPool
     userFarming' deltafiTokenAccount nonce tokenAmountPool
     minimumDeltafiTokenAmount = Throw AssertionError).
Proof.
  split; intros Hsafe;
    unfold FarmWithBase.deposit, Instructions.farmDepositInstruction.
  - rewrite (new_toBuffer_accepted (NumberU64.OfNumber tokenAmountPool) Hsafe).
    cbn [bind NumberU64.value].
    eexists. split; [reflexivity|]. repeat split.
  - rewrite (new_toBuffer_refused (NumberU64.OfNumber tokenAmountPool) Hsafe).
    reflexivity.
Qed.

(** X16. [Farm.enableUser] and [Farm.emergencyWithdraw] cannot fail: each
    returns a transaction of one instruction for the farm program, whose
    payload is the single tag byte, 30 and 33. *)
Theorem Farm_flag_transactions
        (userFarmmingAccount owner userAccountPool userAccountDeltafi
         : PublicKey) :
  (exists ix,
      FarmWithBase.enableUser Connection StringToNumber this
        userFarmmingAccount owner = Ok [ix] /\
      ix.(programId) = this.(FarmWithBase.farmProgramId Connection) /\
      ix.(data) = [30] /\
      map pubkey ix.(keys)
      = [ this.(FarmWithBase.farm Connection);
          this.(FarmWithBase.authority Connection);
          userFarmmingAccount; owner ]) /\
  (exists ix,
      FarmWithBase.emergencyWithdraw Connection StringToNumber this
        userAccountPool userAccountDeltafi = Ok [ix] /\
      ix.(programId) = this.(FarmWithBase.farmProgramId Connection) /\
      ix.(data) = [33] /\
      length ix.(keys) = 11%nat).
Proof.
  split; eexists; (split; [reflexivity|]); repeat split.
Qed.

End FarmMethods.

Section FarmLoaderMore.

Variable Connection : Type.
Variable loadAccount : Connection -> PublicKey -> PublicKey -> result Buffer.t.
Variable FarmLayout : Layout.
Variable newPublicKey : value -> result PublicKey.
Variable findProgramAddress : PublicKey -> PublicKey -> result PublicKey.

(** X17. An account whose bytes end before the farm layout does is refused by
    [Farm.loadFarm] with the RangeError of the decoder (the layout ending
    in an integer field); the check of the initialization flag is not
    reached. *)
Theorem loadFarm_truncated_account
        (connection : Connection) (address programId : PublicKey)
        (data : Buffer.t) :
  ends_in_integer FarmLayout = true ->
  loadAccount connection address programId = Ok data ->
  (length data < span FarmLayout)%nat ->
  Farm.loadFarm Connection loadAccount FarmLayout newPublicKey
    findProgramAddress connection address programId = Throw RangeError.
Proof.
  intros Hends Hload Hshort. unfold Farm.loadFarm.
  rewrite Hload. cbn [bind].
  rewrite decode_short by (assumption || lia). reflexivity.
Qed.

(** X18. Once the account is loaded and decoded, the flag alone decides
    whether [Farm.loadFarm] goes on: a decoded object whose
    [isInitialized] is zero, NaN or missing is refused with the
    invalid-state error, whatever else holds.  With any other flag, 1 or
    not, the loader derives the authority and builds the five keys in
    order: the first error of these steps is the loader's error (so a
    layout that lacks a key field is refused with the constructor's
    error), and when all return the farm carries the address, the program
    id, the authority, the token program, the five keys and the eight
    decoded fee numbers. *)
Theorem loadFarm_returns_iff_flag_set
        (connection : Connection) (address programId : PublicKey)
        (data : Buffer.t) (fields : list (string * value)) :
  loadAccount connection address programId = Ok data ->
  decode FarmLayout data 0 = Ok (VObj fields) ->
  (falsy (lookup fields "isInitialized") = true ->
   Farm.loadFarm Connection loadAccount FarmLayout newPublicKey
     findProgramAddress connection address programId
   = Throw (Error "Invalid farm state")) /\
  (falsy (lookup fields "isInitialized") = false ->
   (forall e,
       findProgramAddress address programId = Throw e ->
       Farm.loadFarm Connection loadAccount FarmLayout newPublicKey
         findProgramAddress connection address programId = Throw e) /\
   (forall auth before name after e,
       findProgramAddress address programId = Ok auth ->
       farm_key_names = before ++ name :: after ->
       Forall (fun n => exists k, newPublicKey (lookup fields n) = Ok k)
              before ->
       newPublicKey (lookup fields name) = Throw e ->
       Farm.loadFarm Connection loadAccount FarmLayout newPublicKey
         findProgramAddress connection address programId = Throw e) /\
   (forall auth admin feePool pool mint mintPool',
       findProgramAddress address programId = Ok auth ->
       newPublicKey (lookup fields "adminAccount") = Ok admin ->
       newPublicKey (lookup fields "adminFeeAccountPool") = Ok feePool ->
       newPublicKey (lookup fields "tokenAccountPool") = Ok pool ->
       newPublicKey (lookup fields "deltafiTokenMint") = Ok mint ->
       newPublicKey (lookup fields "mintPool") = Ok mintPool' ->
       Farm.loadFarm Connection loadAccount FarmLayout newPublicKey
         findProgramAddress connection address programId
       = Ok {| Farm.connection := connection;
               Farm.farmProgramId := programId;
               Farm.tokenProgramId := TOKEN_PROGRAM_ID;
               Farm.farm := address;
               Farm.deltafiTokenMint := mint;
               Farm.authority := auth;
               Farm.adminAccount := admin;
               Farm.adminFeeAccountPool := feePool;
               Farm.tokenAccountPool := pool;
               Farm.mintPool := mintPool';
               Farm.fees :=
                 VObj (map (fun name => (name, lookup fields name))
                           fee_names) |})).
Proof.
  intros Hload Hdecode. unfold Farm.loadFarm.
  rewrite Hload. cbn [bind]. rewrite Hdecode. cbn [bind get].
  split; intros Hflag; rewrite Hflag; [reflexivity|].
  split; [|split].
  - intros e He. rewrite He. reflexivity.
  - intros auth before name after e Hauth Hs Hall He.
    rewrite Hauth. cbn [bind]. unfold farm_key_names in Hs.
    repeat match goal with
           | Hs : _ :: _ = ?bf ++ _ :: _ |- _ =>
               destruct bf as [|n bf]; cbn [app] in Hs;
               [ injection Hs as Hname Hafter; subst; rewrite He; reflexivity
               | injection Hs as Hn Hs; subst n;
                 match goal with
                 | H : Forall _ (_ :: _) |- _ =>
                     inversion H as [|? ? [? ?] ?]; subst; clear H
                 end;
                 match goal with
                 | Hk : newPublicKey _ = Ok _ |- _ => rewrite Hk; clear Hk
                 end;
                 cbn [bind] ]
           | Hs : [] = ?bf ++ _ :: _ |- _ =>
               exfalso; exact (app_cons_not_nil _ _ _ Hs)
           end.
  - intros auth admin feePool pool mint mintPool' Hauth H1 H2 H3 H4 H5.
    rewrite Hauth. cbn [bind]. rewrite H1, H2, H3, H4, H5. reflexivity.
Qed.

End FarmLoaderMore.

Ltac keyed :=
  intros ?ix; unbind;
  repeat match goal with
         | |- context [let (_, _) := ?p in _] => destruct p
         end;
  let H := fresh in
  intros H; inversion H; subst; clear H; reflexivity.

Section Unsigned.
Variable StringToNumber : list Z -> number.
Variables k1 k2 k3 k4 k5 k6 k7 k8 k9 k10 k11 k12 k13 k14 k15 : PublicKey.
Variables account account' : Keypair.

(** X19. No encoder of the swap and farm families asks for a signature: every
    account of a returned instruction has [isSigner] false, the swap and
    farm accounts being created included.  The one exception is the
    initialize-swap encoder of [instructions/admin.ts], which marks its
    first account, the swap, and no other. *)
Theorem user_encoders_name_no_signer :
  (forall nonce ampFactor fees rewards k i isOpenTwap ix,
      Swap.createInitSwapInstruction StringToNumber
        k1 k2 k3 k4 k5 k6 k7 k8 k9 k10 k11 k12 k13 k14
        nonce ampFactor fees rewards k i isOpenTwap k15 = Ok ix ->
      signers ix = true :: repeat false 13) /\
  (forall amountIn minimumAmountOut swapDirection,
      unsigned
        (Swap.createSwapInstruction StringToNumber
           k1 k2 k3 k4 k5 k6 k7 k8 k9 k10
           amountIn minimumAmountOut swapDirection k11)) /\
  (forall tokenAmountA tokenAmountB minimumPoolTokenAmount,
      unsigned
        (Swap.createDepositInstruction StringToNumber
           k1 k2 k3 k4 k5 k6 k7 k8 k9
           tokenAmountA tokenAmountB minimumPoolTokenAmount k10)) /\
  (forall poolTokenAmount minimumTokenA minimumTokenB,
      unsigned
        (Swap.createWithdrawInstruction StringToNumber
           k1 k2 k3 k4 k5 k6 k7 k8 k9 k10 k11
           poolTokenAmount minimumTokenA minimumTokenB k12)) /\
  (forall poolTokenAmount minimumTokenAmount,
      unsigned
        (Swap.createWithdrawOneInstruction StringToNumber
           k1 k2 k3 k4 k5 k6 k7 k8 k9
           poolTokenAmount minimumTokenAmount k10)) /\
  (forall nonce ampFactor fees,
      unsigned
        (Instructions.createInitSwapInstruction StringToNumber account
           k1 k2 k3 k4 k5 k6 k7 k8 k9 k10 k11 k12 nonce ampFactor fees)) /\
  (forall amountIn minimumAmountOut,
      unsigned
        (Instructions.swapInstruction StringToNumber
           k1 k2 k3 k4 k5 k6 k7 k8 k9 amountIn minimumAmountOut)) /\
  (forall tokenAmountA tokenAmountB minimumPoolTokenAmount,
      unsigned
        (Instructions.depositInstruction StringToNumber
           k1 k2 k3 k4 k5 k6 k7 k8 k9 k10
           tokenAmountA tokenAmountB minimumPoolTokenAmount)) /\
  (forall poolTokenAmount minimumTokenA minimumTokenB,
      unsigned
        (Instructions.withdrawInstruction StringToNumber
           k1 k2 k3 k4 k5 k6 k7 k8 k9 k10 k11 k12
           poolTokenAmount minimumTokenA minimumTokenB)) /\
  (forall nonce fees,
      unsigned
        (Instructions.createInitFarmInstruction StringToNumber
           account account' k1 k2 k3 k4 k5 k6 k7 k8 k9 nonce fees)) /\
  unsigned
    (Instructions.farmEnableUserInstruction StringToNumber k1 k2 k3 k4 k5) /\
  (forall tokenAmountPool,
      unsigned
        (Instructions.farmDepositInstruction StringToNumber
           k1 k2 k3 k4 k5 k6 k7 k8 k9 k10 k11 tokenAmountPool)) /\
  unsigned
    (Instructions.farmEmergencyWithdrawInstruction StringToNumber
       k1 k2 k3 k4 k5 k6 k7 k8 k9 k10 k11) /\
  (forall nonce fees,
      unsigned
        (Instructions.farmPrintPendingDeltafiInstruction StringToNumber
           account k1 k2 k3 k4 k5 k6 k7 k8 k9 nonce fees)).
Proof.
  repeat match goal with |- _ /\ _ => split end; intros.
  - match goal with H : _ = Ok ix |- _ => revert ix H end.
    unfold Swap.createInitSwapInstruction. keyed.
  - unfold Swap.createSwapInstruction. keyed.
  - unfold Swap.createDepositInstruction. keyed.
  - unfold Swap.createWithdrawInstruction. keyed.
  - unfold Swap.createWithdrawOneInstruction. keyed.
  - unfold Instructions.createInitSwapInstruction. keyed.
  - unfold Instructions.swapInstruction. keyed.
  - unfold Instructions.depositInstruction. keyed.
  - unfold Instructions.withdrawInstruction. keyed.
  - unfold Instructions.createInitFarmInstruction. keyed.
  - unfold Instructions.farmEnableUserInstruction. keyed.
  - unfold Instructions.farmDepositInstruction. keyed.
  - unfold Instructions.farmEmergencyWithdrawInstruction. keyed.
  - unfold Instructions.farmPrintPendingDeltafiInstruction. keyed.
Qed.
End Unsigned.

(** ** Instances *)

Lemma Struct_toBuffer_length_witness :
  exists buf,
    Struct.toBuffer (fun _ => NaN) (Rewards DEFAULT_REWARDS) = Ok buf /\
    length buf = 24%nat.
Proof.
  eexists. split; [reflexivity|].
  apply (Struct_toBuffer_length (fun _ => NaN) (Rewards DEFAULT_REWARDS));
    reflexivity.
Defined.

Lemma decode_reads_only_its_span_witness :
  (0 + span (FeesLayout "fees") <= length (Buffer.alloc 64))%nat /\
  exists v,
    decode (FeesLayout "fees") (Buffer.alloc 64) 0 = Ok v /\
    decode (FeesLayout "fees") (Buffer.alloc 64 ++ [1; 2; 3]) 0 = Ok v.
Proof.
  split; [vm_compute; lia|].
  apply (decode_reads_only_its_span (FeesLayout "fees") (Buffer.alloc 64)
           [1; 2; 3] 0).
  vm_compute; lia.
Defined.

Lemma toBuffer_concatenates_fields_witness :
  fees_safe DEFAULT_FEES = true /\
  Struct.toBuffer (fun _ => NaN) (Fees DEFAULT_FEES)
  = Ok (concat (map (Buffer.le_bytes 8) (fee_values DEFAULT_FEES))).
Proof.
  split; [reflexivity|].
  apply (proj1 (toBuffer_concatenates_fields (fun _ => NaN)) DEFAULT_FEES).
  reflexivity.
Defined.

Lemma Fees_roundtrip_numbers_witness :
  fees_safe DEFAULT_FEES = true /\
  exists buf,
    Struct.toBuffer (fun _ => NaN) (Fees DEFAULT_FEES) = Ok buf /\
    Fees_fromBuffer buf = Ok (IFees_numbers DEFAULT_FEES).
Proof.
  split; [reflexivity|].
  apply (Fees_roundtrip_numbers (fun _ => NaN) DEFAULT_FEES). reflexivity.
Defined.

Lemma Rewards_roundtrip_numbers_witness :
  rewards_safe DEFAULT_REWARDS = true /\
  exists buf,
    Struct.toBuffer (fun _ => NaN) (Rewards DEFAULT_REWARDS) = Ok buf /\
    Rewards_fromBuffer buf = Ok (IRewards_numbers DEFAULT_REWARDS).
Proof.
  split; [reflexivity|].
  apply (Rewards_roundtrip_numbers (fun _ => NaN) DEFAULT_REWARDS). reflexivity.
Defined.

Lemma set_fees_and_set_rewards_payloads_are_constant_witness :
  exists ix,
    Admin.createSetNewFeesInstruction (fun _ => NaN) {| publicKey := "swap" |}
      "authority" "admin" (Fees WIDE_FEES) "program" = Ok ix /\
    ix.(data) = 106 :: repeat 0 64.
Proof.
  eexists. split; [reflexivity|].
  apply (proj1 (set_fees_and_set_rewards_payloads_are_constant (fun _ => NaN)
                  {| publicKey := "swap" |} "authority" "admin" "program")
           (Fees WIDE_FEES)).
  reflexivity.
Defined.

Lemma createAdminInitialize_never_writes_schedules_witness :
  exists ix,
    Admin.createAdminInitializeInstruction (fun _ => NaN)
      "config" "authority" "mint" 100 (Fees DEFAULT_FEES)
      (Rewards DEFAULT_REWARDS) "program" = Ok ix /\
    skipn 9 ix.(data) = repeat 0 88.
Proof.
  eexists. split; [reflexivity|].
  apply (createAdminInitialize_never_writes_schedules (fun _ => NaN)
           "config" "authority" "mint" "program" 100 (Fees DEFAULT_FEES)
           (Rewards DEFAULT_REWARDS)).
  reflexivity.
Defined.

Lemma createWithdrawOne_never_writes_minimum_witness :
  exists ix,
    Swap.createWithdrawOneInstruction (fun _ => NaN)
      "k1" "k2" "k3" "k4" "k5" "k6" "k7" "k8" "k9" 1000 900 "program"
    = Ok ix /\
    skipn 9 ix.(data) = repeat 0 8.
Proof.
  eexists. split; [reflexivity|].
  apply (createWithdrawOne_never_writes_minimum (fun _ => NaN)
           "k1" "k2" "k3" "k4" "k5" "k6" "k7" "k8" "k9" "program" 1000 900).
  reflexivity.
Defined.

Lemma payloads_have_tag_and_length_witness :
  exists ix,
    Admin.createRampAInstruction (fun _ => NaN) "k1" "k2" "k3" 100 200 "k4"
    = Ok ix /\
    hd_error ix.(data) = Some 100 /\ length ix.(data) = 17%nat.
Proof.
  eexists. split; [reflexivity|].
  apply (proj1 (proj2 (payloads_have_tag_and_length (fun _ => NaN)
                         "k1" "k2" "k3" "k4" "k5" "k6" "k7" "k8" "k9" "k10"
                         "k11" "k12" "k13" "k14" "k15"
                         {| publicKey := "a" |} {| publicKey := "b" |}))
           100 200).
  reflexivity.
Defined.

Lemma buffers_with_a_zero_byte_are_stored_as_zero_witness :
  NumberU64.toBuffer 100 = Ok (Buffer.le_bytes 8 100) /\
  NumberU64.toBuffer 200 = Ok (Buffer.le_bytes 8 200) /\
  has_nul (Buffer.le_bytes 8 100) = true /\
  has_nul (Buffer.le_bytes 8 200) = true /\
  payload (Admin.createRampAInstruction (fun _ => NaN) "k1" "k2" "k3"
             100 200 "k4")
  = Ok (100 :: repeat 0 16).
Proof.
  repeat (split; [reflexivity|]).
  apply (proj1 (buffers_with_a_zero_byte_are_stored_as_zero (fun _ => NaN)
                  "k1" "k2" "k3" "k4" "k5" "k6" "k7" "k8" "k9" "k10"
                  "k11" "k12")
           100 200 (Buffer.le_bytes 8 100) (Buffer.le_bytes 8 200));
    reflexivity.
Defined.

Lemma createInitSwap_stores_only_the_nonce_witness :
  exists bf br,
    Struct.toBuffer (fun _ => NaN) (Fees DEFAULT_FEES) = Ok bf /\
    Struct.toBuffer (fun _ => NaN) (Rewards DEFAULT_REWARDS) = Ok br /\
    payload (Swap.createInitSwapInstruction (fun _ => NaN)
               "k1" "k2" "k3" "k4" "k5" "k6" "k7" "k8" "k9" "k10" "k11"
               "k12" "k13" "k14" 255 100 (Fees DEFAULT_FEES)
               (Rewards DEFAULT_REWARDS) 1 2 3 "k15")
    = Ok (0 :: 255 :: repeat 0 96).
Proof.
  eexists. eexists. split; [reflexivity|]. split; [reflexivity|].
  eapply (createInitSwap_stores_only_the_nonce (fun _ => NaN)
            "k1" "k2" "k3" "k4" "k5" "k6" "k7" "k8" "k9" "k10" "k11"
            "k12" "k13" "k14" "k15" 255 100 1 2 3 (Fees DEFAULT_FEES)
            (Rewards DEFAULT_REWARDS));
    reflexivity.
Defined.

Lemma blob_encoders_store_amounts_witness :
  payload (Instructions.swapInstruction (fun _ => NaN)
             "k1" "k2" "k3" "k4" "k5" "k6" "k7" "k8" "k9"
             (NumberU64.OfNumber 1000) (NumberU64.OfU64 (2 ^ 63)))
  = Ok (1 :: Buffer.le_bytes 8 1000 ++ Buffer.le_bytes 8 (2 ^ 63)) /\
  payload (Instructions.swapInstruction (fun _ => NaN)
             "k1" "k2" "k3" "k4" "k5" "k6" "k7" "k8" "k9"
             (NumberU64.OfNumber (2 ^ 53)) (NumberU64.OfNumber 0))
  = Throw AssertionError /\
  payload (Instructions.farmDepositInstruction (fun _ => NaN)
             "k1" "k2" "k3" "k4" "k5" "k6" "k7" "k8" "k9" "k10" "k11"
             (2 ^ 53))
  = Throw AssertionError.
Proof.
  pose proof (blob_encoders_store_amounts (fun _ => NaN)
                "k1" "k2" "k3" "k4" "k5" "k6" "k7" "k8" "k9" "k10"
                "k11" "k12") as (Hswap & _ & _ & Hfarm).
  split; [|split].
  - exact (Hswap (NumberU64.OfNumber 1000) (NumberU64.OfU64 (2 ^ 63))).
  - exact (Hswap (NumberU64.OfNumber (2 ^ 53)) (NumberU64.OfNumber 0)).
  - exact (Hfarm (2 ^ 53)).
Defined.

Lemma nonce_and_fee_encoders_store_fields_witness :
  (fits_u8 255 = true /\ accepted (NumberU64.OfNumber 100) = true /\
   fees_safe DEFAULT_FEES = true /\
   payload (Instructions.createInitSwapInstruction (fun _ => NaN)
              {| publicKey := "swap" |}
              "k1" "k2" "k3" "k4" "k5" "k6" "k7" "k8" "k9" "k10" "k11" "k12"
              255 (NumberU64.OfNumber 100) DEFAULT_FEES)
   = Ok (0 :: 255 :: Buffer.le_bytes 8 100
           ++ concat (map (Buffer.le_bytes 8) (fee_values DEFAULT_FEES)))) /\
  (fees_safe WIDE_FEES = false /\
   fails (Instructions.createInitFarmInstruction (fun _ => NaN)
            {| publicKey := "farm" |} {| publicKey := "base" |}
            "k1" "k2" "k3" "k4" "k5" "k6" "k7" "k8" "k9" 255 WIDE_FEES)).
Proof.
  pose proof (nonce_and_fee_encoders_store_fields (fun _ => NaN)
                "k1" "k2" "k3" "k4" "k5" "k6" "k7" "k8" "k9" "k10"
                "k11" "k12" {| publicKey := "swap" |}
                {| publicKey := "base" |}) as (Hswap & _ & _).
  pose proof (nonce_and_fee_encoders_store_fields (fun _ => NaN)
                "k1" "k2" "k3" "k4" "k5" "k6" "k7" "k8" "k9" "k10"
                "k11" "k12" {| publicKey := "farm" |}
                {| publicKey := "base" |}) as (_ & Hfarm & _).
  split.
  - repeat (split; [reflexivity|]).
    apply (proj1 (Hswap 255 (NumberU64.OfNumber 100) DEFAULT_FEES));
      reflexivity.
  - split; [reflexivity|].
    apply (proj2 (Hfarm 255 WIDE_FEES)). reflexivity.
Defined.

Lemma user_encoders_name_no_signer_witness :
  exists ix,
    Swap.createInitSwapInstruction (fun _ => NaN)
      "k1" "k2" "k3" "k4" "k5" "k6" "k7" "k8" "k9" "k10" "k11"
      "k12" "k13" "k14" 255 100 (Fees DEFAULT_FEES)
      (Rewards DEFAULT_REWARDS) 1 2 3 "k15" = Ok ix /\
    signers ix = true :: repeat false 13.
Proof.
  eexists. split; [reflexivity|].
  apply (proj1 (user_encoders_name_no_signer (fun _ => NaN)
                  "k1" "k2" "k3" "k4" "k5" "k6" "k7" "k8" "k9" "k10"
                  "k11" "k12" "k13" "k14" "k15"
                  {| publicKey := "a" |} {| publicKey := "b" |})
           255 100 (Fees DEFAULT_FEES) (Rewards DEFAULT_REWARDS) 1 2 3).
  reflexivity.
Defined.

Lemma Farm_deposit_names_the_farm_accounts_witness :
  (safe 500 = true /\
   exists ix,
     FarmWithBase.deposit unit (fun _ => NaN)
       (FarmWithBase.Build_t unit tt "program" "token" "base" "farm" "own"
          "mint" "authority" "admin" "fee" "pool" "lp" DEFAULT_FEES)
       "source" "other" "destination" 255 500 0 = Ok [ix] /\
     map pubkey ix.(keys)
     = [ "base"; "farm"; "authority"; "fee"; "source"; "own"; "pool"; "mint";
         "destination"; "token"; SYSVAR_CLOCK_PUBKEY ]) /\
  (safe (2 ^ 53) = false /\
   FarmWithBase.deposit unit (fun _ => NaN)
     (FarmWithBase.Build_t unit tt "program" "token" "base" "farm" "own"
        "mint" "authority" "admin" "fee" "pool" "lp" DEFAULT_FEES)
     "source" "other" "destination" 255 (2 ^ 53) 0 = Throw AssertionError).
Proof.
  split; (split; [reflexivity|]).
  - destruct (proj1 (Farm_deposit_names_the_farm_accounts unit (fun _ => NaN)
                       (FarmWithBase.Build_t unit tt "program" "token" "base"
                          "farm" "own" "mint" "authority" "admin" "fee"
                          "pool" "lp" DEFAULT_FEES)
                       "source" "other" "destination" 255 500 0) eq_refl)
      as (ix & Hix & _ & _ & Hkeys).
    exists ix. split; [exact Hix | exact Hkeys].
  - apply (proj2 (Farm_deposit_names_the_farm_accounts unit (fun _ => NaN)
                    (FarmWithBase.Build_t unit tt "program" "token" "base"
                       "farm" "own" "mint" "authority" "admin" "fee"
                       "pool" "lp" DEFAULT_FEES)
                    "source" "other" "destination" 255 (2 ^ 53) 0)).
    reflexivity.
Defined.

Lemma loadFarm_truncated_account_witness :
  ends_in_integer FarmLayout_candidate = true /\
  (length (Buffer.alloc 10) < span FarmLayout_candidate)%nat /\
  Farm.loadFarm unit (fun _ _ _ => Ok (Buffer.alloc 10))
    FarmLayout_candidate (fun _ => Ok "key") (fun _ _ => Ok "authority")
    tt "farm" "program"
  = Throw RangeError.
Proof.
  split; [reflexivity|]. split; [vm_compute; lia|].
  apply (loadFarm_truncated_account unit (fun _ _ _ => Ok (Buffer.alloc 10))
           FarmLayout_candidate (fun _ => Ok "key")
           (fun _ _ => Ok "authority") tt "farm" "program" (Buffer.alloc 10));
    [reflexivity | reflexivity | vm_compute; lia].
Defined.

Lemma loadFarm_returns_iff_flag_set_witness :
  let layout :=
    struct ([ u8 "isInitialized";
              PublicKeyLayout "adminAccount";
              PublicKeyLayout "adminFeeAccountPool";
              PublicKeyLayout "tokenAccountPool";
              PublicKeyLayout "deltafiTokenMint";
              PublicKeyLayout "mintPool" ] ++ map nu64 fee_names) None in
  let key (v : value) : result PublicKey :=
    match v with
    | VBuf b => if (length b =? 32)%nat then Ok "key"
                else Throw (Error "Invalid public key input")
    | _ => Throw TypeError
    end in
  (exists f,
      Farm.loadFarm unit (fun _ _ _ => Ok (2 :: Buffer.alloc 224))
        layout key (fun _ _ => Ok "authority") tt "farm" "program" = Ok f /\
      Farm.farm _ f = "farm" /\ Farm.authority _ f = "authority" /\
      Farm.adminAccount _ f = "key") /\
  Farm.loadFarm unit (fun _ _ _ => Ok (Buffer.alloc 225))
    layout key (fun _ _ => Ok "authority") tt "farm" "program"
  = Throw (Error "Invalid farm state") /\
  Farm.loadFarm unit
    (fun _ _ _ => Ok (2 :: Buffer.alloc (span FarmLayout_candidate - 1)))
    FarmLayout_candidate key (fun _ _ => Ok "authority") tt "farm" "program"
  = Throw TypeError.
Proof.
  intros layout key.
  assert (E1 : exists fields,
             decode layout (2 :: Buffer.alloc 224) 0 = Ok (VObj fields) /\
             falsy (lookup fields "isInitialized") = false /\
             key (lookup fields "adminAccount") = Ok "key" /\
             key (lookup fields "adminFeeAccountPool") = Ok "key" /\
             key (lookup fields "tokenAccountPool") = Ok "key" /\
             key (lookup fields "deltafiTokenMint") = Ok "key" /\
             key (lookup fields "mintPool") = Ok "key")
    by (eexists; repeat split; reflexivity).
  assert (E2 : exists fields,
             decode layout (Buffer.alloc 225) 0 = Ok (VObj fields) /\
             falsy (lookup fields "isInitialized") = true)
    by (eexists; split; reflexivity).
  assert (E3 : exists fields,
             decode FarmLayout_candidate
               (2 :: Buffer.alloc (span FarmLayout_candidate - 1)) 0
             = Ok (VObj fields) /\
             falsy (lookup fields "isInitialized") = false /\
             key (lookup fields "adminAccount") = Ok "key" /\
             key (lookup fields "adminFeeAccountPool") = Throw TypeError)
    by (eexists; repeat split; reflexivity).
  destruct E1 as (fields1 & D1 & F1 & A1 & A2 & A3 & A4 & A5).
  destruct E2 as (fields2 & D2 & F2).
  destruct E3 as (fields3 & D3 & F3 & A6 & A7).
  split; [|split].
  - eexists. split.
    + apply (proj2 (proj2 (proj2 (loadFarm_returns_iff_flag_set unit
                 (fun _ _ _ => Ok (2 :: Buffer.alloc 224)) layout key
                 (fun _ _ => Ok "authority") tt "farm" "program"
                 (2 :: Buffer.alloc 224) fields1 eq_refl D1) F1))
               "authority" "key" "key" "key" "key" "key"
               eq_refl A1 A2 A3 A4 A5).
    + repeat split.
  - apply (proj1 (loadFarm_returns_iff_flag_set unit
             (fun _ _ _ => Ok (Buffer.alloc 225)) layout key
             (fun _ _ => Ok "authority") tt "farm" "program"
             (Buffer.alloc 225) fields2 eq_refl D2) F2).
  - apply (proj1 (proj2 (proj2 (loadFarm_returns_iff_flag_set unit
             (fun _ _ _ =>
                Ok (2 :: Buffer.alloc (span FarmLayout_candidate - 1)))
             FarmLayout_candidate
             key (fun _ _ => Ok "authority") tt "farm" "program"
             (2 :: Buffer.alloc (span FarmLayout_candidate - 1)) fields3
             eq_refl D3) F3))
           "authority" ["adminAccount"] "adminFeeAccountPool"
           ["tokenAccountPool"; "deltafiTokenMint"; "mintPool"] TypeError
           eq_refl eq_refl
           (Forall_cons _ (ex_intro _ "key" A6) (Forall_nil _)) A7).
Defined.
